(** * Calendar sync: the thread-to-calendar reconciler

    A shallow embedding of [src/orchestration/calendar-sync.py] and the
    properties of its specification.

    - JSON documents (task records, the sync state, the parsed output of
      the calendar command) are values of [json]; objects are finite
      maps from strings, as Python dicts are.  Numbers are integers.
    - Strings are sequences of 8-bit characters; case conversion is the
      ASCII one.
    - The standard-library calls whose exact behaviour no property below
      depends on (JSON text parsing and printing, the three regular
      expressions, date parsing and formatting) are fields of the
      interface [PyLib].
    - Python exceptions are explicit: a computation returns a value or
      raises an exception of a class in [exn].
    - The file system, the wall clocks, the external calendar command and
      standard output are the [World]; the clocks and the command are
      oracles of an environment [Env], indexed by the number of readings
      or calls made so far. *)

From Stdlib Require Import ZArith String Ascii.
From stdpp Require Import gmap strings list fin_maps pretty.

#[local] Set Warnings "-register-all".
#[local] Open Scope string_scope.
#[local] Open Scope Z_scope.

(** ** JSON values *)

Inductive json :=
| JNull
| JBool (b : bool)
| JInt (z : Z)
| JStr (s : string)
| JArr (l : list json)
| JObj (m : gmap string json).

Abbreviation dict := (gmap string json).

(** ** Exceptions *)

Inductive exn :=
| JSONDecodeError
| UnicodeDecodeError
| ValueError
| AttributeError
| KeyError
| TypeError
| OverflowError.

(** Result of a computation without side effects. *)
Inductive res (A : Type) :=
| Val (a : A)
| Exn (e : exn).
Arguments Val {A} a.
Arguments Exn {A} e.

Definition res_bind {A B} (r : res A) (k : A -> res B) : res B :=
  match r with
  | Val a => k a
  | Exn e => Exn e
  end.

(** ** Dates and times

    A naive [datetime] is its number of microseconds since
    0001-01-01T00:00:00 in the proleptic Gregorian calendar, in the range
    of [datetime.min .. datetime.max]. *)

Abbreviation datetime := Z.

Definition US_PER_DAY : Z := 86400 * 1000000.
Definition MAX_ORDINAL : Z := 3652059.
Definition MAX_DELTA_DAYS : Z := 999999999.

Definition is_leap (y : Z) : bool :=
  (y mod 4 =? 0) && (negb (y mod 100 =? 0) || (y mod 400 =? 0)).

Definition days_in_month (y m : Z) : Z :=
  if m =? 2 then (if is_leap y then 29 else 28)
  else if (m =? 4) || (m =? 6) || (m =? 9) || (m =? 11) then 30
  else 31.

Definition days_before_year (y : Z) : Z :=
  let p := y - 1 in p * 365 + p / 4 - p / 100 + p / 400.

Definition days_before_month (y m : Z) : Z :=
  fold_right Z.add 0
    (map (days_in_month y) (filter (fun k => k <? m) [1;2;3;4;5;6;7;8;9;10;11])).

Definition ymd2ord (y m d : Z) : Z :=
  days_before_year y + days_before_month y m + d.

(** [datetime(year, month, day)]; [None] stands for [ValueError]. *)
Definition datetime_ymd (y m d : Z) : option datetime :=
  if (1 <=? y) && (y <=? 9999) && (1 <=? m) && (m <=? 12)
     && (1 <=? d) && (d <=? days_in_month y m)
  then Some ((ymd2ord y m d - 1) * US_PER_DAY)
  else None.

Definition toordinal (dt : datetime) : Z := dt / US_PER_DAY + 1.

(** [dt.year] *)
Definition datetime_year (dt : datetime) : Z :=
  let n := toordinal dt - 1 in
  let n400 := n / 146097 in
  let n := n mod 146097 in
  let n100 := n / 36524 in
  let n := n mod 36524 in
  let n4 := n / 1461 in
  let n := n mod 1461 in
  let n1 := n / 365 in
  let year := n400 * 400 + 1 + n100 * 100 + n4 * 4 + n1 in
  if (n1 =? 4) || (n100 =? 4) then year - 1 else year.

(** [dt.weekday()], Monday is 0. *)
Definition weekday (dt : datetime) : Z := (toordinal dt + 6) mod 7.

(** [dt + timedelta(days=n)] *)
Definition add_days (dt : datetime) (n : Z) : res datetime :=
  if Z.abs n <=? MAX_DELTA_DAYS then
    let r := dt + n * US_PER_DAY in
    if (0 <=? r) && (r <? MAX_ORDINAL * US_PER_DAY) then Val r
    else Exn OverflowError
  else Exn OverflowError.

(** ** Library interface *)

Class PyLib := {
  (** [json.loads]; [None] stands for [json.JSONDecodeError] *)
  json_loads : string -> option json;
  (** [json.dumps(_, sort_keys=True)] *)
  json_dumps : json -> string;
  (** [str] of a list or of a dict *)
  py_repr : json -> string;
  (** [sorted] of anything but a list of strings *)
  sorted_other : json -> res (list json);
  (** [re.search(r'(?:deadline|due)[:\s]+(\d{4}-\d{2}-\d{2})', _)]: group 1 *)
  search_iso_date : string -> option string;
  (** the month-name pattern: groups 1, 2 and the optional group 3 *)
  search_month_day : string -> option (string * string * option string);
  (** [re.search(r'in\s+(\d+)\s+(day|week|month)s?', _)]: groups 1 and 2 *)
  search_relative : string -> option (string * string);
  (** [datetime.strptime(_, "%Y-%m-%d")]; [None] stands for [ValueError] *)
  strptime_ymd : string -> option datetime;
  (** [datetime.fromisoformat(_).replace(tzinfo=None)]; [None] stands
      for [ValueError] *)
  fromisoformat : string -> option datetime;
  (** [_.strftime("%Y-%m-%d")] *)
  strftime_ymd : datetime -> string;
  (** [_.strftime("%Y-%m-%d %H:%M:%S")] *)
  strftime_ts : datetime -> string;
  (** [_.isoformat()] *)
  isoformat : datetime -> string;
}.

(** ** Strings

    Strings are byte strings; [upper] and [lower] are [str.upper] and
    [str.lower] on ASCII text, and leave every other byte as it is.
    In the same way [str_take] and [str_drop] count bytes, which are
    the characters of ASCII text, and [py_int] reads ASCII digits. *)

Definition ascii_upper (c : ascii) : ascii :=
  let n := nat_of_ascii c in
  if ((97 <=? n) && (n <=? 122))%nat then ascii_of_nat (n - 32) else c.

Definition ascii_lower (c : ascii) : ascii :=
  let n := nat_of_ascii c in
  if ((65 <=? n) && (n <=? 90))%nat then ascii_of_nat (n + 32) else c.

Fixpoint str_map (f : ascii -> ascii) (s : string) : string :=
  match s with
  | EmptyString => EmptyString
  | String c r => String (f c) (str_map f r)
  end.

Definition upper := str_map ascii_upper.
Definition lower := str_map ascii_lower.

Definition str_in (s : string) (l : list string) : bool :=
  existsb (String.eqb s) l.

(** [s.find(c)] for a one-character [c] *)
Fixpoint str_find (c : ascii) (s : string) : option nat :=
  match s with
  | EmptyString => None
  | String a r => if Ascii.eqb a c then Some O else S <$> str_find c r
  end.

(** [s[n:]] *)
Fixpoint str_drop (n : nat) (s : string) : string :=
  match n, s with
  | O, _ => s
  | S k, EmptyString => EmptyString
  | S k, String _ r => str_drop k r
  end.

(** [s[:n]] *)
Fixpoint str_take (n : nat) (s : string) : string :=
  match n, s with
  | O, _ => EmptyString
  | S k, EmptyString => EmptyString
  | S k, String a r => String a (str_take k r)
  end.

(** The part of [s] before the first [c] (all of [s] without one). *)
Fixpoint str_until (c : ascii) (s : string) : string :=
  match s with
  | EmptyString => EmptyString
  | String a r => if Ascii.eqb a c then EmptyString else String a (str_until c r)
  end.

(** [s.split(":")[1]] for an [s] that holds a colon *)
Definition split_colon_1 (s : string) : string :=
  match str_find ":"%char s with
  | Some i => str_until ":"%char (str_drop (S i) s)
  | None => EmptyString
  end.

(** [s.replace("Z", "+00:00")] *)
Fixpoint replace_Z (s : string) : string :=
  match s with
  | EmptyString => EmptyString
  | String a r =>
      if Ascii.eqb a "Z"%char then "+00:00" +:+ replace_Z r
      else String a (replace_Z r)
  end.

Definition digit_of (c : ascii) : option Z :=
  let n := nat_of_ascii c in
  if ((48 <=? n) && (n <=? 57))%nat then Some (Z.of_nat (n - 48)) else None.

Fixpoint parse_digits (acc : Z) (s : string) : option Z :=
  match s with
  | EmptyString => Some acc
  | String c r =>
      match digit_of c with
      | Some d => parse_digits (acc * 10 + d) r
      | None => None
      end
  end.

(** [int(s)] for a string of decimal digits; [None] stands for
    [ValueError]. *)
Definition py_int (s : string) : option Z :=
  match s with
  | EmptyString => None
  | _ => parse_digits 0 s
  end.

Fixpoint insert_sorted (x : string) (l : list string) : list string :=
  match l with
  | [] => [x]
  | y :: r => if String.leb x y then x :: l else y :: insert_sorted x r
  end.

(** [sorted] of a list of strings *)
Definition sort_strings (l : list string) : list string :=
  fold_right insert_sorted [] l.

(** ** Python values *)

(** Truth value of a JSON-derived Python value. *)
Definition py_truthy (j : json) : bool :=
  match j with
  | JNull => false
  | JBool b => b
  | JInt z => negb (z =? 0)
  | JStr s => negb (String.eqb s EmptyString)
  | JArr l => negb (Nat.eqb (length l) 0)
  | JObj m => negb (Nat.eqb (size m) 0)
  end.

Definition is_str (s : string) (j : json) : bool :=
  match j with
  | JStr t => String.eqb t s
  | _ => false
  end.

Section WithLib.
Context `{lib : PyLib}.

(** [str(j)] *)
Definition py_str (j : json) : string :=
  match j with
  | JNull => "None"
  | JBool true => "True"
  | JBool false => "False"
  | JInt z => pretty z
  | JStr s => s
  | JArr _ | JObj _ => py_repr j
  end.

(** [d.get(k)] *)
Definition dict_get (d : dict) (k : string) : json := default JNull (d !! k).

(** [d.get(k, dflt)] *)
Definition dict_get_or (d : dict) (k : string) (dflt : json) : json :=
  default dflt (d !! k).

(** [j.get(k)] on an arbitrary value *)
Definition py_get (j : json) (k : string) : res json :=
  match j with
  | JObj d => Val (dict_get d k)
  | _ => Exn AttributeError
  end.

Fixpoint all_strs (l : list json) : option (list string) :=
  match l with
  | [] => Some []
  | JStr s :: r => (fun t => s :: t) <$> all_strs r
  | _ :: _ => None
  end.

(** [sorted(j)] *)
Definition py_sorted (j : json) : res (list json) :=
  match j with
  | JArr l =>
      match all_strs l with
      | Some ss => Val (JStr <$> sort_strings ss)
      | None => sorted_other j
      end
  | _ => sorted_other j
  end.

(** ** Priorities *)

Definition get_priority_emoji (priority : string) : string :=
  if str_in priority ["P1"; "1"; "priority-1"] then "🔴"
  else if str_in priority ["P2"; "2"; "priority-2"] then "🟠"
  else if str_in priority ["P3"; "3"; "priority-3"] then "🟡"
  else "⚪".

Definition normalize_priority (priority : json) : string :=
  match priority with
  | JNull => "P4"
  | _ =>
      let p := upper (py_str priority) in
      if str_in p ["P1"; "1"; "PRIORITY-1"] then "P1"
      else if str_in p ["P2"; "2"; "PRIORITY-2"] then "P2"
      else if str_in p ["P3"; "3"; "PRIORITY-3"] then "P3"
      else "P4"
  end.

Definition PRIORITY_COLORS (priority : string) : string :=
  if String.eqb priority "P1" then "11"
  else if String.eqb priority "P2" then "6"
  else if String.eqb priority "P3" then "5"
  else "8".

Definition DEFAULT_DEADLINE_DAYS : Z := 7.

End WithLib.

(** ** The world *)

(** Outcome of one run of the external calendar command by
    [subprocess.run]: it completes with an exit code and its two output
    streams, it times out, or the call raises another [Exception] whose
    [str] is [msg]. *)
Inductive proc_result :=
| Completed (returncode : Z) (stdout stderr : string)
| TimeoutExpired
| Failed (msg : string).

Record Env := {
  now_at : nat -> datetime;        (* datetime.now() at the n-th clock reading *)
  utcnow_at : nat -> datetime;     (* datetime.utcnow() at the n-th clock reading *)
  subprocess_run : nat -> list json -> proc_result;
                                   (* the command, at the n-th call *)
}.

(** A JSON file holds the text of a JSON value, or text that
    [json.loads] rejects (an empty or a truncated file is of that kind),
    or bytes that [read_text] cannot decode as text. *)
Inductive file :=
| Json (j : json)
| Garbage
| Undecodable.

Record World := {
  (** THREADS_DIR: the entries of the directory; [Some f] when the entry
      is a directory that holds a [meta.json] with content [f] *)
  threads : gmap string (option file);
  (** STATE_FILE *)
  state_file : option file;
  clock_reads : nat;
  (** the commands run so far, oldest first, with their outcomes *)
  calls : list (list json * proc_result);
  (** the lines printed so far, oldest first *)
  printed : list string;
}.

Definition tick (w : World) : World :=
  {| threads := threads w; state_file := state_file w;
     clock_reads := S (clock_reads w); calls := calls w;
     printed := printed w |}.

Definition add_line (s : string) (w : World) : World :=
  {| threads := threads w; state_file := state_file w;
     clock_reads := clock_reads w; calls := calls w;
     printed := printed w ++ [s] |}.

Definition add_call (c : list json * proc_result) (w : World) : World :=
  {| threads := threads w; state_file := state_file w;
     clock_reads := clock_reads w; calls := calls w ++ [c];
     printed := printed w |}.

Definition set_meta_file (thread_id : string) (f : file) (w : World) : World :=
  {| threads := <[thread_id := Some f]> (threads w);
     state_file := state_file w;
     clock_reads := clock_reads w; calls := calls w;
     printed := printed w |}.

Definition set_state_file (f : file) (w : World) : World :=
  {| threads := threads w; state_file := Some f;
     clock_reads := clock_reads w; calls := calls w;
     printed := printed w |}.

(** ** Computations: state and exceptions *)

Inductive outcome (A : Type) :=
| Ok (a : A) (w : World)
| Raise (e : exn) (w : World).
Arguments Ok {A} a w.
Arguments Raise {A} e w.

Definition M (A : Type) : Type := World -> outcome A.

Definition ret {A} (a : A) : M A := fun w => Ok a w.

Definition raise {A} (e : exn) : M A := fun w => Raise e w.

Definition bind {A B} (c : M A) (k : A -> M B) : M B :=
  fun w =>
    match c w with
    | Ok a w' => k a w'
    | Raise e w' => Raise e w'
    end.

Definition lift {A} (r : res A) : M A :=
  match r with
  | Val a => ret a
  | Exn e => raise e
  end.

Declare Scope py_scope.
Delimit Scope py_scope with py.
Notation "x <- c ;; k" := (bind c (fun x => k))
  (at level 100, c at next level, right associativity) : py_scope.
Notation "c ;; k" := (bind c (fun _ => k))
  (at level 100, right associativity) : py_scope.
#[local] Open Scope py_scope.

Definition NL : string := String (ascii_of_nat 10) EmptyString.

Section Program.
Context `{lib : PyLib} (env : Env).

Definition now : M datetime :=
  fun w => Ok (now_at env (clock_reads w)) (tick w).

(** [datetime.utcnow().isoformat() + "Z"] *)
Definition utcnow_stamp : M string :=
  fun w => Ok (isoformat (utcnow_at env (clock_reads w)) +:+ "Z") (tick w).

Definition print (s : string) : M unit :=
  fun w => Ok tt (add_line s w).

Definition level_prefix (level : string) : string :=
  if String.eqb level "INFO" then "ℹ️"
  else if String.eqb level "SUCCESS" then "✅"
  else if String.eqb level "ERROR" then "❌"
  else if String.eqb level "WARN" then "⚠️"
  else if String.eqb level "SYNC" then "📅"
  else EmptyString.

Definition log (msg level : string) : M unit :=
  ts <- now ;;
  print ("[" +:+ strftime_ts ts +:+ "] " +:+ level_prefix level +:+ " " +:+ msg).

(** ** Deadline resolver *)

Definition month_names (s : string) : option Z :=
  if str_in s ["jan"; "january"] then Some 1
  else if str_in s ["feb"; "february"] then Some 2
  else if str_in s ["mar"; "march"] then Some 3
  else if str_in s ["apr"; "april"] then Some 4
  else if str_in s ["may"] then Some 5
  else if str_in s ["jun"; "june"] then Some 6
  else if str_in s ["jul"; "july"] then Some 7
  else if str_in s ["aug"; "august"] then Some 8
  else if str_in s ["sep"; "september"] then Some 9
  else if str_in s ["oct"; "october"] then Some 10
  else if str_in s ["nov"; "november"] then Some 11
  else if str_in s ["dec"; "december"] then Some 12
  else None.

(** Pattern "deadline: YYYY-MM-DD" or "due: YYYY-MM-DD". *)
Definition text_iso_date (text_lower : string) : option datetime :=
  match search_iso_date text_lower with
  | Some g1 => strptime_ymd g1
  | None => None
  end.

(** Pattern "by March 15" or "due March 15, 2026"; [ValueError] is
    caught, a month that the table lacks makes [datetime(...)] raise
    [TypeError]. *)
Definition text_month_day (text_lower : string) : M (option datetime) :=
  match search_month_day text_lower with
  | Some (g1, g2, g3) =>
      let month := month_names g1 in
      match py_int g2 with
      | None => ret None
      | Some day =>
          year <- match g3 with
                  | Some (String c r) => ret (py_int (String c r))
                  | _ => n <- now ;; ret (Some (datetime_year n))
                  end ;;
          match year with
          | None => ret None
          | Some y =>
              match month with
              | None => raise TypeError
              | Some m => ret (datetime_ymd y m day)
              end
          end
      end
  | None => ret None
  end.

(** Pattern "in X days/weeks/months". *)
Definition text_relative (text_lower : string) : M (option datetime) :=
  match search_relative text_lower with
  | Some (g1, unit) =>
      match py_int g1 with
      | None => raise ValueError
      | Some num =>
          if String.eqb unit "day" then
            n <- now ;; d <- lift (add_days n num) ;; ret (Some d)
          else if String.eqb unit "week" then
            n <- now ;; d <- lift (add_days n (7 * num)) ;; ret (Some d)
          else if String.eqb unit "month" then
            n <- now ;; d <- lift (add_days n (num * 30)) ;; ret (Some d)
          else ret None
      end
  | None => ret None
  end.

Definition extract_deadline_from_text (text : json) : M (option datetime) :=
  if negb (py_truthy text) then ret None
  else
    match text with
    | JStr s =>
        let text_lower := lower s in
        match text_iso_date text_lower with
        | Some d => ret (Some d)
        | None =>
            m <- text_month_day text_lower ;;
            match m with
            | Some d => ret (Some d)
            | None => text_relative text_lower
            end
        end
    | _ => raise AttributeError
    end.

Definition chars_of (s : string) : list json :=
  (fun c => JStr (String c EmptyString)) <$> list_ascii_of_string s.

(** The elements that [for label in labels] goes through. *)
Definition py_iter (j : json) : res (list json) :=
  match j with
  | JArr l => Val l
  | JStr s => Val (chars_of s)
  | JObj m => Val ((fun kv => JStr kv.1) <$> map_to_list m)
  | _ => Exn TypeError
  end.

Fixpoint labels_loop (labels : list json) : M (option datetime) :=
  match labels with
  | [] => ret None
  | label :: rest =>
      let label_str := lower (py_str label) in
      match (if String.prefix "deadline:" label_str
             then strptime_ymd (split_colon_1 label_str) else None) with
      | Some d => ret (Some d)
      | None =>
          match (if String.prefix "due-" label_str
                 then strptime_ymd (str_drop 4 label_str) else None) with
          | Some d => ret (Some d)
          | None =>
              if String.eqb label_str "this-week" then
                n1 <- now ;; n2 <- now ;;
                d <- lift (add_days n1 (7 - weekday n2)) ;; ret (Some d)
              else if String.eqb label_str "next-week" then
                n1 <- now ;; n2 <- now ;;
                d <- lift (add_days n1 (14 - weekday n2)) ;; ret (Some d)
              else labels_loop rest
          end
      end
  end.

Definition extract_deadline_from_labels (labels : json) : M (option datetime) :=
  if negb (py_truthy labels) then ret None
  else l <- lift (py_iter labels) ;; labels_loop l.

(** 1. the explicit deadline field *)
Definition from_deadline_field (meta : dict) : M (option datetime) :=
  match meta !! "deadline" with
  | Some v =>
      match (match v with
             | JStr s => fromisoformat (replace_Z s)
             | _ => None
             end) with
      | Some d => ret (Some d)
      | None => extract_deadline_from_text (JStr (py_str v))
      end
  | None => ret None
  end.

(** 2. the due_date field; [strptime] of a value that is not a string
    raises [TypeError] *)
Definition from_due_date_field (meta : dict) : M (option datetime) :=
  match meta !! "due_date" with
  | Some (JStr s) => ret (strptime_ymd s)
  | Some _ => raise TypeError
  | None => ret None
  end.

Definition or_else (c1 c2 : M (option datetime)) : M (option datetime) :=
  r <- c1 ;;
  match r with
  | Some d => ret (Some d)
  | None => c2
  end.

(** Steps 1 to 5 of [get_deadline]: the first source that gives a date. *)
Definition deadline_from_sources (meta : dict) : M (option datetime) :=
  or_else (from_deadline_field meta)
  (or_else (from_due_date_field meta)
  (or_else (extract_deadline_from_labels (dict_get_or meta "labels" (JArr [])))
  (or_else (extract_deadline_from_text (dict_get_or meta "description" (JStr EmptyString)))
           (extract_deadline_from_text (dict_get_or meta "notes" (JStr EmptyString)))))).

Definition priority_days (priority : string) : option Z :=
  if String.eqb priority "P1" then Some 3
  else if String.eqb priority "P2" then Some 7
  else if String.eqb priority "P3" then Some 14
  else if String.eqb priority "P4" then Some 30
  else None.

Definition get_deadline (meta : dict) (default_days : Z) : M datetime :=
  r <- deadline_from_sources meta ;;
  match r with
  | Some d => ret d
  | None =>
      (* 6. priority-based default *)
      let priority := normalize_priority (dict_get meta "priority") in
      n <- now ;;
      lift (add_days n (default default_days (priority_days priority)))
  end.

(** ** Event content builder *)

Definition GITHUB_REPO : string := "ShawnOwen/stacks-ranking-priorities".

Definition build_event_title (thread_id : string) (meta : dict) : res string :=
  let name := dict_get_or meta "name" (JStr thread_id) in
  let priority := normalize_priority (dict_get meta "priority") in
  let emoji := get_priority_emoji priority in
  res_bind (py_get (dict_get_or meta "sync" (JObj ∅)) "github_issue_number")
    (fun issue_num =>
       if py_truthy issue_num then
         Val (emoji +:+ " " +:+ priority +:+ ": #" +:+ py_str issue_num
                +:+ " - " +:+ py_str name)
       else Val (emoji +:+ " " +:+ priority +:+ ": " +:+ py_str name)).

Definition build_event_description (thread_id : string) (meta : dict) : M string :=
  let name := dict_get_or meta "name" (JStr thread_id) in
  let sync := dict_get_or meta "sync" (JObj ∅) in
  issue_num <- lift (py_get sync "github_issue_number") ;;
  let parts1 :=
    ["📋 Task Thread: " +:+ py_str name;
     "Priority: " +:+ normalize_priority (dict_get meta "priority");
     EmptyString;
     "🔗 Links:"] in
  let parts2 :=
    if py_truthy issue_num then
      ["• GitHub: https://github.com/" +:+ GITHUB_REPO +:+ "/issues/"
         +:+ py_str issue_num]
    else [] in
  gdrive_url <- lift (py_get sync "gdrive_folder_url") ;;
  let parts3 :=
    if py_truthy gdrive_url then ["• GDrive: " +:+ py_str gdrive_url] else [] in
  let parts4 :=
    ["• Thread: /equabot/threads/" +:+ thread_id +:+ "/";
     "• Session: agent:main:task-thread:"
       +:+ (if py_truthy issue_num then py_str issue_num else thread_id)] in
  deadline <- get_deadline meta DEFAULT_DEADLINE_DAYS ;;
  let parts5 := [EmptyString; "📅 Deadline: " +:+ strftime_ymd deadline] in
  let status := dict_get_or meta "status" (JStr "active") in
  let parts6 := ["📊 Status: " +:+ py_str status] in
  ret (String.concat NL (parts1 ++ parts2 ++ parts3 ++ parts4 ++ parts5 ++ parts6)).

(** ** Calendar gateway *)

Definition run_calendar_command (args : list json) : M (bool * string) :=
  fun w =>
    let r := subprocess_run env (length (calls w)) args in
    let w' := add_call (args, r) w in
    match r with
    | Completed returncode stdout stderr =>
        Ok (returncode =? 0, stdout +:+ stderr) w'
    | TimeoutExpired => Ok (false, "Command timed out") w'
    | Failed msg => Ok (false, msg) w'
    end.

Definition SENTINEL : string := "created_no_id".

(** The text of [event_id[:20]] in the message of a successful create. *)
Definition id_prefix (event_id : json) : res string :=
  match event_id with
  | JStr s => Val (str_take 20 s)
  | JArr l => Val (py_str (JArr (take 20 l)))
  | _ => Exn TypeError
  end.

Definition event_args (title description : string) (deadline : datetime)
    (meta : dict) : list json :=
  let start_str := strftime_ymd deadline +:+ "T09:00:00" in
  let end_str := strftime_ymd deadline +:+ "T10:00:00" in
  let priority := normalize_priority (dict_get meta "priority") in
  let color_id := PRIORITY_COLORS priority in
  [JStr "--start"; JStr start_str; JStr "--end"; JStr end_str;
   JStr "--description"; JStr description; JStr "--color"; JStr color_id].

Definition create_calendar_event (thread_id : string) (meta : dict)
    : M (option json) :=
  title <- lift (build_event_title thread_id meta) ;;
  description <- build_event_description thread_id meta ;;
  deadline <- get_deadline meta DEFAULT_DEADLINE_DAYS ;;
  r <- run_calendar_command
         ([JStr "create"; JStr title] ++ event_args title description deadline meta) ;;
  let success := r.1 in
  let output := r.2 in
  if success then
    let no_id :=
      log ("Created event: " +:+ title +:+ " (ID extraction failed)") "SUCCESS" ;;
      ret (Some (JStr SENTINEL)) in
    match str_find "{"%char output with
    | Some json_start =>
        match json_loads (str_drop json_start output) with
        | Some event_data =>
            event_id <- lift (py_get event_data "id") ;;
            if py_truthy event_id then
              shown <- lift (id_prefix event_id) ;;
              log ("Created event: " +:+ title +:+ " (ID: " +:+ shown +:+ "...)")
                  "SUCCESS" ;;
              ret (Some event_id)
            else no_id
        | None => no_id
        end
    | None => no_id
    end
  else
    log ("Failed to create event: " +:+ str_take 100 output) "ERROR" ;;
    ret None.

Definition update_calendar_event (event_id : json) (thread_id : string)
    (meta : dict) : M bool :=
  title <- lift (build_event_title thread_id meta) ;;
  description <- build_event_description thread_id meta ;;
  deadline <- get_deadline meta DEFAULT_DEADLINE_DAYS ;;
  r <- run_calendar_command
         ([JStr "update"; event_id; JStr "--title"; JStr title]
            ++ event_args title description deadline meta) ;;
  if r.1 then
    log ("Updated event: " +:+ title) "SUCCESS" ;;
    ret true
  else
    log ("Failed to update event: " +:+ str_take 100 r.2) "WARN" ;;
    ret false.

Definition delete_calendar_event (event_id : json) (thread_name : json) : M bool :=
  r <- run_calendar_command [JStr "delete"; event_id] ;;
  if r.1 then
    log ("Deleted event for closed thread: " +:+ py_str thread_name) "SUCCESS" ;;
    ret true
  else
    log ("Failed to delete event: " +:+ str_take 100 r.2) "WARN" ;;
    ret false.

(** ** Fingerprint *)

Definition get_thread_hash (meta : dict) : res string :=
  res_bind (py_sorted (dict_get_or meta "labels" (JArr [])))
    (fun labels =>
       let key_fields : dict :=
         {[ "name" := dict_get meta "name";
            "priority" := JStr (normalize_priority (dict_get meta "priority"));
            "status" := dict_get meta "status";
            "deadline" := dict_get meta "deadline";
            "labels" := JArr labels ]} in
       Val (json_dumps (JObj key_fields))).

(** ** Sync state *)

Definition zero_stats : dict :=
  {[ "created" := JInt 0; "updated" := JInt 0; "deleted" := JInt 0;
     "errors" := JInt 0 ]}.

Definition fresh_state : json :=
  JObj {[ "synced_threads" := JObj ∅;
          "last_sync" := JNull;
          "sync_stats" := JObj zero_stats ]}.

Definition load_state : M json :=
  fun w =>
    match state_file w with
    | Some (Json j) => Ok j w
    | Some Garbage => Raise JSONDecodeError w
    | Some Undecodable => Raise UnicodeDecodeError w
    | None => Ok fresh_state w
    end.

(** [j[k]] for a string [k] *)
Definition py_getitem (j : json) (k : string) : res json :=
  match j with
  | JObj d =>
      match d !! k with
      | Some v => Val v
      | None => Exn KeyError
      end
  | _ => Exn TypeError
  end.

(** [j[k] = v] for a string [k] *)
Definition py_setitem (j : json) (k : string) (v : json) : res json :=
  match j with
  | JObj d => Val (JObj (<[k := v]> d))
  | _ => Exn TypeError
  end.

(** [del j[k]] for a string [k] *)
Definition py_delitem (j : json) (k : string) : res json :=
  match j with
  | JObj d =>
      match d !! k with
      | Some _ => Val (JObj (delete k d))
      | None => Exn KeyError
      end
  | _ => Exn TypeError
  end.

(** [state["synced_threads"][thread_id] = entry]; the entry dict of the
    state is updated in place. *)
Definition set_entry (state : json) (thread_id : string) (entry : json) : res json :=
  res_bind (py_getitem state "synced_threads") (fun entries =>
  res_bind (py_setitem entries thread_id entry) (fun entries' =>
  py_setitem state "synced_threads" entries')).

(** [del state["synced_threads"][thread_id]] *)
Definition del_entry (state : json) (thread_id : string) : res json :=
  res_bind (py_getitem state "synced_threads") (fun entries =>
  res_bind (py_delitem entries thread_id) (fun entries' =>
  py_setitem state "synced_threads" entries')).

(** [Path.write_text] opens the file for writing, which empties it,
    and then writes the text: two operations on the file. *)
Definition write_text_state_file (j : json) : list (World -> World) :=
  [set_state_file Garbage; set_state_file (Json j)].

Definition run_steps (steps : list (World -> World)) (w : World) : World :=
  fold_left (fun w step => step w) steps w.

Definition save_state (state : json) : M json :=
  stamp <- utcnow_stamp ;;
  state' <- lift (py_setitem state "last_sync" (JStr stamp)) ;;
  fun w => Ok state' (run_steps (write_text_state_file state') w).

(** [save_state] in a process that dies after [k] operations on the
    state file. *)
Definition save_state_interrupted (k : nat) (state : json) : M json :=
  stamp <- utcnow_stamp ;;
  state' <- lift (py_setitem state "last_sync" (JStr stamp)) ;;
  fun w => Ok state' (run_steps (take k (write_text_state_file state')) w).

(** ** Reconciler *)

Definition is_terminal (status : json) : bool :=
  is_str "done" status || is_str "closed" status || is_str "completed" status.

Definition read_meta_file (thread_id : string) : M (option file) :=
  fun w => Ok (mjoin (threads w !! thread_id)) w.

Definition write_meta_file (thread_id : string) (meta : dict) : M unit :=
  fun w => Ok tt (set_meta_file thread_id (Json (JObj meta)) w).

(** [meta.setdefault("sync", {})], on which the event id is then set. *)
Definition meta_sync (meta : dict) : res dict :=
  match dict_get_or meta "sync" (JObj ∅) with
  | JObj sync => Val sync
  | _ => Exn TypeError
  end.

(** The record with the event id and the time of the sync written back. *)
Definition annotate_meta (meta sync : dict) (event_id : json) (stamp : string)
    : dict :=
  <["sync" := JObj (<["calendar_synced_at" := JStr stamp]>
                     (<["calendar_event_id" := event_id]> sync))]> meta.

(** The branch "Create new event". *)
Definition sync_create (thread_id : string) (meta : dict) (current_hash : string)
    (state : json) : M (string * json) :=
  log ("Creating event: " +:+ py_str (dict_get_or meta "name" (JStr thread_id)))
      "SYNC" ;;
  created <- create_calendar_event thread_id meta ;;
  match created with
  | Some event_id =>
      if py_truthy event_id then
        synced_at <- utcnow_stamp ;;
        issue_number <- lift (py_get (dict_get_or meta "sync" (JObj ∅))
                                "github_issue_number") ;;
        let entry : dict :=
          {[ "event_id" := event_id;
             "synced_at" := JStr synced_at;
             "issue_number" := issue_number;
             "hash" := JStr current_hash;
             "priority" := JStr (normalize_priority (dict_get meta "priority")) ]} in
        state' <- lift (set_entry state thread_id (JObj entry)) ;;
        sync <- lift (meta_sync meta) ;;
        stamp <- utcnow_stamp ;;
        write_meta_file thread_id (annotate_meta meta sync event_id stamp) ;;
        ret ("created", state')
      else ret ("error", state)
  | None => ret ("error", state)
  end.

(** The branch "already synced but changed"; [None] when control falls
    through to the creation of a new event. *)
Definition sync_existing (thread_id : string) (meta : dict) (current_hash : string)
    (synced_info : json) (state : json) : M (option (string * json)) :=
  h <- lift (py_get synced_info "hash") ;;
  if is_str current_hash h then ret (Some ("skipped", state))
  else
    event_id <- lift (py_get synced_info "event_id") ;;
    if py_truthy event_id && negb (is_str SENTINEL event_id) then
      log ("Thread changed, updating: "
             +:+ py_str (dict_get_or meta "name" (JStr thread_id))) "SYNC" ;;
      ok <- update_calendar_event event_id thread_id meta ;;
      if ok then
        info1 <- lift (py_setitem synced_info "hash" (JStr current_hash)) ;;
        stamp <- utcnow_stamp ;;
        info2 <- lift (py_setitem info1 "updated_at" (JStr stamp)) ;;
        state' <- lift (set_entry state thread_id info2) ;;
        ret (Some ("updated", state'))
      else ret (Some ("error", state))
    else ret None.

Definition sync_thread_to_calendar (thread_id : string) (state : json)
    : M (string * json) :=
  meta_file <- read_meta_file thread_id ;;
  match meta_file with
  | None => ret ("skipped", state)
  | Some Garbage =>
      log ("Invalid JSON in " +:+ thread_id +:+ "/meta.json") "ERROR" ;;
      ret ("error", state)
  | Some Undecodable =>
      (* [read_text] raises inside the [try], which catches
         [json.JSONDecodeError] only *)
      raise UnicodeDecodeError
  | Some (Json (JObj meta)) =>
      let status := dict_get_or meta "status" (JStr "active") in
      entries <- lift (py_getitem state "synced_threads") ;;
      synced_info <- lift (py_get entries thread_id) ;;
      if is_terminal status then
        if py_truthy synced_info then
          event_id <- lift (py_get synced_info "event_id") ;;
          if py_truthy event_id then
            (if negb (is_str SENTINEL event_id) then
               delete_calendar_event event_id
                 (dict_get_or meta "name" (JStr thread_id)) ;;
               ret tt
             else ret tt) ;;
            state' <- lift (del_entry state thread_id) ;;
            ret ("deleted", state')
          else ret ("skipped", state)
        else ret ("skipped", state)
      else
        current_hash <- lift (get_thread_hash meta) ;;
        handled <- (if py_truthy synced_info
                    then sync_existing thread_id meta current_hash synced_info state
                    else ret None) ;;
        match handled with
        | Some r => ret r
        | None => sync_create thread_id meta current_hash state
        end
  | Some (Json _) =>
      (* [meta.get] on a document that is not an object *)
      raise AttributeError
  end.

Definition has_meta (w : World) (thread_id : string) : bool :=
  match threads w !! thread_id with
  | Some (Some _) => true
  | _ => false
  end.

Fixpoint cleanup_loop (orphaned : list string) (state : json) : M json :=
  match orphaned with
  | [] => ret state
  | thread_id :: rest =>
      entries <- lift (py_getitem state "synced_threads") ;;
      synced_info <- lift (py_getitem entries thread_id) ;;
      event_id <- lift (py_get synced_info "event_id") ;;
      (if py_truthy event_id && negb (is_str SENTINEL event_id)
       then delete_calendar_event event_id (JStr thread_id) ;; ret tt
       else ret tt) ;;
      state' <- lift (del_entry state thread_id) ;;
      log ("Cleaned up orphaned thread: " +:+ thread_id) "WARN" ;;
      cleanup_loop rest state'
  end.

(** [list(j.keys())] *)
Definition py_keys (j : json) : res (list string) :=
  match j with
  | JObj d => Val (map_to_list d).*1
  | _ => Exn AttributeError
  end.

Definition cleanup_orphaned_events (state : json) : M (nat * json) :=
  entries <- lift (py_getitem state "synced_threads") ;;
  keys <- lift (py_keys entries) ;;
  orphaned <- (fun w => Ok (filter (fun k => negb (has_meta w k)) keys) w) ;;
  state' <- cleanup_loop orphaned state ;;
  ret (length orphaned, state').

Abbreviation stats_t := (gmap string Z).

Definition stat (stats : stats_t) (k : string) : Z := default 0 (stats !! k).

(** [stats[k] = stats.get(k, 0) + n] *)
Definition bump (k : string) (n : Z) (stats : stats_t) : stats_t :=
  <[k := stat stats k + n]> stats.

Definition initial_stats : stats_t :=
  {[ "created" := 0; "updated" := 0; "deleted" := 0; "skipped" := 0;
     "errors" := 0 ]}.

Fixpoint sync_all (thread_ids : list string) (state : json) (stats : stats_t)
    : M (stats_t * json) :=
  match thread_ids with
  | [] => ret (stats, state)
  | thread_id :: rest =>
      r <- sync_thread_to_calendar thread_id state ;;
      sync_all rest r.2 (bump r.1 1 stats)
  end.

Definition list_threads : M (list string) :=
  fun w => Ok (filter (fun k => has_meta w k) (map_to_list (threads w)).*1) w.

(** The pass over the records: orphan cleanup, then every thread in
    the order of its name. *)
Definition reconcile (state : json) : M (stats_t * json) :=
  let stats := initial_stats in
  c <- cleanup_orphaned_events state ;;
  let orphaned := c.1 in
  let stats := if Nat.eqb orphaned 0 then stats
               else bump "deleted" (Z.of_nat orphaned) stats in
  thread_ids <- list_threads ;;
  log ("Found " +:+ pretty (length thread_ids) +:+ " threads to process") "INFO" ;;
  sync_all (sort_strings thread_ids) c.2 stats.

(** [a + n] for a counter read from the state *)
Definition py_add_int (a : json) (n : Z) : res json :=
  match a with
  | JInt z => Val (JInt (z + n))
  | JBool b => Val (JInt ((if b then 1 else 0) + n))
  | _ => Exn TypeError
  end.

Fixpoint add_stats (keys : list string) (stats : stats_t) (state : json)
    : res json :=
  match keys with
  | [] => Val state
  | key :: rest =>
      res_bind (py_getitem state "sync_stats") (fun ss =>
      res_bind (match ss with
                | JObj d => Val (dict_get_or d key (JInt 0))
                | _ => Exn AttributeError
                end) (fun old =>
      res_bind (py_add_int old (stat stats key)) (fun new =>
      res_bind (py_setitem ss key new) (fun ss' =>
      res_bind (py_setitem state "sync_stats" ss') (fun state' =>
      add_stats rest stats state')))))
  end.

(** "Update cumulative stats" *)
Definition update_cumulative (stats : stats_t) (state : json) : res json :=
  match state with
  | JObj d =>
      let state1 :=
        match d !! "sync_stats" with
        | Some _ => state
        | None => JObj (<["sync_stats" := JObj zero_stats]> d)
        end in
      add_stats ["created"; "updated"; "deleted"; "errors"] stats state1
  | _ => Exn AttributeError
  end.

(** [len(j)] *)
Definition py_len (j : json) : res nat :=
  match j with
  | JObj d => Val (size d)
  | JArr l => Val (length l)
  | JStr s => Val (String.length s)
  | _ => Exn TypeError
  end.

(** The list [by_priority[p]] after the loop over the entries. *)
Fixpoint by_priority (items : list (string * json)) (p : string)
    : res (list string) :=
  match items with
  | [] => Val []
  | (tid, info) :: rest =>
      res_bind (match info with
                | JObj d => Val (dict_get_or d "priority" (JStr "P4"))
                | _ => Exn AttributeError
                end) (fun q =>
      res_bind (match q with
                | JStr s => if str_in s ["P1"; "P2"; "P3"; "P4"] then Val s
                            else Exn KeyError
                | JArr _ | JObj _ => Exn TypeError
                | _ => Exn KeyError
                end) (fun s =>
      res_bind (by_priority rest p) (fun l =>
      Val (if String.eqb s p then tid :: l else l))))
  end.

Definition str_repeat (s : string) (n : nat) : string :=
  String.concat EmptyString (replicate n s).

Definition print_priority (items : list (string * json)) (p : string) : M unit :=
  l <- lift (by_priority items p) ;;
  match l with
  | [] => ret tt
  | _ => print ("   " +:+ get_priority_emoji p +:+ " " +:+ p +:+ ": "
                  +:+ pretty (length l) +:+ " events")
  end.

(** [stats[k]] *)
Definition py_stat (stats : stats_t) (k : string) : res Z :=
  match stats !! k with
  | Some z => Val z
  | None => Exn KeyError
  end.

Definition print_sync_summary (stats : stats_t) (state : json) : M unit :=
  print (NL +:+ str_repeat "=" 60) ;;
  print "📊 CALENDAR SYNC SUMMARY" ;;
  print (str_repeat "=" 60) ;;
  created <- lift (py_stat stats "created") ;;
  print ("   Created:  " +:+ pretty created) ;;
  updated <- lift (py_stat stats "updated") ;;
  print ("   Updated:  " +:+ pretty updated) ;;
  deleted <- lift (py_stat stats "deleted") ;;
  print ("   Deleted:  " +:+ pretty deleted) ;;
  skipped <- lift (py_stat stats "skipped") ;;
  print ("   Skipped:  " +:+ pretty skipped) ;;
  errors <- lift (py_stat stats "errors") ;;
  print ("   Errors:   " +:+ pretty errors) ;;
  print (str_repeat "-" 60) ;;
  entries <- lift (py_getitem state "synced_threads") ;;
  n <- lift (py_len entries) ;;
  print ("   Total tracked events: " +:+ pretty n) ;;
  last <- lift (match state with
                | JObj d => Val (dict_get_or d "last_sync" (JStr "Never"))
                | _ => Exn AttributeError
                end) ;;
  print ("   Last sync: " +:+ py_str last) ;;
  print (str_repeat "=" 60) ;;
  if py_truthy entries then
    print (NL +:+ "📅 Active Calendar Events:") ;;
    match entries with
    | JObj d =>
        let items := map_to_list d in
        print_priority items "P1" ;;
        print_priority items "P2" ;;
        print_priority items "P3" ;;
        print_priority items "P4"
    | _ => raise AttributeError
    end
  else ret tt.

(** [main] up to the summary, with the statistics of the run and the
    state that it saved. *)
Definition run : M (stats_t * json) :=
  log (str_repeat "=" 60) "INFO" ;;
  log "📅 Calendar Sync Starting" "SYNC" ;;
  state <- load_state ;;
  r <- reconcile state ;;
  let stats := r.1 in
  state <- lift (update_cumulative stats r.2) ;;
  state <- save_state state ;;
  print_sync_summary stats state ;;
  ret (stats, state).

Definition main : M Z :=
  r <- run ;;
  ret (if 0 <? stat r.1 "errors" then 1 else 0).

End Program.

(** ** Fixtures

    A small library instance and environments on which the program can
    be run: a printer of JSON values, a reader of two command outputs,
    dates written YYYY-MM-DD, no match for the free-text patterns. *)

Definition DQ : string := String (ascii_of_nat 34) EmptyString.

Fixpoint fixture_dumps (fuel : nat) (j : json) : string :=
  match fuel with
  | O => "..."
  | S n =>
      match j with
      | JNull => "null"
      | JBool true => "true"
      | JBool false => "false"
      | JInt z => pretty z
      | JStr s => DQ +:+ s +:+ DQ
      | JArr l => "[" +:+ String.concat ", " (fixture_dumps n <$> l) +:+ "]"
      | JObj m =>
          "{" +:+ String.concat ", "
                    ((fun k => DQ +:+ k +:+ DQ +:+ ": "
                               +:+ fixture_dumps n (default JNull (m !! k)))
                       <$> sort_strings (map_to_list m).*1) +:+ "}"
      end
  end.

Definition OUTPUT_STRING_ID : string :=
  "{" +:+ DQ +:+ "id" +:+ DQ +:+ ": " +:+ DQ +:+ "evt_123" +:+ DQ +:+ "}".

Definition OUTPUT_NUMERIC_ID : string :=
  "{" +:+ DQ +:+ "id" +:+ DQ +:+ ": 12345}".

Definition fixture_loads (s : string) : option json :=
  if String.eqb s OUTPUT_STRING_ID then Some (JObj {[ "id" := JStr "evt_123" ]})
  else if String.eqb s OUTPUT_NUMERIC_ID then Some (JObj {[ "id" := JInt 12345 ]})
  else None.

Definition fixture_strptime (s : string) : option datetime :=
  if Nat.eqb (String.length s) 10 then
    match py_int (str_take 4 s), py_int (str_take 2 (str_drop 5 s)),
          py_int (str_drop 8 s) with
    | Some y, Some m, Some d => datetime_ymd y m d
    | _, _, _ => None
    end
  else None.

Definition fixture_lib : PyLib := {|
  json_loads := fixture_loads;
  json_dumps := fixture_dumps 32;
  py_repr := fixture_dumps 32;
  sorted_other := fun _ => Exn TypeError;
  search_iso_date := fun _ => None;
  search_month_day := fun _ => None;
  search_relative := fun _ => None;
  strptime_ymd := fixture_strptime;
  fromisoformat := fixture_strptime;
  strftime_ymd := fun d => "day " +:+ pretty (toordinal d);
  strftime_ts := fun d => "day " +:+ pretty (toordinal d);
  isoformat := fun d => "day " +:+ pretty (toordinal d);
|}.

(** The same library with a reader of one relative phrase. *)
Definition TEXT_LIB : PyLib := {|
  json_loads := fixture_loads;
  json_dumps := fixture_dumps 32;
  py_repr := fixture_dumps 32;
  sorted_other := fun _ => Exn TypeError;
  search_iso_date := fun _ => None;
  search_month_day := fun _ => None;
  search_relative := fun s =>
    if String.eqb s "ship in 3 weeks" then Some ("3", "week") else None;
  strptime_ymd := fixture_strptime;
  fromisoformat := fixture_strptime;
  strftime_ymd := fun d => "day " +:+ pretty (toordinal d);
  strftime_ts := fun d => "day " +:+ pretty (toordinal d);
  isoformat := fun d => "day " +:+ pretty (toordinal d);
|}.

(** 2026-11-03, 09:00 *)
Definition FIXTURE_NOW : datetime := 739922 * US_PER_DAY + 9 * 3600 * 1000000.

(** An environment whose clocks stand still and whose calendar command
    always ends in the same way. *)
Definition fixture_env (r : proc_result) : Env := {|
  now_at := fun _ => FIXTURE_NOW;
  utcnow_at := fun _ => FIXTURE_NOW;
  subprocess_run := fun _ _ => r;
|}.

Definition fixture_world (ts : gmap string (option file)) (sf : option file)
    : World :=
  {| threads := ts; state_file := sf; clock_reads := 0; calls := [];
     printed := [] |}.

(** The example task of the specification. *)
Definition SHIP_V2 : dict :=
  {[ "name" := JStr "Ship v2"; "priority" := JStr "2";
     "status" := JStr "active"; "labels" := JArr [JStr "due-2026-03-01"] ]}.

Definition CLOSED_TASK : dict :=
  {[ "name" := JStr "Old task"; "status" := JStr "closed" ]}.

(** The command succeeds and prints an event with a string id. *)
Definition ENV_OK : Env := fixture_env (Completed 0 OUTPUT_STRING_ID EmptyString).

(** The command succeeds and prints an event with a numeric id. *)
Definition ENV_NUMERIC : Env := fixture_env (Completed 0 OUTPUT_NUMERIC_ID EmptyString).

(** The command times out. *)
Definition ENV_DOWN : Env := fixture_env TimeoutExpired.

Definition entry_of (event_id hash : string) : json :=
  JObj {[ "event_id" := JStr event_id; "hash" := JStr hash;
          "priority" := JStr "P2" ]}.

Definition state_with (entries : dict) : json :=
  JObj {[ "synced_threads" := JObj entries; "last_sync" := JNull;
          "sync_stats" := JObj zero_stats ]}.

(** The object of [state_with]. *)
Definition entries_state (entries : dict) : dict :=
  {[ "synced_threads" := JObj entries; "last_sync" := JNull;
     "sync_stats" := JObj zero_stats ]}.

(** A record whose "sync" field is a string. *)
Definition BAD_SYNC : dict :=
  {[ "name" := JStr "Bad sync"; "sync" := JStr "evt_123" ]}.

(** An active task to create, a closed task that is tracked, an
    unreadable record, and two tracked threads whose record is gone (a
    directory without record that holds the sentinel, and no directory
    at all). *)
Definition WORLD_MIXED : World :=
  fixture_world
    {[ "t1" := Some (Json (JObj SHIP_V2));
       "t2" := Some (Json (JObj CLOSED_TASK));
       "t3" := Some Garbage;
       "t4" := None ]}
    (Some (Json (state_with
       {[ "t2" := entry_of "ev2" "h2";
          "t4" := entry_of SENTINEL "h4";
          "gone" := entry_of "ev0" "h0" ]}))).

(** A tracked active task whose fingerprint changed. *)
Definition WORLD_STALE : World :=
  fixture_world {[ "t1" := Some (Json (JObj SHIP_V2)) ]}
    (Some (Json (state_with {[ "t1" := entry_of "ev1" "old" ]}))).

(** A first run on one active task. *)
Definition WORLD_NEW : World :=
  fixture_world {[ "t1" := Some (Json (JObj SHIP_V2)) ]} None.

(** A record whose bytes are not text, before a sound one. *)
Definition WORLD_BINARY : World :=
  fixture_world
    {[ "a" := Some Undecodable;
       "b" := Some (Json (JObj SHIP_V2)) ]}
    None.

(** A record whose due date does not parse and whose label holds no
    deadline, with a description that is a list. *)
Definition LIST_DESCRIPTION : dict :=
  {[ "name" := JStr "Odd"; "due_date" := JStr "soon";
     "labels" := JArr [JStr "bug"];
     "description" := JArr [JStr "due: 2026-03-01"] ]}.

(** A record that is a JSON array, one whose due date is a number, and
    a sound one. *)
Definition WORLD_ODD : World :=
  fixture_world
    {[ "a" := Some (Json (JArr []));
       "b" := Some (Json (JObj SHIP_V2));
       "c" := Some (Json (JObj {[ "due_date" := JInt 20260301 ]})) ]}
    None.

(** ** Notions of the specification *)

#[local] Open Scope list_scope.

(** The statistics of a run, by answer of the sync step. *)
Abbreviation run_stats := (gmap string Z).

(** The command did not end with exit code 0. *)
Definition proc_failed (r : proc_result) : bool :=
  match r with
  | Completed returncode _ _ => negb (returncode =? 0)
  | TimeoutExpired => true
  | Failed _ => true
  end.

(** The text that the gateway keeps of a command. *)
Definition diagnostic (r : proc_result) : string :=
  match r with
  | Completed _ stdout stderr => stdout +:+ stderr
  | TimeoutExpired => "Command timed out"
  | Failed msg => msg
  end.

(** Offset in days of the fallback deadline, by normalized priority. *)
Definition rank_offset (priority : string) : Z :=
  if String.eqb priority "P1" then 3
  else if String.eqb priority "P2" then 7
  else if String.eqb priority "P3" then 14
  else 30.

(** The entries of a sync state. *)
Definition entries_of (state : json) : option dict :=
  match state with
  | JObj d =>
      match d !! "synced_threads" with
      | Some (JObj e) => Some e
      | _ => None
      end
  | _ => None
  end.

(** Nothing changed but the clock and the printed lines. *)
Definition quiet (w w' : World) : Prop :=
  threads w' = threads w /\ state_file w' = state_file w /\ calls w' = calls w.

(** A computation that changes nothing but the clock and the printed
    lines, whether it returns or raises. *)
Definition Quiet {A} (c : M A) : Prop :=
  forall w, match c w with
            | Ok _ w' => quiet w w'
            | Raise _ w' => quiet w w'
            end.

(** The line that [log] prints for a failed command: the first hundred
    characters of its diagnostic after the words [what]. *)
Definition logged_failure `{lib : PyLib} (w' : World) (level what : string)
    (r : proc_result) : Prop :=
  exists ts, last (printed w') =
             Some ("[" +:+ ts +:+ "] " +:+ level_prefix level +:+ " " +:+ what
                     +:+ str_take 100 (diagnostic r)).

(** The offset of the fallback deadline as the specification words it:
    the configurable default for rank 4. *)
Definition spec_rank_offset (default_days : Z) (priority : string) : Z :=
  if String.eqb priority "P1" then 3
  else if String.eqb priority "P2" then 7
  else if String.eqb priority "P3" then 14
  else default_days.

(** The command of a recorded call ended with exit code 0. *)
Definition call_ok (c : list json * proc_result) : bool := negb (proc_failed c.2).

(** A record [f] and the entry [synced_info] of its thread on which
    the reconciler has nothing left to do: a record whose text does not
    parse; a terminal task without an entry that holds an event id; an
    active task whose entry carries the fingerprint of the record.  A
    record whose bytes are not text is never settled: the step raises
    on it. *)
Definition settled `{lib : PyLib} (f : file) (synced_info : json) : Prop :=
  match f with
  | Garbage => True
  | Undecodable => False
  | Json (JObj meta) =>
      if is_terminal (dict_get_or meta "status" (JStr "active")) then
        py_truthy synced_info = false
        \/ exists d, synced_info = JObj d
                     /\ py_truthy (dict_get d "event_id") = false
      else
        exists d h, synced_info = JObj d /\ py_truthy synced_info = true
                    /\ get_thread_hash meta = Val h
                    /\ is_str h (dict_get d "hash") = true
  | Json _ => False
  end.

(** What one step of the reconciler on [thread_id] does to a state
    with the entries [E] and to the world: the entry and the record of
    the thread are the only ones that change; the answer "deleted" goes
    with the removal of the entry, and after any other answer an entry
    that was there still is; after "skipped" and "error" nothing has
    changed; and when every command succeeded the thread is settled. *)
Definition step_facts `{lib : PyLib} (thread_id : string) (sd E : dict) (w : World)
    (r : string) (state' : json) (w' : World) : Prop :=
  exists (sd' E' : dict) cs,
    state' = JObj sd' /\ sd' !! "synced_threads" = Some (JObj E')
    /\ (forall k, k <> "synced_threads" -> sd' !! k = sd !! k)
    /\ calls w' = calls w ++ cs /\ state_file w' = state_file w
    /\ (forall t, t <> thread_id ->
                  threads w' !! t = threads w !! t /\ E' !! t = E !! t)
    /\ (forall t, has_meta w' t = has_meta w t)
    /\ (r = "deleted" /\ is_Some (E !! thread_id) /\ E' !! thread_id = None
        \/ r ∈ ["created"; "updated"; "skipped"; "error"]
           /\ (is_Some (E !! thread_id) -> is_Some (E' !! thread_id)))
    /\ (r = "skipped" \/ r = "error" -> sd' = sd /\ threads w' = threads w)
    /\ (forallb call_ok cs = true ->
        forall f, threads w' !! thread_id = Some (Some f) ->
                  settled f (dict_get E' thread_id)).

(** The object [key_fields] that [get_thread_hash] serializes, for the
    sorted labels [labels]. *)
Definition key_fields `{lib : PyLib} (meta : dict) (labels : list json) : dict :=
  {[ "name" := dict_get meta "name";
     "priority" := JStr (normalize_priority (dict_get meta "priority"));
     "status" := dict_get meta "status";
     "deadline" := dict_get meta "deadline";
     "labels" := JArr labels ]}.

(** [json.dumps] tells two values apart: it gives them the same text
    only when they are the same value. *)
Definition told_apart `{lib : PyLib} (x y : json) : Prop :=
  json_dumps x = json_dumps y -> x = y.

(** The counter [k] of the cumulative statistics is an integer. *)
Definition int_at (ss : dict) (k : string) : Prop :=
  exists z, ss !! k = Some (JInt z).

Definition STAT_KEYS : list string := ["created"; "updated"; "deleted"; "errors"].

(** The statistics hold the five counters that [main] starts from. *)
Definition has_counters (stats : run_stats) : Prop :=
  forall k, k ∈ ["created"; "updated"; "deleted"; "skipped"; "errors"] ->
            is_Some (stats !! k).

(** The entries on which [print_sync_summary] does not raise. *)
Definition summary_ok (E : dict) : Prop :=
  py_truthy (JObj E) = true ->
  forall p, p ∈ ["P1"; "P2"; "P3"; "P4"] ->
            exists l, by_priority (map_to_list E) p = Val l.

(** The computation returned. *)
Definition is_ok {A} (o : outcome A) : bool :=
  match o with
  | Ok _ _ => true
  | Raise _ _ => false
  end.

(** A label from which [extract_deadline_from_labels] gets nothing: no
    "deadline:" or "due-" prefix with a date that parses, and neither
    of the two week tokens. *)
Definition label_yields_nothing `{lib : PyLib} (label : json) : Prop :=
  let label_str := lower (py_str label) in
  (if String.prefix "deadline:" label_str
   then strptime_ymd (split_colon_1 label_str) else None) = None
  /\ (if String.prefix "due-" label_str
      then strptime_ymd (str_drop 4 label_str) else None) = None
  /\ String.eqb label_str "this-week" = false
  /\ String.eqb label_str "next-week" = false.

(** The field [k] of a record is absent or false in a condition. *)
Definition absent_or_falsy (meta : dict) (k : string) : Prop :=
  forall v, meta !! k = Some v -> py_truthy v = false.

(** The event id that a successful create draws from the output of
    the command: the truthy [id] of the object that [json.loads] reads
    from the first brace on, and the sentinel otherwise. *)
Definition id_of_output `{lib : PyLib} (output : string) : json :=
  match str_find "{"%char output with
  | Some json_start =>
      match json_loads (str_drop json_start output) with
      | Some event_data =>
          match py_get event_data "id" with
          | Val event_id => if py_truthy event_id then event_id else JStr SENTINEL
          | Exn _ => JStr SENTINEL
          end
      | None => JStr SENTINEL
      end
  | None => JStr SENTINEL
  end.

(** The entry that the reconciler writes for a created event. *)
Definition created_entry `{lib : PyLib} (meta : dict) (event_id : json)
    (synced_at hash : string) : json :=
  JObj {[ "event_id" := event_id;
          "synced_at" := JStr synced_at;
          "issue_number" := dict_get_or (default ∅ (match meta !! "sync" with
                                                    | Some (JObj sync) => Some sync
                                                    | _ => None
                                                    end))
                              "github_issue_number" JNull;
          "hash" := JStr hash;
          "priority" := JStr (normalize_priority (dict_get meta "priority")) ]}.

(** The entry after a successful update. *)
Definition updated_entry (d : dict) (hash stamp : string) : json :=
  JObj (<["updated_at" := JStr stamp]> (<["hash" := JStr hash]> d)).

(** An entry as the reconciler writes them: an object with a truthy
    event id, a fingerprint and a rank as priority. *)
Definition wf_entry (v : json) : Prop :=
  exists (d : dict) event_id h p,
    v = JObj d /\ d !! "event_id" = Some event_id /\ py_truthy event_id = true
    /\ d !! "hash" = Some (JStr h)
    /\ d !! "priority" = Some (JStr p) /\ p ∈ ["P1"; "P2"; "P3"; "P4"].

(** The deadline [k] days after the time of the clock: the clock is
    read once, and a date beyond the range of dates is an
    [OverflowError]. *)
Definition after_days (env : Env) (k : Z) : M (option datetime) :=
  fun w =>
    match add_days (now_at env (clock_reads w)) k with
    | Val d => Ok (Some d) (tick w)
    | Exn e => Raise e (tick w)
    end.

(** The world in which a computation ends. *)
Definition world_of {A} (o : outcome A) : World :=
  match o with
  | Ok _ w => w
  | Raise _ w => w
  end.

(** A computation that leaves the state file as it is, whether it
    returns or raises. *)
Definition Keeps_state_file {A} (c : M A) : Prop :=
  forall w, state_file (world_of (c w)) = state_file w.

(** * Properties *)

Section Proofs.
Context `{lib : PyLib} (env : Env).

(** ** Computations *)

Lemma bind_Ok {A B} (c : M A) (k : A -> M B) w b w2 :
  bind c k w = Ok b w2 -> exists a w1, c w = Ok a w1 /\ k a w1 = Ok b w2.
Proof.
  unfold bind. destruct (c w) as [a w1|e w1]; [eauto | discriminate].
Qed.

Lemma lift_Ok {A} (r : res A) w a w1 :
  lift r w = Ok a w1 -> r = Val a /\ w1 = w.
Proof. destruct r; cbn; intros H; inversion H; auto. Qed.

Lemma ret_Ok {A} (a b : A) w w1 : ret a w = Ok b w1 -> a = b /\ w1 = w.
Proof. intros H; inversion H; auto. Qed.

Lemma res_bind_Val {A B} (r : res A) (k : A -> res B) b :
  res_bind r k = Val b -> exists a, r = Val a /\ k a = Val b.
Proof. destruct r; cbn; [eauto | discriminate]. Qed.

Lemma quiet_refl w : quiet w w.
Proof. repeat split. Qed.

Lemma quiet_trans w1 w2 w3 : quiet w1 w2 -> quiet w2 w3 -> quiet w1 w3.
Proof. unfold quiet. intros (?&?&?) (?&?&?). repeat split; congruence. Qed.

Lemma Quiet_ret {A} (a : A) : Quiet (ret a).
Proof. intros w. apply quiet_refl. Qed.

Lemma Quiet_raise {A} e : Quiet (@raise A e).
Proof. intros w. apply quiet_refl. Qed.

Lemma Quiet_lift {A} (r : res A) : Quiet (lift r).
Proof. destruct r; [apply Quiet_ret | apply Quiet_raise]. Qed.

Lemma Quiet_bind {A B} (c : M A) (k : A -> M B) :
  Quiet c -> (forall a, Quiet (k a)) -> Quiet (bind c k).
Proof.
  intros Hc Hk w. unfold bind. specialize (Hc w).
  destruct (c w) as [a w1|e w1]; [|exact Hc].
  specialize (Hk a w1). destruct (k a w1); eapply quiet_trans; eauto.
Qed.

Lemma Quiet_now : Quiet (now env).
Proof. intros w. repeat split. Qed.

Lemma Quiet_utcnow_stamp : Quiet (utcnow_stamp env).
Proof. intros w. repeat split. Qed.

Lemma Quiet_print s : Quiet (print s).
Proof. intros w. repeat split. Qed.

Lemma Quiet_log msg level : Quiet (log env msg level).
Proof. apply Quiet_bind; [apply Quiet_now | intros; apply Quiet_print]. Qed.

Lemma Quiet_Ok {A} (c : M A) w a w1 : Quiet c -> c w = Ok a w1 -> quiet w w1.
Proof. intros H E. specialize (H w). now rewrite E in H. Qed.

Lemma Quiet_Raise {A} (c : M A) w e w1 : Quiet c -> c w = Raise e w1 -> quiet w w1.
Proof. intros H E. specialize (H w). now rewrite E in H. Qed.

Ltac quiet_step :=
  first
    [ apply Quiet_ret | apply Quiet_raise | apply Quiet_lift
    | apply Quiet_now | apply Quiet_utcnow_stamp | apply Quiet_print
    | apply Quiet_log
    | apply Quiet_bind; [| intros ?]
    | match goal with
      | |- Quiet (match ?x with _ => _ end) => destruct x
      | |- Quiet (if ?b then _ else _) => destruct b
      end ].

Ltac quiet := repeat quiet_step.

Lemma Quiet_text_month_day t : Quiet (text_month_day env t).
Proof. unfold text_month_day. quiet. Qed.

Lemma Quiet_text_relative t : Quiet (text_relative env t).
Proof. unfold text_relative. quiet. Qed.

Lemma Quiet_extract_deadline_from_text t :
  Quiet (extract_deadline_from_text env t).
Proof.
  unfold extract_deadline_from_text.
  destruct (negb (py_truthy t)); [apply Quiet_ret|].
  destruct t; try apply Quiet_raise.
  destruct (text_iso_date _); [apply Quiet_ret|].
  apply Quiet_bind; [apply Quiet_text_month_day|].
  intros [d|]; [apply Quiet_ret | apply Quiet_text_relative].
Qed.

Lemma Quiet_labels_loop l : Quiet (labels_loop env l).
Proof.
  induction l as [|label rest IH]; cbn [labels_loop]; [apply Quiet_ret|].
  quiet. exact IH.
Qed.

Lemma Quiet_extract_deadline_from_labels j :
  Quiet (extract_deadline_from_labels env j).
Proof.
  unfold extract_deadline_from_labels.
  destruct (negb (py_truthy j)); [apply Quiet_ret|].
  apply Quiet_bind; [apply Quiet_lift | intros; apply Quiet_labels_loop].
Qed.

Lemma Quiet_or_else c1 c2 : Quiet c1 -> Quiet c2 -> Quiet (or_else c1 c2).
Proof.
  intros H1 H2. apply Quiet_bind; [exact H1|].
  intros [d|]; [apply Quiet_ret | exact H2].
Qed.

Lemma Quiet_deadline_from_sources meta : Quiet (deadline_from_sources env meta).
Proof.
  unfold deadline_from_sources.
  repeat apply Quiet_or_else;
    try apply Quiet_extract_deadline_from_text;
    try apply Quiet_extract_deadline_from_labels.
  - unfold from_deadline_field. destruct (meta !! "deadline"); [|apply Quiet_ret].
    match goal with |- Quiet (match ?x with _ => _ end) => destruct x end;
      [apply Quiet_ret | apply Quiet_extract_deadline_from_text].
  - unfold from_due_date_field. quiet.
Qed.

Lemma Quiet_get_deadline meta dd : Quiet (get_deadline env meta dd).
Proof.
  unfold get_deadline. apply Quiet_bind; [apply Quiet_deadline_from_sources|].
  intros [d|]; quiet.
Qed.

Lemma Quiet_build_event_description tid meta :
  Quiet (build_event_description env tid meta).
Proof.
  unfold build_event_description.
  apply Quiet_bind; [apply Quiet_lift | intros issue_num].
  apply Quiet_bind; [apply Quiet_lift | intros gdrive].
  apply Quiet_bind; [apply Quiet_get_deadline | intros d; apply Quiet_ret].
Qed.

(** ** The gateway *)

Lemma run_calendar_command_eq args w :
  let r := subprocess_run env (length (calls w)) args in
  run_calendar_command env args w
  = Ok (negb (proc_failed r), diagnostic r) (add_call (args, r) w).
Proof.
  unfold run_calendar_command. cbn zeta.
  destruct (subprocess_run env (length (calls w)) args); cbn;
    rewrite ?negb_involutive; reflexivity.
Qed.

Lemma log_eq msg level w :
  log env msg level w
  = Ok tt (add_line ("[" +:+ strftime_ts (now_at env (clock_reads w)) +:+ "] "
                       +:+ level_prefix level +:+ " " +:+ msg) (tick w)).
Proof. reflexivity. Qed.

Lemma last_snoc {A} (l : list A) x : last (l ++ [x]) = Some x.
Proof. induction l as [|a [|b l] IH]; cbn in *; auto. Qed.

Lemma str_take_length n s : (String.length (str_take n s) <= n)%nat.
Proof.
  revert s. induction n as [|n IH]; intros [|a s]; cbn; try lia.
  specialize (IH s). lia.
Qed.

Lemma delete_calendar_event_spec event_id thread_name w :
  let r := subprocess_run env (length (calls w)) [JStr "delete"; event_id] in
  exists w',
    delete_calendar_event env event_id thread_name w
    = Ok (negb (proc_failed r)) w'
    /\ threads w' = threads w /\ state_file w' = state_file w
    /\ calls w' = calls w ++ [([JStr "delete"; event_id], r)]
    /\ (proc_failed r = true -> logged_failure w' "WARN" "Failed to delete event: " r).
Proof.
  intros r. unfold delete_calendar_event, bind.
  rewrite run_calendar_command_eq. fold r. cbn [fst snd].
  destruct (proc_failed r) eqn:F; cbn [negb]; rewrite log_eq;
    (eexists; split; [reflexivity|]); repeat split; try discriminate.
  intros _. eexists. cbn [printed add_line]. apply last_snoc.
Qed.

Lemma update_calendar_event_spec event_id thread_id meta w :
  match update_calendar_event env event_id thread_id meta w with
  | Ok b w' =>
      exists args,
        let r := subprocess_run env (length (calls w)) args in
        b = negb (proc_failed r)
        /\ threads w' = threads w /\ state_file w' = state_file w
        /\ calls w' = calls w ++ [(args, r)]
        /\ (proc_failed r = true ->
            logged_failure w' "WARN" "Failed to update event: " r)
  | Raise _ w' => quiet w w'
  end.
Proof.
  unfold update_calendar_event, bind.
  destruct (build_event_title thread_id meta) as [title|e]; cbn [lift];
    [|apply quiet_refl]. unfold ret at 1.
  pose proof (Quiet_build_event_description thread_id meta w) as Q1.
  destruct (build_event_description env thread_id meta w) as [desc w1|e w1];
    [|exact Q1].
  pose proof (Quiet_get_deadline meta DEFAULT_DEADLINE_DAYS w1) as Q2.
  destruct (get_deadline env meta DEFAULT_DEADLINE_DAYS w1) as [dl w2|e w2];
    [|eapply quiet_trans; eauto].
  destruct (quiet_trans _ _ _ Q1 Q2) as (Ht & Hs & Hc).
  rewrite run_calendar_command_eq. cbn [fst snd]. rewrite Hc.
  match goal with |- context [subprocess_run env _ ?a] => set (args := a) end.
  destruct (proc_failed (subprocess_run env (length (calls w)) args)) eqn:F;
    cbn [negb]; rewrite log_eq; exists args; cbn zeta; rewrite F;
    cbn [threads state_file calls printed add_line tick add_call];
    rewrite ?Hc; repeat split; auto; try discriminate.
  intros _. eexists. apply last_snoc.
Qed.

(** What [create_calendar_event] makes of the output of a command
    that succeeded. *)
Lemma create_calendar_event_spec thread_id meta w :
  match create_calendar_event env thread_id meta w with
  | Ok created w' =>
      exists args,
        let r := subprocess_run env (length (calls w)) args in
        threads w' = threads w /\ state_file w' = state_file w
        /\ calls w' = calls w ++ [(args, r)]
        /\ (proc_failed r = true ->
            created = None
            /\ logged_failure w' "ERROR" "Failed to create event: " r)
        /\ (proc_failed r = false ->
            exists event_id, created = Some event_id /\ py_truthy event_id = true)
  | Raise _ w' =>
      quiet w w'
      \/ exists args,
           let r := subprocess_run env (length (calls w)) args in
           proc_failed r = false /\ calls w' = calls w ++ [(args, r)]
  end.
Proof.
  unfold create_calendar_event, bind.
  destruct (build_event_title thread_id meta) as [title|e]; cbn [lift];
    [|left; apply quiet_refl]. unfold ret at 1.
  pose proof (Quiet_build_event_description thread_id meta w) as Q1.
  destruct (build_event_description env thread_id meta w) as [desc w1|e w1];
    [|left; exact Q1].
  pose proof (Quiet_get_deadline meta DEFAULT_DEADLINE_DAYS w1) as Q2.
  destruct (get_deadline env meta DEFAULT_DEADLINE_DAYS w1) as [dl w2|e w2];
    [|left; eapply quiet_trans; eauto].
  destruct (quiet_trans _ _ _ Q1 Q2) as (Ht & Hs & Hc).
  rewrite run_calendar_command_eq. cbn [fst snd]. rewrite Hc.
  match goal with |- context [subprocess_run env _ ?a] => set (args := a) end.
  set (r := subprocess_run env (length (calls w)) args).
  assert (Hno : forall msg,
    exists w', (log env msg "SUCCESS" ;; ret (Some (JStr SENTINEL)))%py
                 (add_call (args, r) w2) = Ok (Some (JStr SENTINEL)) w'
      /\ threads w' = threads w /\ state_file w' = state_file w
      /\ calls w' = calls w ++ [(args, r)]).
  { intros msg. unfold bind. rewrite log_eq. eexists. split; [reflexivity|].
    cbn. rewrite Hc. auto. }
  destruct (proc_failed r) eqn:F; cbn [negb].
  - rewrite log_eq. exists args. fold r. rewrite F. cbn zeta.
    cbn [threads state_file calls printed add_line tick add_call]. rewrite Hc.
    repeat split; auto; try discriminate. eexists. apply last_snoc.
  - assert (Hsent : forall msg,
      match (log env msg "SUCCESS" ;; ret (Some (JStr SENTINEL)))%py
              (add_call (args, r) w2) with
      | Ok created w' =>
          exists args0,
            let r0 := subprocess_run env (length (calls w)) args0 in
            threads w' = threads w /\ state_file w' = state_file w
            /\ calls w' = calls w ++ [(args0, r0)]
            /\ (proc_failed r0 = true ->
                created = None
                /\ logged_failure w' "ERROR" "Failed to create event: " r0)
            /\ (proc_failed r0 = false ->
                exists event_id, created = Some event_id
                                 /\ py_truthy event_id = true)
      | Raise _ w' =>
          quiet w w'
          \/ exists args0,
               let r0 := subprocess_run env (length (calls w)) args0 in
               proc_failed r0 = false /\ calls w' = calls w ++ [(args0, r0)]
      end).
    { intros msg. destruct (Hno msg) as (w' & E & ? & ? & ?). unfold bind in E.
      unfold bind. rewrite E. exists args. fold r. cbn zeta. rewrite F.
      repeat split; auto; try discriminate. intros _. eexists; split; eauto. }
    destruct (str_find "{"%char (diagnostic r)) as [i|]; [|apply Hsent].
    destruct (json_loads (str_drop i (diagnostic r))) as [event_data|];
      [|apply Hsent].
    destruct (py_get event_data "id") as [event_id|e]; cbn [lift].
    2:{ right. exists args. fold r. cbn. rewrite Hc. auto. }
    unfold ret at 1.
    destruct (py_truthy event_id) eqn:T; [|apply Hsent].
    destruct (id_prefix event_id) as [shown|e]; cbn [lift].
    2:{ right. exists args. fold r. cbn. rewrite Hc. auto. }
    unfold ret at 1. rewrite log_eq. exists args. fold r. cbn zeta. rewrite F.
    cbn [threads state_file calls printed add_line tick add_call]. rewrite Hc.
    repeat split; auto; try discriminate. intros _. eauto.
Qed.

(** C6: a non-zero exit code, a timeout or an exception of the
    invocation never raises out of the gateway.  [run_calendar_command]
    always returns, with the success flag false and the diagnostic text
    of the outcome; [delete_calendar_event] then returns false,
    [update_calendar_event] false and [create_calendar_event] no event
    id, each after logging at most the first hundred characters of the
    diagnostic.  The last two raise only while they build the content of
    the event, before the command is run. *)
Theorem gateway_failure_is_a_result (w : World) :
  (forall args,
     let r := subprocess_run env (length (calls w)) args in
     exists b out w',
       run_calendar_command env args w = Ok (b, out) w'
       /\ (proc_failed r = true -> b = false /\ out = diagnostic r))
  /\ (forall event_id thread_name,
        let r := subprocess_run env (length (calls w)) [JStr "delete"; event_id] in
        proc_failed r = true ->
        exists w',
          delete_calendar_event env event_id thread_name w = Ok false w'
          /\ logged_failure w' "WARN" "Failed to delete event: " r)
  /\ (forall event_id thread_id meta,
        (forall args, proc_failed (subprocess_run env (length (calls w)) args) = true) ->
        match update_calendar_event env event_id thread_id meta w with
        | Ok b w' =>
            b = false
            /\ exists args,
                 let r := subprocess_run env (length (calls w)) args in
                 calls w' = calls w ++ [(args, r)]
                 /\ logged_failure w' "WARN" "Failed to update event: " r
        | Raise _ w' => calls w' = calls w
        end)
  /\ (forall thread_id meta,
        (forall args, proc_failed (subprocess_run env (length (calls w)) args) = true) ->
        match create_calendar_event env thread_id meta w with
        | Ok created w' =>
            created = None
            /\ exists args,
                 let r := subprocess_run env (length (calls w)) args in
                 calls w' = calls w ++ [(args, r)]
                 /\ logged_failure w' "ERROR" "Failed to create event: " r
        | Raise _ w' => calls w' = calls w
        end)
  /\ (forall r, (String.length (str_take 100 (diagnostic r)) <= 100)%nat).
Proof.
  repeat split.
  - intros args r. rewrite run_calendar_command_eq. fold r.
    do 3 eexists. split; [reflexivity|]. intros ->. auto.
  - intros event_id thread_name r F.
    destruct (delete_calendar_event_spec event_id thread_name w)
      as (w' & E & _ & _ & _ & L).
    fold r in E, L. rewrite F in E. eauto.
  - intros event_id thread_id meta F.
    pose proof (update_calendar_event_spec event_id thread_id meta w) as S.
    destruct (update_calendar_event env event_id thread_id meta w) as [b w'|e w'].
    + destruct S as (args & -> & _ & _ & C & L). rewrite F. split; [reflexivity|].
      exists args. split; [exact C | apply L; apply F].
    + destruct S as (_ & _ & S). exact S.
  - intros thread_id meta F.
    pose proof (create_calendar_event_spec thread_id meta w) as S.
    destruct (create_calendar_event env thread_id meta w) as [c w'|e w'].
    + destruct S as (args & _ & _ & C & L & _).
      destruct (L (F args)) as [-> L']. split; [reflexivity|].
      exists args. split; [exact C | exact L'].
    + destruct S as [(_ & _ & Q) | (args & G & _)]; [exact Q|].
      rewrite F in G. discriminate.
  - intros r. apply str_take_length.
Qed.

(** ** The fingerprint *)

(** C8: two records with the same name, normalized priority, status,
    raw deadline field and sorted labels have the same fingerprint,
    whatever else they hold; a field outside these five (the due date or
    the description, from which the deadline may be resolved) does not
    enter it.  The fingerprint is a function of the record alone: it
    reads neither the clock nor any file.  And it depends on each of
    the five: the fingerprint is the text that [json.dumps] gives the
    object of the five key fields, so two records that differ in the
    raw deadline field, or in another of the five, have different
    fingerprints whenever [json.dumps] tells their key fields apart. *)
Theorem fingerprint_of_key_fields (a b : dict) :
  (dict_get a "name" = dict_get b "name" ->
   normalize_priority (dict_get a "priority")
   = normalize_priority (dict_get b "priority") ->
   dict_get a "status" = dict_get b "status" ->
   dict_get a "deadline" = dict_get b "deadline" ->
   py_sorted (dict_get_or a "labels" (JArr []))
   = py_sorted (dict_get_or b "labels" (JArr [])) ->
   get_thread_hash a = get_thread_hash b)
  /\ (forall k v,
        ~ k ∈ ["name"; "priority"; "status"; "deadline"; "labels"] ->
        get_thread_hash (<[k := v]> a) = get_thread_hash a)
  /\ (forall la lb,
        py_sorted (dict_get_or a "labels" (JArr [])) = Val la ->
        py_sorted (dict_get_or b "labels" (JArr [])) = Val lb ->
        get_thread_hash a = Val (json_dumps (JObj (key_fields a la)))
        /\ get_thread_hash b = Val (json_dumps (JObj (key_fields b lb)))
        /\ (told_apart (JObj (key_fields a la)) (JObj (key_fields b lb)) ->
            dict_get a "deadline" <> dict_get b "deadline"
            \/ dict_get a "name" <> dict_get b "name"
            \/ normalize_priority (dict_get a "priority")
               <> normalize_priority (dict_get b "priority")
            \/ dict_get a "status" <> dict_get b "status"
            \/ la <> lb ->
            get_thread_hash a <> get_thread_hash b)).
Proof.
  split; [|split].
  - intros Hn Hp Hs Hd Hl. unfold get_thread_hash.
    rewrite Hn, Hp, Hs, Hd, Hl. reflexivity.
  - intros k v Hk. unfold get_thread_hash, dict_get, dict_get_or.
    rewrite !lookup_insert_ne; [reflexivity|..];
      intros ->; apply Hk; set_solver.
  - intros la lb Ha Hb.
    assert (Ea : get_thread_hash a = Val (json_dumps (JObj (key_fields a la))))
      by (unfold get_thread_hash; rewrite Ha; reflexivity).
    assert (Eb : get_thread_hash b = Val (json_dumps (JObj (key_fields b lb))))
      by (unfold get_thread_hash; rewrite Hb; reflexivity).
    split; [exact Ea|]. split; [exact Eb|].
    intros Hinj Hdiff Heq. rewrite Ea, Eb in Heq.
    assert (Hk : key_fields a la = key_fields b lb).
    { assert (Hj : JObj (key_fields a la) = JObj (key_fields b lb))
        by (apply Hinj; congruence).
      congruence. }
    assert (Hat : forall (m : dict) l,
               key_fields m l !! "deadline" = Some (dict_get m "deadline")
               /\ key_fields m l !! "name" = Some (dict_get m "name")
               /\ key_fields m l !! "priority"
                  = Some (JStr (normalize_priority (dict_get m "priority")))
               /\ key_fields m l !! "status" = Some (dict_get m "status")
               /\ key_fields m l !! "labels" = Some (JArr l))
      by (intros m l; unfold key_fields; repeat split; by simplify_map_eq).
    destruct (Hat a la) as (A1 & A2 & A3 & A4 & A5).
    destruct (Hat b lb) as (B1 & B2 & B3 & B4 & B5).
    rewrite Hk in A1, A2, A3, A4, A5.
    destruct Hdiff as [D | [D | [D | [D | D]]]]; apply D; congruence.
Qed.

(** ** The fallback deadline *)

Lemma normalize_priority_cases p :
  normalize_priority p = "P1" \/ normalize_priority p = "P2"
  \/ normalize_priority p = "P3" \/ normalize_priority p = "P4".
Proof.
  unfold normalize_priority.
  destruct p; auto;
    repeat match goal with |- context [if ?b then _ else _] => destruct b end;
    auto.
Qed.

Lemma priority_days_normalized p dd :
  default dd (priority_days (normalize_priority p))
  = rank_offset (normalize_priority p).
Proof.
  destruct (normalize_priority_cases p) as [-> | [-> | [-> | ->]]]; reflexivity.
Qed.

(** C2, amended: when none of the sources gives a date, the deadline is
    the time of the resolution plus 3 days for rank 1, 7 for rank 2, 14
    for rank 3 and 30 for rank 4, which is also the rank of an absent or
    unrecognized priority; the configurable default is not used. *)
Theorem fallback_deadline_by_rank (meta : dict) (default_days : Z) (w w' : World) :
  deadline_from_sources env meta w = Ok None w' ->
  get_deadline env meta default_days w
  = lift (add_days (now_at env (clock_reads w'))
                   (rank_offset (normalize_priority (dict_get meta "priority"))))
         (tick w').
Proof.
  intros H. unfold get_deadline, bind. rewrite H.
  rewrite priority_days_normalized. reflexivity.
Qed.

(** ** Saving the state *)

(** C3, amended: [save_state] stamps the time of the run and overwrites
    the state file in place.  A save that completes leaves the whole
    structure in the file, and a later load returns it; a process that
    dies before the file is opened leaves the previous file as it was;
    one that dies after the file was opened, before the text is
    written, leaves a file that a later load rejects. *)
Theorem save_state_in_place (state : json) (w : World) (k : nat) :
  match save_state_interrupted env k state w with
  | Ok state' w' =>
      py_setitem state "last_sync"
        (JStr (isoformat (utcnow_at env (clock_reads w)) +:+ "Z")) = Val state'
      /\ threads w' = threads w
      /\ (k = 0%nat -> state_file w' = state_file w)
      /\ (k = 1%nat -> state_file w' = Some Garbage
                       /\ load_state w' = Raise JSONDecodeError w')
      /\ ((2 <= k)%nat -> save_state env state w = Ok state' w'
                         /\ state_file w' = Some (Json state')
                         /\ load_state w' = Ok state' w')
  | Raise e w' => save_state env state w = Raise e w' /\ quiet w w'
  end.
Proof.
  unfold save_state_interrupted, save_state, bind, utcnow_stamp.
  destruct (py_setitem state "last_sync" _) as [state'|e]; cbn [lift].
  - unfold ret at 1. unfold ret at 1. split; [reflexivity|].
    destruct k as [|[|k]]; cbn; repeat split; intros; try lia; try discriminate.
    all: unfold load_state; cbn; rewrite ?take_nil; reflexivity.
  - split; [reflexivity | repeat split].
Qed.

(** ** Terminal tasks *)

Lemma dict_get_Some (d : dict) k v : d !! k = Some v -> dict_get d k = v.
Proof. unfold dict_get. now intros ->. Qed.

Lemma dict_get_None (d : dict) k : d !! k = None -> dict_get d k = JNull.
Proof. unfold dict_get. now intros ->. Qed.

Lemma truthy_obj_lookup (d : dict) k v : d !! k = Some v -> py_truthy (JObj d) = true.
Proof.
  intros H. cbn. destruct (size d) eqn:S; [|reflexivity].
  apply map_size_empty_iff in S. subst d. rewrite lookup_empty in H. discriminate.
Qed.


(** ** One step of the reconciler *)

Lemma bind_ret {A B} (a : A) (k : A -> M B) w : bind (ret a) k w = k a w.
Proof. reflexivity. Qed.

Lemma bind_eq {A B} (c : M A) (k : A -> M B) w a w1 :
  c w = Ok a w1 -> bind c k w = k a w1.
Proof. intros H. unfold bind. now rewrite H. Qed.


Lemma set_entry_eq (sd E : dict) thread_id v :
  sd !! "synced_threads" = Some (JObj E) ->
  set_entry (JObj sd) thread_id v
  = Val (JObj (<["synced_threads" := JObj (<[thread_id := v]> E)]> sd)).
Proof. intros H. unfold set_entry. cbn. rewrite H. reflexivity. Qed.

Lemma del_entry_eq (sd E : dict) thread_id :
  sd !! "synced_threads" = Some (JObj E) ->
  is_Some (E !! thread_id) ->
  del_entry (JObj sd) thread_id
  = Val (JObj (<["synced_threads" := JObj (delete thread_id E)]> sd)).
Proof.
  intros H [v Hv]. unfold del_entry. cbn. rewrite H. cbn. rewrite Hv. reflexivity.
Qed.

Lemma truthy_dict_get_Some (E : dict) k :
  py_truthy (dict_get E k) = true -> E !! k = Some (dict_get E k).
Proof.
  unfold dict_get. destruct (E !! k); cbn; [reflexivity | discriminate].
Qed.

Lemma is_str_eq s j : is_str s j = true -> j = JStr s.
Proof.
  destruct j; cbn; try discriminate. intros H.
  apply String.eqb_eq in H. now subst.
Qed.

Lemma is_str_refl s : is_str s (JStr s) = true.
Proof. cbn. apply String.eqb_refl. Qed.

Lemma annotate_meta_other (meta sync : dict) ev stamp k :
  k <> "sync" -> annotate_meta meta sync ev stamp !! k = meta !! k.
Proof. intros H. unfold annotate_meta. now rewrite lookup_insert_ne. Qed.

Lemma get_thread_hash_annotate (meta sync : dict) ev stamp :
  get_thread_hash (annotate_meta meta sync ev stamp) = get_thread_hash meta.
Proof.
  unfold get_thread_hash, dict_get, dict_get_or.
  rewrite !annotate_meta_other by discriminate. reflexivity.
Qed.

Lemma status_annotate (meta sync : dict) ev stamp :
  dict_get_or (annotate_meta meta sync ev stamp) "status" (JStr "active")
  = dict_get_or meta "status" (JStr "active").
Proof. unfold dict_get_or. now rewrite annotate_meta_other by discriminate. Qed.

Ltac in_list :=
  repeat first [apply list_elem_of_here | apply list_elem_of_further].

Lemma sync_create_spec thread_id meta h (sd E : dict) w r state' w' :
  sd !! "synced_threads" = Some (JObj E) ->
  sync_create env thread_id meta h (JObj sd) w = Ok (r, state') w' ->
  exists c,
    calls w' = calls w ++ [c] /\ state_file w' = state_file w
    /\ ((r = "error" /\ state' = JObj sd /\ threads w' = threads w
         /\ call_ok c = false)
        \/ (r = "created" /\ call_ok c = true
            /\ exists entry sync ev stamp,
              state' = JObj (<["synced_threads" :=
                                JObj (<[thread_id := JObj entry]> E)]> sd)
              /\ entry !! "hash" = Some (JStr h)
              /\ threads w'
                 = <[thread_id := Some (Json (JObj (annotate_meta meta sync ev stamp)))]>
                     (threads w))).
Proof.
  intros Hsd H. unfold sync_create in H.
  apply bind_Ok in H as (u & w1 & Hlog & H).
  rewrite log_eq in Hlog. inversion Hlog; subst u w1; clear Hlog.
  apply bind_Ok in H as (created & w2 & Hc & H).
  pose proof (create_calendar_event_spec thread_id meta
                (add_line
                   ("[" +:+ strftime_ts (now_at env (clock_reads w)) +:+ "] "
                      +:+ level_prefix "SYNC" +:+ " "
                      +:+ ("Creating event: "
                             +:+ py_str (dict_get_or meta "name" (JStr thread_id))))
                   (tick w))) as S.
  rewrite Hc in S. destruct S as (args & Ht & Hs & Hcalls & Hfail & Hok).
  cbn [threads state_file calls add_line tick] in *.
  exists (args, subprocess_run env (length (calls w)) args).
  destruct (proc_failed (subprocess_run env (length (calls w)) args)) eqn:F.
  - destruct (Hfail eq_refl) as [-> _]. apply ret_Ok in H as [H ->].
    inversion H; subst. repeat split; auto. left. repeat split; auto.
    unfold call_ok. cbn. now rewrite F.
  - destruct (Hok eq_refl) as (ev & -> & T). rewrite T in H.
    apply bind_Ok in H as (synced_at & w3 & H1 & H).
    inversion H1; subst synced_at w3; clear H1.
    apply bind_Ok in H as (issue_number & w3 & H1 & H).
    apply lift_Ok in H1 as [H1 ->].
    apply bind_Ok in H as (st1 & w3 & H2 & H).
    apply lift_Ok in H2 as [H2 ->]. rewrite (set_entry_eq _ _ _ _ Hsd) in H2.
    inversion H2; subst st1; clear H2.
    apply bind_Ok in H as (sync & w3 & H2 & H).
    apply lift_Ok in H2 as [H2 ->].
    apply bind_Ok in H as (stamp & w3 & H3 & H).
    inversion H3; subst stamp w3; clear H3.
    apply bind_Ok in H as (u & w3 & H3 & H).
    inversion H3; subst u w3; clear H3.
    apply ret_Ok in H as [H ->]. inversion H; subst; clear H.
    cbn [threads state_file calls set_meta_file tick].
    repeat split; auto. right. split; [reflexivity|].
    split; [unfold call_ok; cbn; now rewrite F|].
    do 4 eexists. split; [reflexivity|]. split.
    + by simplify_map_eq.
    + rewrite Ht. reflexivity.
Qed.

Lemma sync_existing_spec thread_id meta h si (sd E : dict) w res w' :
  sd !! "synced_threads" = Some (JObj E) ->
  sync_existing env thread_id meta h si (JObj sd) w = Ok res w' ->
  exists d, si = JObj d
    /\ ((res = Some ("skipped", JObj sd) /\ w' = w
         /\ is_str h (dict_get d "hash") = true)
        \/ (res = None /\ w' = w)
        \/ exists c,
             calls w' = calls w ++ [c] /\ threads w' = threads w
             /\ state_file w' = state_file w
             /\ ((res = Some ("error", JObj sd) /\ call_ok c = false)
                 \/ (call_ok c = true
                     /\ exists d',
                       res = Some ("updated",
                                   JObj (<["synced_threads" :=
                                            JObj (<[thread_id := JObj d']> E)]> sd))
                       /\ d' !! "hash" = Some (JStr h)))).
Proof.
  intros Hsd H. unfold sync_existing in H.
  apply bind_Ok in H as (hv & w1 & H1 & H). apply lift_Ok in H1 as [H1 ->].
  destruct si as [| | | | |d]; try discriminate H1.
  exists d. split; [reflexivity|]. cbn in H1. inversion H1; subst hv; clear H1.
  destruct (is_str h (dict_get d "hash")) eqn:Hh.
  { apply ret_Ok in H as [<- ->]. left. auto. }
  apply bind_Ok in H as (ev & w1 & H1 & H). apply lift_Ok in H1 as [H1 ->].
  cbn in H1. inversion H1; subst ev; clear H1.
  destruct (py_truthy (dict_get d "event_id")
            && negb (is_str SENTINEL (dict_get d "event_id"))) eqn:Ha.
  2:{ apply ret_Ok in H as [<- ->]. right. left. auto. }
  right. right.
  apply bind_Ok in H as (u & w1 & Hlog & H).
  rewrite log_eq in Hlog. inversion Hlog; subst u w1; clear Hlog.
  apply bind_Ok in H as (ok & w2 & Hu & H).
  match type of Hu with update_calendar_event _ ?e ?t ?m ?w0 = _ =>
    pose proof (update_calendar_event_spec e t m w0) as S end.
  rewrite Hu in S. destruct S as (args & Hb & Ht & Hs & Hcalls & _).
  cbn [threads state_file calls add_line tick] in *.
  exists (args, subprocess_run env (length (calls w)) args).
  destruct ok.
  - apply bind_Ok in H as (i1 & w3 & H1 & H). apply lift_Ok in H1 as [H1 ->].
    cbn in H1. inversion H1; subst i1; clear H1.
    apply bind_Ok in H as (stamp & w3 & H1 & H).
    inversion H1; subst stamp w3; clear H1.
    apply bind_Ok in H as (i2 & w3 & H1 & H). apply lift_Ok in H1 as [H1 ->].
    cbn in H1. inversion H1; subst i2; clear H1.
    apply bind_Ok in H as (st1 & w3 & H1 & H). apply lift_Ok in H1 as [H1 ->].
    rewrite (set_entry_eq _ _ _ _ Hsd) in H1. inversion H1; subst st1; clear H1.
    apply ret_Ok in H as [<- ->]. cbn [threads state_file calls tick].
    repeat split; auto. right. split; [unfold call_ok; cbn; congruence|].
    eexists. split; [reflexivity|]. by simplify_map_eq.
  - apply ret_Ok in H as [<- ->].
    assert (call_ok (args, subprocess_run env (length (calls w)) args) = false)
      by (unfold call_ok; cbn; destruct (proc_failed _);
          [reflexivity | discriminate]).
    repeat split; auto.
Qed.

Lemma has_meta_insert w thread_id f t :
  is_Some (mjoin (threads w !! thread_id)) ->
  has_meta (set_meta_file thread_id f w) t = has_meta w t.
Proof.
  intros Hs. unfold has_meta. cbn.
  destruct (decide (thread_id = t)) as [->|Hne].
  - rewrite lookup_insert_eq. destruct (threads w !! t) as [[?|]|]; auto;
      destruct Hs; discriminate.
  - now rewrite lookup_insert_ne.
Qed.

Lemma sync_step thread_id (sd E : dict) w r state' w' :
  sd !! "synced_threads" = Some (JObj E) ->
  sync_thread_to_calendar env thread_id (JObj sd) w = Ok (r, state') w' ->
  step_facts thread_id sd E w r state' w'.
Proof.
  intros Hsd H. unfold sync_thread_to_calendar in H.
  apply bind_Ok in H as (mf & w1 & H1 & H).
  unfold read_meta_file in H1. inversion H1; subst mf w1; clear H1.
  assert (Hsame : forall cs0 : list (list json * proc_result),
    r = "skipped" \/ r = "error" -> cs0 = [] \/ forallb call_ok cs0 = false ->
    calls w' = calls w ++ cs0 -> state' = JObj sd -> threads w' = threads w ->
    state_file w' = state_file w ->
    (forall f, cs0 = [] -> threads w !! thread_id = Some (Some f) ->
               settled f (dict_get E thread_id)) ->
    step_facts thread_id sd E w r state' w').
  { intros cs0 Hr Hcs Hc -> Ht Hs Hset. exists sd, E, cs0.
    split; [reflexivity|]. split; [exact Hsd|]. split; [auto|].
    split; [exact Hc|]. split; [exact Hs|].
    split; [intros; rewrite Ht; auto|].
    split; [intros; unfold has_meta; now rewrite Ht|].
    split; [right; split; [destruct Hr as [-> | ->]; in_list | auto]|].
    split; [auto|].
    intros Hall f Hf. rewrite Ht in Hf. destruct Hcs as [->|Hcs].
    - now apply Hset.
    - congruence. }
  destruct (threads w !! thread_id) as [[f|]|] eqn:Hf; cbn [mjoin option_join] in H.
  2,3: apply ret_Ok in H as [H ->]; inversion H; subst;
       apply (Hsame []); auto; [now rewrite app_nil_r | discriminate].
  destruct f as [j| |]; [| |discriminate H].
  2:{ apply bind_Ok in H as (u & w1 & Hlog & H).
      rewrite log_eq in Hlog. inversion Hlog; subst u w1; clear Hlog.
      apply ret_Ok in H as [H ->]. inversion H; subst.
      apply (Hsame []); auto; [now rewrite app_nil_r|].
      intros f _ Ef. inversion Ef; subst. exact I. }
  destruct j as [| | | | |meta]; try discriminate H.
  cbn [py_getitem] in H. rewrite Hsd in H. cbn [lift] in H. rewrite bind_ret in H.
  cbn [py_get lift] in H. rewrite bind_ret in H.
  destruct (is_terminal (dict_get_or meta "status" (JStr "active"))) eqn:Hterm.
  - (* terminal status *)
    destruct (py_truthy (dict_get E thread_id)) eqn:Hsi.
    2:{ apply ret_Ok in H as [H ->]. inversion H; subst.
        apply (Hsame []); auto; [now rewrite app_nil_r|].
        intros f _ Ef. inversion Ef; subst. cbn. rewrite Hterm. now left. }
    apply bind_Ok in H as (ev & w1 & H1 & H). apply lift_Ok in H1 as [H1 ->].
    destruct (dict_get E thread_id) as [| | | | |d] eqn:Hd; try discriminate H1.
    cbn in H1. inversion H1; subst ev; clear H1.
    destruct (py_truthy (dict_get d "event_id")) eqn:Hev.
    2:{ apply ret_Ok in H as [H ->]. inversion H; subst.
        apply (Hsame []); auto; [now rewrite app_nil_r|].
        intros f _ Ef. inversion Ef; subst. cbn. rewrite Hterm. right.
        exists d. split; [congruence | exact Hev]. }
    assert (HE : E !! thread_id = Some (JObj d)).
    { rewrite <- Hd. apply truthy_dict_get_Some. now rewrite Hd. }
    apply bind_Ok in H as (u & w1 & Hdel & H).
    apply bind_Ok in H as (st1 & w2 & H1 & H). apply lift_Ok in H1 as [H1 ->].
    rewrite (del_entry_eq _ _ _ Hsd (ltac:(eauto))) in H1.
    inversion H1; subst st1; clear H1.
    apply ret_Ok in H as [H ->]. inversion H; subst r state'; clear H.
    assert (Hw : exists cs, calls w1 = calls w ++ cs /\ threads w1 = threads w
                            /\ state_file w1 = state_file w).
    { destruct (negb (is_str SENTINEL (dict_get d "event_id"))).
      - apply bind_Ok in Hdel as (b & w3 & Hdel & Hr).
        apply ret_Ok in Hr as [_ ->].
        destruct (delete_calendar_event_spec (dict_get d "event_id")
                    (dict_get_or meta "name" (JStr thread_id)) w)
          as (w4 & E4 & ? & ? & ? & _).
        rewrite E4 in Hdel. inversion Hdel; subst. eauto.
      - apply ret_Ok in Hdel as [_ ->]. exists []. now rewrite app_nil_r. }
    destruct Hw as (cs & Hc & Ht & Hs).
    exists (<["synced_threads" := JObj (delete thread_id E)]> sd),
           (delete thread_id E), cs.
    split; [reflexivity|]. split; [by simplify_map_eq|].
    split; [intros; by simplify_map_eq|].
    split; [exact Hc|]. split; [exact Hs|].
    split; [intros; rewrite Ht; split; [auto | by simplify_map_eq]|].
    split; [intros; unfold has_meta; now rewrite Ht|].
    split; [left; split; [reflexivity|]; split; [eauto | by simplify_map_eq]|].
    split; [intros [?|?]; discriminate|].
    intros _ f Hf'. rewrite Ht, Hf in Hf'. inversion Hf'; subst f.
    cbn. rewrite Hterm. left. rewrite dict_get_None by (by simplify_map_eq).
    reflexivity.
  - (* active *)
    apply bind_Ok in H as (h & w1 & H1 & H). apply lift_Ok in H1 as [Hh ->].
    apply bind_Ok in H as (handled & w1 & H1 & H).
    assert (Hcreate :
      handled = None -> w1 = w ->
      step_facts thread_id sd E w r state' w').
    { intros -> ->.
      destruct (sync_create_spec _ _ _ _ _ _ _ _ _ Hsd H)
        as (c & Hc & Hs & [(-> & -> & Ht & Hok)
                          | (-> & Hok & entry & sync & ev & stamp & -> & Hhash & Ht)]).
      - apply (Hsame [c]); auto; [right; cbn; now rewrite Hok |].
        intros f Hn; discriminate Hn.
      - exists (<["synced_threads" := JObj (<[thread_id := JObj entry]> E)]> sd),
               (<[thread_id := JObj entry]> E), [c].
        split; [reflexivity|]. split; [by simplify_map_eq|].
        split; [intros; by simplify_map_eq|].
        split; [exact Hc|]. split; [exact Hs|].
        split; [intros; rewrite Ht; split; by simplify_map_eq|].
        split.
        { intros t. rewrite <- (has_meta_insert w thread_id
            (Json (JObj (annotate_meta meta sync ev stamp))) t)
            by (rewrite Hf; cbn; eauto).
          unfold has_meta. now rewrite Ht. }
        split; [right; split; [in_list | intros; by simplify_map_eq]|].
        split; [intros [?|?]; discriminate|].
        intros _ f Hf'. rewrite Ht in Hf'. rewrite lookup_insert_eq in Hf'.
        inversion Hf'; subst f. cbn. rewrite status_annotate, Hterm.
        exists entry, h. rewrite (dict_get_Some _ _ _ (lookup_insert_eq _ _ _)).
        split; [reflexivity|]. split; [eapply truthy_obj_lookup; eauto|].
        split; [now rewrite get_thread_hash_annotate|].
        rewrite (dict_get_Some _ _ _ Hhash). apply is_str_refl. }
    destruct (py_truthy (dict_get E thread_id)) eqn:Hsi.
    2:{ apply ret_Ok in H1 as [<- ->]. now apply Hcreate. }
    destruct (sync_existing_spec _ _ _ _ _ _ _ _ _ Hsd H1)
      as (d & Hd & [(-> & -> & Hm) | [(-> & ->) | (c & Hc & Ht & Hs & Hcase)]]).
    + apply ret_Ok in H as [H ->]. inversion H; subst.
      apply (Hsame []); auto; [now rewrite app_nil_r|].
      intros f _ Ef. inversion Ef; subst. cbn. rewrite Hterm.
      exists d, h. rewrite Hd in *. auto.
    + now apply Hcreate.
    + destruct Hcase as [(-> & Hok) | (Hok & d' & -> & Hhash)].
      * apply ret_Ok in H as [H ->]. inversion H; subst.
        apply (Hsame [c]); auto; [right; cbn; now rewrite Hok |].
        intros f Hn; discriminate Hn.
      * apply ret_Ok in H as [H ->]. inversion H; subst r state'; clear H.
        assert (HE : E !! thread_id = Some (JObj d)).
        { rewrite <- Hd. apply truthy_dict_get_Some. exact Hsi. }
        exists (<["synced_threads" := JObj (<[thread_id := JObj d']> E)]> sd),
               (<[thread_id := JObj d']> E), [c].
        split; [reflexivity|]. split; [by simplify_map_eq|].
        split; [intros; by simplify_map_eq|].
        split; [exact Hc|]. split; [exact Hs|].
        split; [intros; rewrite Ht; split; by simplify_map_eq|].
        split; [intros; unfold has_meta; now rewrite Ht|].
        split; [right; split; [in_list | intros; by simplify_map_eq]|].
        split; [intros [?|?]; discriminate|].
        intros _ f Hf'. rewrite Ht, Hf in Hf'. inversion Hf'; subst f.
        cbn. rewrite Hterm.
        exists d', h. rewrite (dict_get_Some _ _ _ (lookup_insert_eq _ _ _)).
        split; [reflexivity|]. split; [eapply truthy_obj_lookup; eauto|].
        split; [exact Hh|].
        rewrite (dict_get_Some _ _ _ Hhash). apply is_str_refl.
Qed.

(** A settled thread is skipped, or answered as an error, and nothing
    changes. *)
Lemma settled_step thread_id (sd E : dict) f w :
  sd !! "synced_threads" = Some (JObj E) ->
  threads w !! thread_id = Some (Some f) ->
  settled f (dict_get E thread_id) ->
  exists r w',
    sync_thread_to_calendar env thread_id (JObj sd) w = Ok (r, JObj sd) w'
    /\ quiet w w' /\ (r = "skipped" \/ r = "error").
Proof.
  intros Hsd Hf Hset. unfold sync_thread_to_calendar, bind at 1, read_meta_file.
  rewrite Hf. cbn [mjoin option_join].
  destruct f as [j| |]; [| |contradiction].
  2:{ unfold bind. rewrite log_eq. do 2 eexists. split; [reflexivity|].
      split; [repeat split | auto]. }
  destruct j as [| | | | |meta]; try contradiction.
  cbn [py_getitem]. rewrite Hsd. cbn [lift]. rewrite bind_ret.
  cbn [py_get lift]. rewrite bind_ret. cbn [settled] in Hset.
  destruct (is_terminal (dict_get_or meta "status" (JStr "active"))).
  - destruct Hset as [Hs | (d & Hd & Hev)].
    + rewrite Hs. do 2 eexists. split; [reflexivity|].
      split; [apply quiet_refl | auto].
    + rewrite Hd. destruct (py_truthy (JObj d)).
      * cbn [py_get lift]. rewrite bind_ret. rewrite Hev.
        do 2 eexists. split; [reflexivity|]. split; [apply quiet_refl | auto].
      * do 2 eexists. split; [reflexivity|]. split; [apply quiet_refl | auto].
  - destruct Hset as (d & h & Hd & Ht & Hh & Hm). rewrite Hh. cbn [lift].
    rewrite bind_ret. rewrite Ht. rewrite Hd.
    unfold sync_existing, bind. cbn [py_get lift]. unfold ret at 1. rewrite Hm.
    unfold ret. do 2 eexists. split; [reflexivity|].
    split; [apply quiet_refl | auto].
Qed.

(** ** Sorting *)

Lemma insert_sorted_perm x l : insert_sorted x l ≡ₚ x :: l.
Proof.
  induction l as [|y l IH]; cbn; [reflexivity|].
  destruct (String.leb x y); [reflexivity|].
  rewrite IH. apply Permutation_swap.
Qed.

Lemma sort_strings_perm l : sort_strings l ≡ₚ l.
Proof.
  induction l as [|x l IH]; cbn; [reflexivity|].
  unfold sort_strings in IH. rewrite insert_sorted_perm. now rewrite IH.
Qed.

(** ** Orphan cleanup *)

Lemma cleanup_loop_spec l : forall (sd E : dict) w state' w',
  sd !! "synced_threads" = Some (JObj E) ->
  NoDup l ->
  cleanup_loop env l (JObj sd) w = Ok state' w' ->
  exists (sd' E' : dict) cs,
    state' = JObj sd' /\ sd' !! "synced_threads" = Some (JObj E')
    /\ (forall k, k <> "synced_threads" -> sd' !! k = sd !! k)
    /\ calls w' = calls w ++ cs /\ threads w' = threads w
    /\ state_file w' = state_file w
    /\ (forall t, E' !! t = if decide (t ∈ l) then None else E !! t).
Proof.
  induction l as [|tid rest IH]; intros sd E w state' w' Hsd Hnd H.
  - apply ret_Ok in H as [<- ->]. exists sd, E, [].
    rewrite app_nil_r. repeat split; auto.
  - cbn [cleanup_loop] in H.
    cbn [py_getitem] in H. rewrite Hsd in H. cbn [lift] in H.
    rewrite bind_ret in H.
    apply bind_Ok in H as (si & w1 & H1 & H). apply lift_Ok in H1 as [H1 ->].
    cbn in H1. destruct (E !! tid) as [v|] eqn:Ht; [|discriminate].
    inversion H1; subst v; clear H1.
    apply bind_Ok in H as (ev & w1 & H1 & H). apply lift_Ok in H1 as [H1 ->].
    apply bind_Ok in H as (u & w1 & Hdel & H).
    apply bind_Ok in H as (st1 & w2 & H2 & H). apply lift_Ok in H2 as [H2 ->].
    rewrite (del_entry_eq _ _ _ Hsd (ltac:(eauto))) in H2.
    inversion H2; subst st1; clear H2.
    apply bind_Ok in H as (u' & w2 & Hlog & H).
    rewrite log_eq in Hlog. inversion Hlog; subst u' w2; clear Hlog.
    assert (Hw : exists cs, calls w1 = calls w ++ cs /\ threads w1 = threads w
                            /\ state_file w1 = state_file w).
    { destruct (py_truthy ev && negb (is_str SENTINEL ev)).
      - apply bind_Ok in Hdel as (b & w3 & Hdel & Hr).
        apply ret_Ok in Hr as [_ ->].
        destruct (delete_calendar_event_spec ev (JStr tid) w)
          as (w4 & E4 & ? & ? & ? & _).
        rewrite E4 in Hdel. inversion Hdel; subst. eauto.
      - apply ret_Ok in Hdel as [_ ->]. exists []. now rewrite app_nil_r. }
    destruct Hw as (cs1 & Hc1 & Ht1 & Hs1).
    apply NoDup_cons in Hnd as [Hnotin Hnd].
    eapply IH in H; [| by simplify_map_eq | exact Hnd].
    destruct H as (sd' & E' & cs2 & -> & Hsd' & Hk & Hc & Hth & Hsf & HE).
    cbn [calls threads state_file add_line tick] in *.
    exists sd', E', (cs1 ++ cs2).
    split; [reflexivity|]. split; [exact Hsd'|].
    split; [intros k Hne; rewrite Hk by exact Hne; by simplify_map_eq|].
    split; [rewrite Hc, Hc1; now rewrite app_assoc|].
    split; [congruence|]. split; [congruence|].
    intros t. rewrite HE.
    destruct (decide (t ∈ rest)) as [Hin|Hin].
    + rewrite decide_True; [reflexivity | now apply list_elem_of_further].
    + destruct (decide (t = tid)) as [->|Hne].
      * rewrite decide_True by apply list_elem_of_here. by simplify_map_eq.
      * rewrite decide_False; [by simplify_map_eq|].
        intros Hin'. apply elem_of_cons in Hin' as [?|?]; contradiction.
Qed.

Lemma elem_of_keys (E : dict) t : t ∈ (map_to_list E).*1 <-> is_Some (E !! t).
Proof.
  rewrite list_elem_of_fmap. split.
  - intros ([k v] & -> & Hin). apply elem_of_map_to_list in Hin. eauto.
  - intros [v Hv]. exists (t, v). split; [reflexivity|].
    now apply elem_of_map_to_list.
Qed.

Lemma cleanup_spec state w n state' w' :
  cleanup_orphaned_events env state w = Ok (n, state') w' ->
  exists (sd E sd' E' : dict) cs,
    state = JObj sd /\ sd !! "synced_threads" = Some (JObj E)
    /\ state' = JObj sd' /\ sd' !! "synced_threads" = Some (JObj E')
    /\ (forall k, k <> "synced_threads" -> sd' !! k = sd !! k)
    /\ calls w' = calls w ++ cs /\ threads w' = threads w
    /\ state_file w' = state_file w
    /\ (forall t, E' !! t = if has_meta w t then E !! t else None)
    /\ n = size (dom E ∖ dom E').
Proof.
  intros H. unfold cleanup_orphaned_events in H.
  apply bind_Ok in H as (entries & w1 & H1 & H). apply lift_Ok in H1 as [H1 ->].
  destruct state as [| | | | |sd]; try discriminate H1. cbn in H1.
  destruct (sd !! "synced_threads") as [v|] eqn:Hsd; [|discriminate].
  inversion H1; subst v; clear H1.
  apply bind_Ok in H as (keys & w1 & H1 & H). apply lift_Ok in H1 as [H1 ->].
  destruct entries as [| | | | |E]; try discriminate H1. cbn in H1.
  inversion H1; subst keys; clear H1.
  apply bind_Ok in H as (orphaned & w1 & H1 & H).
  inversion H1; subst orphaned w1; clear H1.
  apply bind_Ok in H as (st1 & w1 & H1 & H).
  apply ret_Ok in H as [H ->]. inversion H; subst n st1; clear H.
  set (orphaned := filter (fun k => negb (has_meta w k)) (map_to_list E).*1) in *.
  assert (Hnd : NoDup orphaned)
    by (apply NoDup_filter, NoDup_fst_map_to_list).
  assert (Hin : forall t, t ∈ orphaned <-> has_meta w t = false /\ is_Some (E !! t)).
  { intros t. unfold orphaned. rewrite list_elem_of_filter, elem_of_keys.
    destruct (has_meta w t); cbn; intuition (auto; discriminate). }
  destruct (cleanup_loop_spec _ _ _ _ _ _ Hsd Hnd H1)
    as (sd' & E' & cs & -> & Hsd' & Hk & Hc & Ht & Hs & HE).
  assert (HE' : forall t, E' !! t = if has_meta w t then E !! t else None).
  { intros t. rewrite HE. destruct (decide (t ∈ orphaned)) as [Ho|Ho].
    - apply Hin in Ho as [-> _]. reflexivity.
    - destruct (has_meta w t) eqn:Hm; [reflexivity|].
      destruct (E !! t) eqn:Et; [|reflexivity].
      exfalso. apply Ho, Hin. eauto. }
  exists sd, E, sd', E', cs. repeat split; auto.
  rewrite <- (size_list_to_set (C := gset string) orphaned Hnd). f_equal.
  apply set_eq. intros t.
  rewrite elem_of_list_to_set, Hin, elem_of_difference, !elem_of_dom, HE'.
  destruct (has_meta w t); split.
  - intros [? _]; discriminate.
  - intros [Hs1 Hn]. contradiction.
  - intros [_ Hs1]. split; [exact Hs1 | intros [? ?]; discriminate].
  - intros [Hs1 _]. auto.
Qed.

(** ** The pass over the threads *)

Lemma stat_bump k n stats k' :
  stat (bump k n stats) k' = if decide (k = k') then stat stats k + n
                             else stat stats k'.
Proof.
  unfold bump, stat at 1. destruct (decide (k = k')) as [->|Hne].
  - now rewrite lookup_insert_eq.
  - now rewrite lookup_insert_ne.
Qed.

Lemma removed_after_delete (E E1 E' : dict) tid :
  is_Some (E !! tid) -> E1 !! tid = None ->
  (forall t, t <> tid -> E1 !! t = E !! t) ->
  E' !! tid = E1 !! tid ->
  size (dom E ∖ dom E') = S (size (dom E1 ∖ dom E')).
Proof.
  intros Hs Hn Hframe Heq.
  replace (dom E ∖ dom E') with ({[tid]} ∪ (dom E1 ∖ dom E')).
  - rewrite size_union, size_singleton; [reflexivity|].
    apply disjoint_singleton_l. rewrite elem_of_difference, elem_of_dom, Hn.
    intros [[? ?] _]. discriminate.
  - apply set_eq. intros t.
    rewrite elem_of_union, !elem_of_difference, elem_of_singleton, !elem_of_dom.
    destruct (decide (t = tid)) as [->|Hne].
    + rewrite Heq, Hn. split; [intros _|intros _; left; reflexivity].
      split; [exact Hs | intros [? ?]; discriminate].
    + rewrite Hframe by exact Hne. split; [intros [?|?]; [contradiction|auto] | auto].
Qed.

Lemma removed_after_other (E E1 E' : dict) tid :
  (is_Some (E !! tid) -> is_Some (E1 !! tid)) ->
  (forall t, t <> tid -> E1 !! t = E !! t) ->
  E' !! tid = E1 !! tid ->
  dom E ∖ dom E' = dom E1 ∖ dom E'.
Proof.
  intros Hs Hframe Heq. apply set_eq. intros t.
  rewrite !elem_of_difference, !elem_of_dom.
  destruct (decide (t = tid)) as [->|Hne].
  - rewrite Heq. split; intros [H1 H2]; contradiction || (exfalso; auto).
  - now rewrite Hframe.
Qed.

Lemma sync_all_spec l : forall (sd E : dict) stats w stats' state' w',
  NoDup l ->
  sd !! "synced_threads" = Some (JObj E) ->
  sync_all env l (JObj sd) stats w = Ok (stats', state') w' ->
  exists (sd' E' : dict) cs,
    state' = JObj sd' /\ sd' !! "synced_threads" = Some (JObj E')
    /\ (forall k, k <> "synced_threads" -> sd' !! k = sd !! k)
    /\ calls w' = calls w ++ cs /\ state_file w' = state_file w
    /\ (forall t, t ∉ l -> threads w' !! t = threads w !! t /\ E' !! t = E !! t)
    /\ (forall t, has_meta w' t = has_meta w t)
    /\ stat stats' "deleted"
       = stat stats "deleted" + Z.of_nat (size (dom E ∖ dom E'))
    /\ stat stats' "errors" = stat stats "errors"
    /\ (forallb call_ok cs = true ->
        forall t f, t ∈ l -> threads w' !! t = Some (Some f) ->
                    settled f (dict_get E' t)).
Proof.
  induction l as [|tid rest IH]; intros sd E stats w stats' state' w' Hnd Hsd H.
  - apply ret_Ok in H as [H ->]. inversion H; subst. exists sd, E, [].
    rewrite app_nil_r, difference_diag_L, size_empty.
    repeat split; auto; [lia|]. intros _ t f Hin. inversion Hin.
  - cbn [sync_all] in H. apply bind_Ok in H as ([r st1] & w1 & Hstep & H).
    cbn [fst snd] in H. apply NoDup_cons in Hnd as [Hnotin Hnd].
    destruct (sync_step _ _ _ _ _ _ _ Hsd Hstep)
      as (sd1 & E1 & cs1 & -> & Hsd1 & Hk1 & Hc1 & Hs1 & Hfr1 & Hm1 & Hr & _ & Hset1).
    destruct (IH _ _ _ _ _ _ _ Hnd Hsd1 H)
      as (sd' & E' & cs2 & -> & Hsd' & Hk & Hc & Hs & Hfr & Hm & Hdel & Herr & Hset).
    assert (Htid : threads w' !! tid = threads w1 !! tid /\ E' !! tid = E1 !! tid)
      by (apply Hfr, Hnotin).
    exists sd', E', (cs1 ++ cs2).
    split; [reflexivity|]. split; [exact Hsd'|].
    split; [intros k Hne; rewrite Hk, Hk1; auto|].
    split; [rewrite Hc, Hc1; now rewrite app_assoc|].
    split; [congruence|].
    split.
    { intros t Ht. apply not_elem_of_cons in Ht as [Hne Ht].
      destruct (Hfr t Ht) as [-> ->]. now apply Hfr1. }
    split; [intros t; now rewrite Hm, Hm1|].
    split.
    { rewrite Hdel, stat_bump.
      destruct Hr as [(-> & Hsome & Hnone) | (Hin & Hkeep)].
      - rewrite decide_True by reflexivity.
        rewrite (removed_after_delete E E1 E' tid); auto;
          [lia | intros; now apply Hfr1 | apply Htid].
      - rewrite decide_False.
        + rewrite (removed_after_other E E1 E' tid); auto;
            [intros; now apply Hfr1 | apply Htid].
        + intros ->. repeat (apply elem_of_cons in Hin as [Hin|Hin];
                             [discriminate|]). inversion Hin. }
    split.
    { rewrite Herr, stat_bump. rewrite decide_False; [reflexivity|].
      intros ->. destruct Hr as [(Hr & _) | (Hin & _)]; [discriminate|].
      repeat (apply elem_of_cons in Hin as [Hin|Hin]; [discriminate|]).
      inversion Hin. }
    intros Hall t f Hin Hf. rewrite forallb_app in Hall.
    apply andb_true_iff in Hall as [Hall1 Hall2].
    apply elem_of_cons in Hin as [->|Hin].
    + destruct Htid as [Ht1 Ht2]. rewrite Ht1 in Hf.
      unfold dict_get. rewrite Ht2. now apply Hset1.
    + now apply Hset.
Qed.

Lemma has_meta_keys w t :
  has_meta w t = true -> t ∈ (map_to_list (threads w)).*1.
Proof.
  unfold has_meta. intros H. rewrite list_elem_of_fmap.
  destruct (threads w !! t) as [o|] eqn:Ht; [|discriminate].
  exists (t, o). split; [reflexivity|]. now apply elem_of_map_to_list.
Qed.

Lemma list_threads_spec w :
  exists l, list_threads w = Ok l w
            /\ NoDup (sort_strings l)
            /\ (forall t, t ∈ sort_strings l <-> has_meta w t = true).
Proof.
  eexists. split; [reflexivity|]. split.
  - rewrite sort_strings_perm. apply NoDup_filter, NoDup_fst_map_to_list.
  - intros t. rewrite sort_strings_perm, list_elem_of_filter. split.
    + intros [H _]. now apply Is_true_true.
    + intros H. split; [now apply Is_true_true | now apply has_meta_keys].
Qed.

Lemma removed_split (E E1 E' : dict) :
  dom E1 ⊆ dom E ->
  (forall t, t ∈ dom E -> t ∉ dom E1 -> t ∉ dom E') ->
  size (dom E ∖ dom E') = (size (dom E ∖ dom E1) + size (dom E1 ∖ dom E'))%nat.
Proof.
  intros Hsub Hgone. rewrite <- size_union.
  - f_equal. apply set_eq. intros t.
    rewrite elem_of_union, !elem_of_difference.
    pose proof (proj1 (elem_of_subseteq _ _) Hsub t) as Hs.
    specialize (Hgone t).
    destruct (decide (t ∈ dom E1)); tauto.
  - apply elem_of_disjoint. intros t.
    rewrite !elem_of_difference. tauto.
Qed.

(** One pass of the reconciler. *)
Lemma reconcile_spec state w stats state' w' :
  reconcile env state w = Ok (stats, state') w' ->
  exists (sd E sd' E' : dict) cs,
    state = JObj sd /\ sd !! "synced_threads" = Some (JObj E)
    /\ state' = JObj sd' /\ sd' !! "synced_threads" = Some (JObj E')
    /\ (forall k, k <> "synced_threads" -> sd' !! k = sd !! k)
    /\ calls w' = calls w ++ cs /\ state_file w' = state_file w
    /\ (forall t, has_meta w' t = has_meta w t)
    /\ stat stats "deleted" = Z.of_nat (size (dom E ∖ dom E'))
    /\ stat stats "errors" = 0
    /\ (forall t, is_Some (E' !! t) -> has_meta w' t = true)
    /\ (forallb call_ok cs = true ->
        forall t f, threads w' !! t = Some (Some f) -> settled f (dict_get E' t)).
Proof.
  intros H. unfold reconcile in H.
  apply bind_Ok in H as ([n st1] & w1 & Hclean & H). cbn [fst snd] in H.
  destruct (cleanup_spec _ _ _ _ _ Hclean)
    as (sd & E & sd1 & E1 & cs1 & -> & Hsd & -> & Hsd1 & Hk1 & Hc1 & Ht1 & Hs1
        & HE1 & Hn).
  apply bind_Ok in H as (l & w2 & Hlist & H).
  destruct (list_threads_spec w1) as (l' & Hl' & Hnd & Hin).
  rewrite Hl' in Hlist. inversion Hlist; subst l' w2; clear Hlist.
  apply bind_Ok in H as (u & w2 & Hlog & H).
  rewrite log_eq in Hlog. inversion Hlog; subst u w2; clear Hlog.
  match type of H with sync_all _ _ _ ?s _ = _ => set (stats0 := s) in * end.
  assert (Hd0 : stat stats0 "deleted" = Z.of_nat n).
  { unfold stats0. destruct n; [reflexivity|]. cbn [Nat.eqb].
    rewrite stat_bump, decide_True by reflexivity. reflexivity. }
  assert (He0 : stat stats0 "errors" = 0).
  { unfold stats0. destruct n; [reflexivity|]. cbn [Nat.eqb].
    rewrite stat_bump, decide_False by discriminate. reflexivity. }
  destruct (sync_all_spec _ _ _ _ _ _ _ _ Hnd Hsd1 H)
    as (sd' & E' & cs2 & -> & Hsd' & Hk & Hc & Hs & Hfr & Hm & Hdel & Herr & Hset).
  cbn [calls threads state_file add_line tick] in *.
  assert (Hmw : forall t, has_meta w1 t = has_meta w t)
    by (intros t; unfold has_meta; now rewrite Ht1).
  assert (Hmw' : forall t, has_meta w' t = has_meta w t).
  { intros t. rewrite Hm. unfold has_meta. cbn. now rewrite Ht1. }
  assert (Hgone : forall t, has_meta w t = false -> E' !! t = None).
  { intros t Hf. destruct (Hfr t) as [_ ->].
    - rewrite Hin, Hmw, Hf. discriminate.
    - rewrite HE1, Hf. reflexivity. }
  exists sd, E, sd', E', (cs1 ++ cs2).
  split; [reflexivity|]. split; [exact Hsd|]. split; [reflexivity|].
  split; [exact Hsd'|].
  split; [intros k Hne; rewrite Hk, Hk1; auto|].
  split; [rewrite Hc, Hc1; now rewrite app_assoc|].
  split; [congruence|]. split; [exact Hmw'|].
  split.
  { rewrite Hdel, Hd0, Hn, <- Nat2Z.inj_add. f_equal. symmetry.
    apply removed_split.
    - intros t. rewrite !elem_of_dom, HE1.
      destruct (has_meta w t); [auto | intros [? ?]; discriminate].
    - intros t. rewrite !elem_of_dom, HE1. intros Hs0 Hn1.
      destruct (has_meta w t) eqn:Hf; [contradiction|].
      rewrite Hgone by exact Hf. intros [? ?]; discriminate. }
  split; [now rewrite Herr|].
  split.
  { intros t Hsome. rewrite Hmw'. destruct (has_meta w t) eqn:Hf; [reflexivity|].
    rewrite Hgone in Hsome by exact Hf. destruct Hsome; discriminate. }
  intros Hall t f Hf. rewrite forallb_app in Hall.
  apply andb_true_iff in Hall as [_ Hall2].
  apply (Hset Hall2 t f); [|exact Hf].
  apply Hin. rewrite Hmw, <- Hmw'. unfold has_meta. now rewrite Hf.
Qed.

(** ** Statistics, saving and the summary *)

Lemma add_stats_spec keys stats : forall (sd ss : dict) state',
  sd !! "sync_stats" = Some (JObj ss) ->
  add_stats keys stats (JObj sd) = Val state' ->
  exists ss' : dict,
    state' = JObj (<["sync_stats" := JObj ss']> sd)
    /\ (forall k, k ∈ keys -> int_at ss' k)
    /\ (forall k, int_at ss k -> int_at ss' k).
Proof.
  induction keys as [|key rest IH]; intros sd ss state' Hss H.
  - cbn in H. inversion H; subst. exists ss. rewrite insert_id by exact Hss.
    repeat split; auto. intros k Hin. inversion Hin.
  - cbn [add_stats] in H. cbn [py_getitem] in H. rewrite Hss in H.
    cbn [res_bind] in H.
    apply res_bind_Val in H as (new & Hnew & H).
    cbn [py_setitem res_bind] in H.
    assert (Hn : exists z, new = JInt z).
    { unfold py_add_int in Hnew.
      destruct (dict_get_or ss key (JInt 0)); inversion Hnew; eauto. }
    destruct Hn as [z ->].
    eapply IH in H; [|by simplify_map_eq].
    destruct H as (ss' & -> & Hkeys & Hkeep).
    exists ss'. rewrite insert_insert_eq. split; [reflexivity|].
    assert (Hkey : int_at ss' key).
    { apply Hkeep. exists z. by simplify_map_eq. }
    split.
    + intros k Hin. apply elem_of_cons in Hin as [->|Hin]; auto.
    + intros k [z' Hz']. apply Hkeep. destruct (decide (k = key)) as [->|Hne].
      * exists z. by simplify_map_eq.
      * exists z'. by simplify_map_eq.
Qed.

Lemma add_stats_total keys stats : forall (sd ss : dict),
  sd !! "sync_stats" = Some (JObj ss) ->
  (forall k, k ∈ keys -> int_at ss k) ->
  exists state', add_stats keys stats (JObj sd) = Val state'.
Proof.
  induction keys as [|key rest IH]; intros sd ss Hss Hint.
  - eexists. reflexivity.
  - cbn [add_stats]. cbn [py_getitem]. rewrite Hss. cbn [res_bind].
    destruct (Hint key (list_elem_of_here _ _)) as [z Hz].
    unfold dict_get_or. rewrite Hz. cbn [default py_add_int res_bind py_setitem].
    cbn. eapply IH; [by simplify_map_eq|].
    intros k Hin. destruct (Hint k (list_elem_of_further _ _ _ Hin)) as [z' Hz'].
    destruct (decide (k = key)) as [->|Hne]; eexists; by simplify_map_eq.
Qed.

Lemma update_cumulative_spec stats state state' :
  update_cumulative stats state = Val state' ->
  exists sd ss' : dict,
    state = JObj sd
    /\ state' = JObj (<["sync_stats" := JObj ss']> sd)
    /\ (forall k, k ∈ STAT_KEYS -> int_at ss' k).
Proof.
  intros H. destruct state as [| | | | |sd]; try discriminate H.
  unfold update_cumulative in H.
  destruct (sd !! "sync_stats") as [v|] eqn:Hv.
  - assert (Hd : exists ss, v = JObj ss).
    { cbn in H. rewrite Hv in H. cbn in H.
      destruct v; try discriminate H. eauto. }
    destruct Hd as [ss ->].
    destruct (add_stats_spec _ _ _ _ _ Hv H) as (ss' & -> & Hk & _).
    eauto.
  - eapply add_stats_spec in H; [|by simplify_map_eq].
    destruct H as (ss' & -> & Hk & _). rewrite insert_insert_eq. eauto.
Qed.

Lemma update_cumulative_total stats (sd ss : dict) :
  sd !! "sync_stats" = Some (JObj ss) ->
  (forall k, k ∈ STAT_KEYS -> int_at ss k) ->
  exists state', update_cumulative stats (JObj sd) = Val state'.
Proof.
  intros Hss Hint. unfold update_cumulative. rewrite Hss.
  eapply add_stats_total; eauto.
Qed.

Lemma save_state_spec (sd : dict) w :
  exists stamp w',
    save_state env (JObj sd) w = Ok (JObj (<["last_sync" := JStr stamp]> sd)) w'
    /\ threads w' = threads w /\ calls w' = calls w
    /\ state_file w' = Some (Json (JObj (<["last_sync" := JStr stamp]> sd))).
Proof. do 2 eexists. split; [reflexivity|]. repeat split. Qed.

Lemma save_state_Ok state w state' w' :
  save_state env state w = Ok state' w' ->
  exists (sd : dict) stamp,
    state = JObj sd /\ state' = JObj (<["last_sync" := JStr stamp]> sd)
    /\ threads w' = threads w /\ calls w' = calls w
    /\ state_file w' = Some (Json state').
Proof.
  intros H. destruct state as [| | | | |sd]; try discriminate H.
  destruct (save_state_spec sd w) as (stamp & w2 & E & ? & ? & ?).
  rewrite E in H. inversion H; subst. eauto 10.
Qed.

Lemma print_priority_Ok items p w u w' :
  print_priority items p w = Ok u w' ->
  (exists l, by_priority items p = Val l) /\ quiet w w'.
Proof.
  unfold print_priority. intros H.
  apply bind_Ok in H as (l & w1 & H1 & H). apply lift_Ok in H1 as [H1 ->].
  split; [eauto|]. destruct l; inversion H; subst; repeat split.
Qed.

Lemma print_priority_total items p w l :
  by_priority items p = Val l ->
  exists w', print_priority items p w = Ok tt w' /\ quiet w w'.
Proof.
  intros H. unfold print_priority, bind. rewrite H. cbn [lift]. unfold ret at 1.
  destruct l; eexists; (split; [reflexivity | repeat split]).
Qed.

Lemma print_sync_summary_Ok stats (sd E : dict) w u w' :
  sd !! "synced_threads" = Some (JObj E) ->
  print_sync_summary stats (JObj sd) w = Ok u w' ->
  summary_ok E /\ quiet w w'.
Proof.
  intros Hsd H. unfold print_sync_summary in H.
  repeat (apply bind_Ok in H as (? & ? & Hp & H);
          match type of Hp with
          | print _ _ = _ => inversion Hp; subst; clear Hp
          | lift (py_stat _ _) _ = _ => apply lift_Ok in Hp as [_ ->]
          end).
  cbn [py_getitem] in H. rewrite Hsd in H. cbn [lift] in H. rewrite bind_ret in H.
  cbn [py_len lift] in H. rewrite bind_ret in H.
  repeat first
    [ rewrite bind_ret in H
    | apply bind_Ok in H as (? & ? & Hp & H);
      match type of Hp with print _ _ = _ => inversion Hp; subst; clear Hp end ].
  destruct (py_truthy (JObj E)) eqn:T.
  - apply bind_Ok in H as (? & ? & Hp & H). inversion Hp; subst; clear Hp.
    apply bind_Ok in H as (? & w1 & H1 & H). apply print_priority_Ok in H1 as [L1 Q1].
    apply bind_Ok in H as (? & w2 & H2 & H). apply print_priority_Ok in H2 as [L2 Q2].
    apply bind_Ok in H as (? & w3 & H3 & H). apply print_priority_Ok in H3 as [L3 Q3].
    apply print_priority_Ok in H as [L4 Q4].
    split.
    + intros _ p Hin.
      repeat (apply elem_of_cons in Hin as [->|Hin]; [assumption|]).
      inversion Hin.
    + eapply quiet_trans; [|exact Q4]. eapply quiet_trans; [|exact Q3].
      eapply quiet_trans; [|exact Q2]. eapply quiet_trans; [|exact Q1].
      repeat split.
  - apply ret_Ok in H as [_ ->]. split; [|repeat split].
    intros T'. rewrite T in T'. discriminate.
Qed.

Lemma bind_print {B} s (k : unit -> M B) w :
  bind (print s) k w = k tt (add_line s w).
Proof. reflexivity. Qed.

Lemma print_sync_summary_total stats (sd E : dict) w :
  has_counters stats ->
  sd !! "synced_threads" = Some (JObj E) ->
  summary_ok E ->
  exists w', print_sync_summary stats (JObj sd) w = Ok tt w' /\ quiet w w'.
Proof.
  intros Hkeys Hsd Hok. unfold print_sync_summary.
  destruct (Hkeys "created") as [z1 K1]; [in_list|].
  destruct (Hkeys "updated") as [z2 K2]; [in_list|].
  destruct (Hkeys "deleted") as [z3 K3]; [in_list|].
  destruct (Hkeys "skipped") as [z4 K4]; [in_list|].
  destruct (Hkeys "errors") as [z5 K5]; [in_list|].
  unfold py_stat. rewrite K1, K2, K3, K4, K5. cbn [lift].
  repeat first [rewrite bind_print | rewrite bind_ret].
  cbn [py_getitem]. rewrite Hsd. cbn [lift]. rewrite bind_ret.
  cbn [py_len lift]. rewrite bind_ret.
  rewrite bind_print. rewrite bind_ret. rewrite !bind_print.
  match goal with |- exists _, _ ?w0 = _ /\ _ =>
    assert (Q0 : quiet w w0) by repeat split; revert Q0; generalize w0
  end.
  intros w0 Q0.
  destruct (py_truthy (JObj E)) eqn:T.
  - specialize (Hok T).
    destruct (Hok "P1") as [l1 L1]; [in_list|].
    destruct (Hok "P2") as [l2 L2]; [in_list|].
    destruct (Hok "P3") as [l3 L3]; [in_list|].
    destruct (Hok "P4") as [l4 L4]; [in_list|].
    rewrite bind_print.
    destruct (print_priority_total (map_to_list E) "P1"
                (add_line (NL +:+ "📅 Active Calendar Events:") w0) l1 L1)
      as (w1 & E1 & Q1).
    destruct (print_priority_total (map_to_list E) "P2" w1 l2 L2) as (w2 & E2 & Q2).
    destruct (print_priority_total (map_to_list E) "P3" w2 l3 L3) as (w3 & E3 & Q3).
    destruct (print_priority_total (map_to_list E) "P4" w3 l4 L4) as (w4 & E4 & Q4).
    exists w4.
    rewrite (bind_eq _ _ _ _ _ E1), (bind_eq _ _ _ _ _ E2), (bind_eq _ _ _ _ _ E3).
    split; [exact E4|].
    eapply quiet_trans; [|exact Q4]. eapply quiet_trans; [|exact Q3].
    eapply quiet_trans; [|exact Q2]. eapply quiet_trans; [|exact Q1].
    eapply quiet_trans; [exact Q0|]. repeat split.
  - exists w0. split; [reflexivity | exact Q0].
Qed.

(** ** A whole run *)

Lemma filter_none {A} (P : A -> Prop) `{forall x, Decision (P x)} (l : list A) :
  (forall x, x ∈ l -> ~ P x) -> filter P l = [].
Proof.
  induction l as [|x l IH]; intros Hall; [reflexivity|].
  rewrite filter_cons_False by (apply Hall, list_elem_of_here).
  apply IH. intros y Hy. apply Hall. now apply list_elem_of_further.
Qed.

Lemma cleanup_no_orphans (sd E : dict) w :
  sd !! "synced_threads" = Some (JObj E) ->
  (forall t, is_Some (E !! t) -> has_meta w t = true) ->
  cleanup_orphaned_events env (JObj sd) w = Ok (0%nat, JObj sd) w.
Proof.
  intros Hsd Hall. unfold cleanup_orphaned_events.
  cbn [py_getitem]. rewrite Hsd. cbn [lift]. rewrite bind_ret.
  cbn [py_keys lift]. rewrite bind_ret. unfold bind at 1.
  rewrite filter_none; [reflexivity|].
  intros t Hin. apply elem_of_keys in Hin. rewrite (Hall t Hin). cbn. auto.
Qed.

Lemma has_counters_initial : has_counters initial_stats.
Proof.
  intros k Hk. unfold initial_stats.
  repeat (apply elem_of_cons in Hk as [-> | Hk]; [eexists; by simplify_map_eq|]).
  inversion Hk.
Qed.

Lemma has_counters_bump k n stats :
  has_counters stats -> has_counters (bump k n stats).
Proof.
  intros H k' Hk'. unfold bump.
  destruct (decide (k' = k)) as [-> | Hne].
  - rewrite lookup_insert_eq. eauto.
  - rewrite lookup_insert_ne by congruence. now apply H.
Qed.

Lemma sync_all_settled (sd E : dict) l : forall stats w,
  sd !! "synced_threads" = Some (JObj E) ->
  (forall t, t ∈ l -> exists f, threads w !! t = Some (Some f)
                                /\ settled f (dict_get E t)) ->
  exists stats' w',
    sync_all env l (JObj sd) stats w = Ok (stats', JObj sd) w'
    /\ quiet w w'
    /\ (forall k, k <> "skipped" -> k <> "error" -> stat stats' k = stat stats k)
    /\ (has_counters stats -> has_counters stats').
Proof.
  induction l as [|tid rest IH]; intros stats w Hsd Hall.
  - do 2 eexists. split; [reflexivity|]. split; [apply quiet_refl | auto].
  - destruct (Hall tid (list_elem_of_here _ _)) as (f & Hf & Hset).
    destruct (settled_step tid sd E f w Hsd Hf Hset) as (r & w1 & Hstep & Q1 & Hr).
    destruct (IH (bump r 1 stats) w1 Hsd) as (stats' & w' & Hrest & Q2 & Hst & Hk).
    { intros t Hin. destruct Q1 as (-> & _ & _).
      apply Hall. now apply list_elem_of_further. }
    exists stats', w'. cbn [sync_all]. rewrite (bind_eq _ _ _ _ _ Hstep).
    cbn [fst snd]. split; [exact Hrest|]. split; [eapply quiet_trans; eauto|].
    split; [|intros Hc; now apply Hk, has_counters_bump].
    intros k Hk1 Hk2. rewrite Hst by auto. rewrite stat_bump.
    rewrite decide_False; [reflexivity|]. destruct Hr; congruence.
Qed.

Lemma reconcile_idle (sd E : dict) w :
  sd !! "synced_threads" = Some (JObj E) ->
  (forall t, is_Some (E !! t) -> has_meta w t = true) ->
  (forall t f, threads w !! t = Some (Some f) -> settled f (dict_get E t)) ->
  exists stats w',
    reconcile env (JObj sd) w = Ok (stats, JObj sd) w'
    /\ quiet w w'
    /\ stat stats "created" = 0 /\ stat stats "updated" = 0
    /\ stat stats "deleted" = 0
    /\ has_counters stats.
Proof.
  intros Hsd Hno Hset. unfold reconcile.
  rewrite (bind_eq _ _ _ _ _ (cleanup_no_orphans sd E w Hsd Hno)).
  cbn [fst snd Nat.eqb].
  destruct (list_threads_spec w) as (l & Hl & Hnd & Hin).
  rewrite (bind_eq _ _ _ _ _ Hl). unfold bind at 1. rewrite log_eq.
  match goal with |- context [sync_all _ _ _ ?s ?w0] =>
    destruct (sync_all_settled sd E (sort_strings l) s w0 Hsd)
      as (stats' & w' & Hall & Q & Hst & Hk)
  end.
  { intros t Ht. apply Hin in Ht. cbn [threads add_line tick].
    unfold has_meta in Ht. destruct (threads w !! t) as [[f|]|] eqn:Hf;
      try discriminate. eauto. }
  exists stats', w'. split; [exact Hall|].
  split; [eapply quiet_trans; [|exact Q]; repeat split|].
  rewrite !Hst by discriminate.
  repeat split; try reflexivity. apply Hk, has_counters_initial.
Qed.

(** What a run that returns has done. *)
Lemma run_inv w stats state' w' :
  run env w = Ok (stats, state') w' ->
  exists (sd E sd' E' ss : dict) cs,
    load_state w = Ok (JObj sd) w
    /\ sd !! "synced_threads" = Some (JObj E)
    /\ state' = JObj sd' /\ sd' !! "synced_threads" = Some (JObj E')
    /\ sd' !! "sync_stats" = Some (JObj ss)
    /\ (forall k, k ∈ STAT_KEYS -> int_at ss k)
    /\ state_file w' = Some (Json state')
    /\ calls w' = calls w ++ cs
    /\ (forall t, has_meta w' t = has_meta w t)
    /\ stat stats "deleted" = Z.of_nat (size (dom E ∖ dom E'))
    /\ stat stats "errors" = 0
    /\ (forall t, is_Some (E' !! t) -> has_meta w' t = true)
    /\ (forallb call_ok cs = true ->
        forall t f, threads w' !! t = Some (Some f) -> settled f (dict_get E' t))
    /\ summary_ok E'.
Proof.
  intros H. unfold run in H.
  apply bind_Ok in H as (u1 & w1 & Hlog1 & H).
  rewrite log_eq in Hlog1. inversion Hlog1; subst u1 w1; clear Hlog1.
  apply bind_Ok in H as (u2 & w2 & Hlog2 & H).
  rewrite log_eq in Hlog2. inversion Hlog2; subst u2 w2; clear Hlog2.
  apply bind_Ok in H as (state0 & w3 & Hload & H).
  assert (Hload' : load_state w = Ok state0 w /\ quiet w w3).
  { unfold load_state in *. cbn [state_file add_line tick] in Hload.
    destruct (state_file w) as [[j| |]|]; inversion Hload; subst;
      split; try reflexivity; repeat split. }
  destruct Hload' as [Hload' (Ht3 & Hs3 & Hc3)]. clear Hload.
  apply bind_Ok in H as ([stats0 st1] & w4 & Hrec & H). cbn [fst snd] in H.
  destruct (reconcile_spec _ _ _ _ _ Hrec)
    as (sd & E & sd1 & E1 & cs & -> & Hsd & -> & Hsd1 & Hk1 & Hc & Hs & Hm & Hdel
        & Herr & Hno & Hset).
  apply bind_Ok in H as (st2 & w5 & Hcum & H). apply lift_Ok in Hcum as [Hcum ->].
  destruct (update_cumulative_spec _ _ _ Hcum) as (sd1' & ss & Heq & -> & Hint).
  inversion Heq; subst sd1'; clear Heq.
  apply bind_Ok in H as (st3 & w5 & Hsave & H).
  destruct (save_state_Ok _ _ _ _ Hsave) as (sd2 & stamp & Heq & -> & Ht5 & Hc5 & Hs5).
  inversion Heq; subst sd2; clear Heq.
  apply bind_Ok in H as (u & w6 & Hsum & H).
  apply ret_Ok in H as [H Hw]. subst w6. inversion H; subst stats0 state'; clear H.
  eapply print_sync_summary_Ok in Hsum as [Hok (Ht6 & Hs6 & Hc6)];
    [|by simplify_map_eq].
  assert (Hm' : forall t, has_meta w' t = has_meta w4 t).
  { intros t. unfold has_meta. now rewrite Ht6, Ht5. }
  assert (Hmeta : forall t, has_meta w' t = has_meta w t).
  { intros t. rewrite Hm', Hm. unfold has_meta. now rewrite Ht3. }
  exists sd, E, (<["last_sync" := JStr stamp]> (<["sync_stats" := JObj ss]> sd1)),
         E1, ss, cs.
  split; [exact Hload'|]. split; [exact Hsd|]. split; [reflexivity|].
  split; [by simplify_map_eq|]. split; [by simplify_map_eq|].
  split; [exact Hint|]. split; [congruence|].
  split; [rewrite Hc6, Hc5, Hc, Hc3; reflexivity|].
  split; [exact Hmeta|].
  split; [exact Hdel|]. split; [exact Herr|].
  split; [intros t Hsome; rewrite Hm'; now apply Hno|].
  split; [|exact Hok].
  intros Hall t f Hf. apply (Hset Hall t f). now rewrite <- Ht5, <- Ht6.
Qed.

(** A run on a state and records on which nothing is left to do. *)
Lemma run_idle (sd E ss : dict) w :
  state_file w = Some (Json (JObj sd)) ->
  sd !! "synced_threads" = Some (JObj E) ->
  sd !! "sync_stats" = Some (JObj ss) ->
  (forall k, k ∈ STAT_KEYS -> int_at ss k) ->
  (forall t, is_Some (E !! t) -> has_meta w t = true) ->
  (forall t f, threads w !! t = Some (Some f) -> settled f (dict_get E t)) ->
  summary_ok E ->
  exists stats state2 w2,
    run env w = Ok (stats, state2) w2
    /\ calls w2 = calls w /\ threads w2 = threads w
    /\ entries_of state2 = Some E
    /\ stat stats "created" = 0 /\ stat stats "updated" = 0
    /\ stat stats "deleted" = 0.
Proof.
  intros Hfile Hsd Hss Hint Hno Hset Hok. unfold run.
  unfold bind at 1. rewrite log_eq. unfold bind at 1. rewrite log_eq.
  match goal with |- context [bind load_state _ ?w0] => set (wa := w0) end.
  assert (Hwa : quiet w wa) by repeat split.
  destruct Hwa as (Hta & Hsa & Hca).
  assert (Hload : load_state wa = Ok (JObj sd) wa).
  { unfold load_state. now rewrite Hsa, Hfile. }
  rewrite (bind_eq _ _ _ _ _ Hload).
  destruct (reconcile_idle sd E wa Hsd)
    as (stats & wr & Hrec & (Htr & Hsr & Hcr) & Z1 & Z2 & Z3 & Hkeys).
  { intros t Hs. unfold has_meta. rewrite Hta. now apply Hno. }
  { intros t f. rewrite Hta. apply Hset. }
  rewrite (bind_eq _ _ _ _ _ Hrec). cbn [fst snd].
  destruct (update_cumulative_total stats sd ss Hss Hint) as (st2 & Hcum).
  rewrite Hcum. cbn [lift]. rewrite bind_ret.
  destruct (update_cumulative_spec _ _ _ Hcum) as (sd' & ss' & Heq & -> & _).
  inversion Heq; subst sd'; clear Heq.
  destruct (save_state_spec (<["sync_stats" := JObj ss']> sd) wr)
    as (stamp & ws & Hsave & Hts & Hcs & Hfs).
  rewrite (bind_eq _ _ _ _ _ Hsave).
  destruct (print_sync_summary_total stats
              (<["last_sync" := JStr stamp]> (<["sync_stats" := JObj ss']> sd))
              E ws) as (wp & Hsum & (Htp & Hsp & Hcp));
    [exact Hkeys | by simplify_map_eq | exact Hok|].
  rewrite (bind_eq _ _ _ _ _ Hsum). unfold ret.
  do 3 eexists. split; [reflexivity|].
  split; [congruence|]. split; [congruence|].
  split; [cbn; by simplify_map_eq | auto].
Qed.

(** X27: The exit code: no answer of a sync step is the key "errors" of the
    statistics, so the run ends with exit code 0 whenever it ends. *)
Lemma main_exit_code_zero w code w' : main env w = Ok code w' -> code = 0.
Proof.
  unfold main. intros H. apply bind_Ok in H as ([stats st] & w1 & Hrun & H).
  apply ret_Ok in H as [<- _]. cbn [fst].
  destruct (run_inv _ _ _ _ Hrun)
    as (? & ? & ? & ? & ? & ? & _ & _ & _ & _ & _ & _ & _ & _ & _ & _ & -> & _).
  reflexivity.
Qed.

(** C1: when a run has returned and each command that it ran succeeded,
    the next run on the records and the state that it left returns too,
    runs no command, leaves every record and every entry as it is, and
    counts no create, no update and no delete.  A sync step on an active
    task whose entry carries the fingerprint of its record answers
    "skipped" and changes nothing.  ([run] is [main] up to the exit
    code.) *)
Theorem second_run_is_idle (w0 w1 : World) (stats1 : run_stats) (state1 : json) :
  (run env w0 = Ok (stats1, state1) w1 ->
   forallb call_ok (drop (length (calls w0)) (calls w1)) = true ->
   exists stats2 state2 w2,
     run env w1 = Ok (stats2, state2) w2
     /\ calls w2 = calls w1 /\ threads w2 = threads w1
     /\ entries_of state2 = entries_of state1
     /\ stat stats2 "created" = 0 /\ stat stats2 "updated" = 0
     /\ stat stats2 "deleted" = 0)
  /\ (forall thread_id (meta sd E d : dict) h w,
        threads w !! thread_id = Some (Some (Json (JObj meta))) ->
        is_terminal (dict_get_or meta "status" (JStr "active")) = false ->
        sd !! "synced_threads" = Some (JObj E) ->
        E !! thread_id = Some (JObj d) ->
        get_thread_hash meta = Val h ->
        d !! "hash" = Some (JStr h) ->
        sync_thread_to_calendar env thread_id (JObj sd) w
        = Ok ("skipped", JObj sd) w).
Proof.
  split.
  - intros Hrun Hall.
    destruct (run_inv _ _ _ _ Hrun)
      as (sd & E & sd' & E' & ss & cs & _ & _ & -> & Hsd' & Hss & Hint & Hfile
          & Hc & _ & _ & _ & Hno & Hset & Hok).
    rewrite Hc, drop_app_length in Hall.
    destruct (run_idle sd' E' ss w1 Hfile Hsd' Hss Hint Hno (Hset Hall) Hok)
      as (stats2 & state2 & w2 & Hrun2 & ? & ? & He & ? & ? & ?).
    exists stats2, state2, w2. repeat split; auto.
    rewrite He. cbn. now rewrite Hsd'.
  - intros thread_id meta sd E d h w Hf Hterm Hsd HE Hh Hd.
    unfold sync_thread_to_calendar, bind at 1, read_meta_file. rewrite Hf.
    cbn [mjoin option_join py_getitem]. rewrite Hsd. cbn [lift].
    rewrite bind_ret. cbn [py_get lift]. rewrite bind_ret, Hterm, Hh.
    cbn [lift]. rewrite bind_ret. rewrite (dict_get_Some _ _ _ HE).
    rewrite (truthy_obj_lookup _ _ _ Hd).
    unfold sync_existing, bind. cbn [py_get lift]. unfold ret at 1.
    rewrite (dict_get_Some _ _ _ Hd), is_str_refl. reflexivity.
Qed.

(** C10: the "deleted" statistic of a run is the number of entries of
    the state that the run loaded which are gone from the state that it
    saved, whatever became of the delete commands. *)
Theorem deleted_counts_removed_entries (w w' : World) (stats : run_stats)
    (state' : json) :
  run env w = Ok (stats, state') w' ->
  exists state0 (E E' : dict),
    load_state w = Ok state0 w
    /\ entries_of state0 = Some E
    /\ entries_of state' = Some E'
    /\ state_file w' = Some (Json state')
    /\ stat stats "deleted" = Z.of_nat (size (dom E ∖ dom E')).
Proof.
  intros Hrun.
  destruct (run_inv _ _ _ _ Hrun)
    as (sd & E & sd' & E' & ss & cs & Hload & Hsd & -> & Hsd' & _ & _ & Hfile
        & _ & _ & Hdel & _).
  exists (JObj sd), E, E'. cbn. rewrite Hsd, Hsd'. auto.
Qed.

(** C4, amended: a record whose text [json.loads] rejects is isolated.
    The sync step answers "error" without raising, runs no command and
    leaves the state and the files as they are, and the pass goes on
    with the remaining threads.  A record whose bytes [read_text]
    cannot decode is not: the step raises [UnicodeDecodeError], which
    the [except json.JSONDecodeError] of the step does not catch, and
    the pass ends there, before the remaining threads. *)
Theorem unreadable_record_is_isolated (thread_id : string) (rest : list string)
    (state : json) (stats : run_stats) (w : World) :
  (threads w !! thread_id = Some (Some Garbage) ->
   exists w',
     sync_thread_to_calendar env thread_id state w = Ok ("error", state) w'
     /\ quiet w w'
     /\ sync_all env (thread_id :: rest) state stats w
        = sync_all env rest state (bump "error" 1 stats) w')
  /\ (threads w !! thread_id = Some (Some Undecodable) ->
      sync_thread_to_calendar env thread_id state w = Raise UnicodeDecodeError w
      /\ sync_all env (thread_id :: rest) state stats w
         = Raise UnicodeDecodeError w).
Proof.
  split; intros Hf.
  - assert (Hstep : exists w',
      sync_thread_to_calendar env thread_id state w = Ok ("error", state) w'
      /\ quiet w w').
    { unfold sync_thread_to_calendar, bind at 1, read_meta_file. rewrite Hf.
      cbn [mjoin option_join]. unfold bind. rewrite log_eq.
      eexists. split; [reflexivity | repeat split]. }
    destruct Hstep as (w' & Hstep & Q). exists w'.
    split; [exact Hstep|]. split; [exact Q|].
    cbn [sync_all]. now rewrite (bind_eq _ _ _ _ _ Hstep).
  - assert (Hstep : sync_thread_to_calendar env thread_id state w
                    = Raise UnicodeDecodeError w).
    { unfold sync_thread_to_calendar, bind at 1, read_meta_file. rewrite Hf.
      reflexivity. }
    split; [exact Hstep|].
    cbn [sync_all]. unfold bind at 1. now rewrite Hstep.
Qed.

(** A failed update: the step answers "error" and the state, with the
    entry and its stale fingerprint, is as before; the answer is counted
    under the key "error", and the "errors" statistic stays as it is. *)
Lemma failed_update_step (thread_id : string) (meta sd E d : dict) (event_id : json)
    (h : string) (w w' : World) (r : string) (state' : json) :
  threads w !! thread_id = Some (Some (Json (JObj meta))) ->
  is_terminal (dict_get_or meta "status" (JStr "active")) = false ->
  sd !! "synced_threads" = Some (JObj E) ->
  E !! thread_id = Some (JObj d) ->
  get_thread_hash meta = Val h ->
  is_str h (dict_get d "hash") = false ->
  d !! "event_id" = Some event_id ->
  py_truthy event_id = true ->
  is_str SENTINEL event_id = false ->
  (forall args, proc_failed (subprocess_run env (length (calls w)) args) = true) ->
  sync_thread_to_calendar env thread_id (JObj sd) w = Ok (r, state') w' ->
  r = "error" /\ state' = JObj sd /\ threads w' = threads w
  /\ length (calls w') = S (length (calls w))
  /\ forall stats, stat (bump r 1 stats) "errors" = stat stats "errors".
Proof.
  intros Hf Hterm Hsd HE Hh Hm Hev Ht Hs Hfail H.
  unfold sync_thread_to_calendar, bind at 1, read_meta_file in H. rewrite Hf in H.
  cbn [mjoin option_join py_getitem] in H. rewrite Hsd in H. cbn [lift] in H.
  rewrite bind_ret in H. cbn [py_get lift] in H. rewrite bind_ret, Hterm, Hh in H.
  cbn [lift] in H. rewrite bind_ret in H. rewrite (dict_get_Some _ _ _ HE) in H.
  rewrite (truthy_obj_lookup _ _ _ Hev) in H.
  apply bind_Ok in H as (handled & w1 & H1 & H).
  unfold sync_existing in H1. cbn [py_get lift] in H1. rewrite bind_ret in H1.
  rewrite Hm in H1. rewrite bind_ret in H1.
  rewrite (dict_get_Some _ _ _ Hev), Ht, Hs in H1. cbn [negb andb] in H1.
  apply bind_Ok in H1 as (u & w2 & Hlog & H1).
  rewrite log_eq in Hlog. inversion Hlog; subst u w2; clear Hlog.
  apply bind_Ok in H1 as (ok & w2 & Hu & H1).
  match type of Hu with update_calendar_event _ ?e ?t ?m ?w0 = _ =>
    pose proof (update_calendar_event_spec e t m w0) as S end.
  rewrite Hu in S. destruct S as (args & -> & Hth & _ & Hc & _).
  cbn [threads calls add_line tick] in *. rewrite Hfail in H1. cbn [negb] in H1.
  apply ret_Ok in H1 as [<- ->]. apply ret_Ok in H as [H ->].
  inversion H; subst r state'; clear H.
  split; [reflexivity|]. split; [reflexivity|]. split; [exact Hth|].
  split; [rewrite Hc, length_app; cbn; lia|].
  intros stats. rewrite stat_bump. now rewrite decide_False by discriminate.
Qed.

(** * Further properties of the code *)

(** ** Priorities *)

Lemma ascii_upper_idem c : ascii_upper (ascii_upper c) = ascii_upper c.
Proof. destruct c as [[] [] [] [] [] [] [] []]; reflexivity. Qed.

Lemma ascii_upper_lower c : ascii_upper (ascii_lower c) = ascii_upper c.
Proof. destruct c as [[] [] [] [] [] [] [] []]; reflexivity. Qed.

Lemma upper_idem s : upper (upper s) = upper s.
Proof.
  unfold upper. induction s as [|c s IH]; [reflexivity|].
  cbn [str_map]. now rewrite IH, ascii_upper_idem.
Qed.

Lemma upper_lower s : upper (lower s) = upper s.
Proof.
  unfold upper, lower. induction s as [|c s IH]; [reflexivity|].
  cbn [str_map]. now rewrite IH, ascii_upper_lower.
Qed.

(** X1: [normalize_priority] always answers one of the four ranks, and a
    rank is its own normal form. *)
Theorem normalize_priority_idempotent (p : json) :
  normalize_priority p ∈ ["P1"; "P2"; "P3"; "P4"]
  /\ normalize_priority (JStr (normalize_priority p)) = normalize_priority p.
Proof.
  destruct (normalize_priority_cases p) as [-> | [-> | [-> | ->]]];
    (split; [in_list | reflexivity]).
Qed.

(** X2: The rank of a priority written as a string does not depend on the
    case of its letters. *)
Theorem normalize_priority_ignores_case (s : string) :
  normalize_priority (JStr (upper s)) = normalize_priority (JStr s)
  /\ normalize_priority (JStr (lower s)) = normalize_priority (JStr s).
Proof.
  unfold normalize_priority, py_str. now rewrite upper_idem, upper_lower.
Qed.

(** ** Deadline resolution *)

(** X3: An explicit deadline that [fromisoformat] reads wins over every
    other source: [get_deadline] returns it without reading the clock,
    whatever the due date, the labels, the description and the notes
    are. *)
Theorem explicit_deadline_wins (meta : dict) (s : string) (d : datetime)
    (default_days : Z) (w : World) :
  meta !! "deadline" = Some (JStr s) ->
  fromisoformat (replace_Z s) = Some d ->
  get_deadline env meta default_days w = Ok d w.
Proof.
  intros Hm Hd. unfold get_deadline, deadline_from_sources, or_else, bind.
  unfold from_deadline_field. rewrite Hm, Hd. reflexivity.
Qed.

(** X4: Without a deadline field, a due date that [strptime] reads is the
    deadline, before labels, description and notes. *)
Theorem due_date_before_labels (meta : dict) (s : string) (d : datetime)
    (default_days : Z) (w : World) :
  meta !! "deadline" = None ->
  meta !! "due_date" = Some (JStr s) ->
  strptime_ymd s = Some d ->
  get_deadline env meta default_days w = Ok d w.
Proof.
  intros Hn Hm Hd. unfold get_deadline, deadline_from_sources, or_else, bind.
  unfold from_deadline_field, from_due_date_field. rewrite Hn, Hm. cbn.
  rewrite Hd. reflexivity.
Qed.

(** X5: Without a deadline field, a due date that is not a string makes
    [get_deadline] raise [TypeError]: only [ValueError] is caught around
    [strptime]. *)
Theorem due_date_not_a_string_raises (meta : dict) (v : json)
    (default_days : Z) (w : World) :
  meta !! "deadline" = None ->
  meta !! "due_date" = Some v ->
  (forall s, v <> JStr s) ->
  get_deadline env meta default_days w = Raise TypeError w.
Proof.
  intros Hn Hm Hv. unfold get_deadline, deadline_from_sources, or_else, bind.
  unfold from_deadline_field, from_due_date_field. rewrite Hn, Hm. cbn.
  destruct v; try reflexivity. exfalso. now apply (Hv s).
Qed.

Lemma extract_text_falsy text w :
  py_truthy text = false -> extract_deadline_from_text env text w = Ok None w.
Proof. intros H. unfold extract_deadline_from_text. now rewrite H. Qed.

Lemma extract_labels_falsy labels w :
  py_truthy labels = false -> extract_deadline_from_labels env labels w = Ok None w.
Proof. intros H. unfold extract_deadline_from_labels. now rewrite H. Qed.

Lemma dict_get_or_falsy (meta : dict) k dflt :
  absent_or_falsy meta k -> py_truthy dflt = false ->
  py_truthy (dict_get_or meta k dflt) = false.
Proof.
  intros H Hd. unfold dict_get_or. destruct (meta !! k) as [v|] eqn:E; cbn; auto.
Qed.

Lemma no_sources (meta : dict) w :
  meta !! "deadline" = None ->
  meta !! "due_date" = None ->
  absent_or_falsy meta "labels" ->
  absent_or_falsy meta "description" ->
  absent_or_falsy meta "notes" ->
  deadline_from_sources env meta w = Ok None w.
Proof.
  intros H1 H2 H3 H4 H5. unfold deadline_from_sources, or_else, bind.
  unfold from_deadline_field, from_due_date_field. rewrite H1, H2. cbn.
  rewrite extract_labels_falsy by (now apply dict_get_or_falsy).
  rewrite extract_text_falsy by (now apply dict_get_or_falsy).
  rewrite extract_text_falsy by (now apply dict_get_or_falsy).
  reflexivity.
Qed.

(** X6: A record without deadline and due date, whose labels, description
    and notes are absent or empty, gets the fallback deadline: the clock
    is read once, and the deadline is that time plus the days of the
    rank of the priority. *)
Theorem fallback_without_sources (meta : dict) (default_days : Z) (w : World) :
  meta !! "deadline" = None ->
  meta !! "due_date" = None ->
  absent_or_falsy meta "labels" ->
  absent_or_falsy meta "description" ->
  absent_or_falsy meta "notes" ->
  get_deadline env meta default_days w
  = lift (add_days (now_at env (clock_reads w))
                   (rank_offset (normalize_priority (dict_get meta "priority"))))
         (tick w).
Proof.
  intros H1 H2 H3 H4 H5. unfold get_deadline, bind.
  rewrite (no_sources meta w H1 H2 H3 H4 H5).
  rewrite priority_days_normalized. reflexivity.
Qed.

(** X7: A description that is not a string and not empty (a list, a
    number) makes [get_deadline] raise [AttributeError] when no earlier
    source gives a date: neither the deadline field, nor the due date,
    nor the labels. *)
Theorem description_not_a_string_raises (meta : dict) (v : json)
    (default_days : Z) (w w1 w2 w3 : World) :
  from_deadline_field env meta w = Ok None w1 ->
  from_due_date_field meta w1 = Ok None w2 ->
  extract_deadline_from_labels env (dict_get_or meta "labels" (JArr [])) w2
  = Ok None w3 ->
  meta !! "description" = Some v ->
  py_truthy v = true ->
  (forall s, v <> JStr s) ->
  get_deadline env meta default_days w = Raise AttributeError w3.
Proof.
  intros H1 H2 H3 H4 Ht Hv.
  unfold get_deadline, deadline_from_sources, or_else.
  unfold bind at 1. unfold bind at 1. rewrite H1.
  unfold bind at 1. rewrite H2.
  unfold bind at 1. rewrite H3.
  unfold bind at 1.
  unfold dict_get_or at 1. rewrite H4. cbn [default from_option id].
  unfold extract_deadline_from_text. rewrite Ht. cbn [negb].
  destruct v; try reflexivity. exfalso. now apply (Hv s).
Qed.

Lemma weekday_range dt : 0 <= weekday dt <= 6.
Proof. unfold weekday. pose proof (Z.mod_pos_bound (toordinal dt + 6) 7). lia. Qed.

(** X8: The label "this-week", in any case of letters, gives the time of
    the resolution plus one to seven days (the clock is read twice), and
    "next-week" plus eight to fourteen days; the labels after it are not
    looked at. *)
Theorem week_labels (label : json) (rest : list json) (w : World) :
  let n1 := now_at env (clock_reads w) in
  let n2 := now_at env (S (clock_reads w)) in
  (lower (py_str label) = "this-week" ->
   1 <= 7 - weekday n2 <= 7
   /\ labels_loop env (label :: rest) w
      = bind (lift (add_days n1 (7 - weekday n2))) (fun d => ret (Some d))
             (tick (tick w)))
  /\ (lower (py_str label) = "next-week" ->
      8 <= 14 - weekday n2 <= 14
      /\ labels_loop env (label :: rest) w
         = bind (lift (add_days n1 (14 - weekday n2))) (fun d => ret (Some d))
                (tick (tick w))).
Proof.
  cbn zeta. pose proof (weekday_range (now_at env (S (clock_reads w)))) as Hr.
  split; intros Hl; (split; [lia|]); cbn [labels_loop]; rewrite Hl; reflexivity.
Qed.

(** X9: Labels are tried in their order, and a label that yields nothing (a
    label without deadline, or with a date that does not parse) is
    passed over: the result is that of the labels after it. *)
Theorem labels_in_order (pre rest : list json) (w : World) :
  Forall label_yields_nothing pre ->
  labels_loop env (pre ++ rest) w = labels_loop env rest w.
Proof.
  induction 1 as [|label pre (H1 & H2 & H3 & H4) _ IH]; [reflexivity|].
  cbn [app labels_loop]. rewrite H1, H2, H3, H4. exact IH.
Qed.

(** ** The gateway, in detail *)

Lemma id_of_output_truthy output : py_truthy (id_of_output output) = true.
Proof.
  unfold id_of_output.
  destruct (str_find _ output); [|reflexivity].
  destruct (json_loads _); [|reflexivity].
  destruct (py_get _ _) as [v|]; [|reflexivity].
  destruct (py_truthy v) eqn:T; [exact T | reflexivity].
Qed.

Lemma create_calendar_event_result thread_id meta w created w' :
  create_calendar_event env thread_id meta w = Ok created w' ->
  exists title description deadline,
    let args := [JStr "create"; JStr title]
                  ++ event_args title description deadline meta in
    let r := subprocess_run env (length (calls w)) args in
    build_event_title thread_id meta = Val title
    /\ calls w' = calls w ++ [(args, r)]
    /\ threads w' = threads w /\ state_file w' = state_file w
    /\ created = if proc_failed r then None
                 else Some (id_of_output (diagnostic r)).
Proof.
  intros H. unfold create_calendar_event in H.
  apply bind_Ok in H as (title & w0 & H0 & H). apply lift_Ok in H0 as [Htitle ->].
  apply bind_Ok in H as (desc & w1 & H1 & H).
  apply (Quiet_Ok _ _ _ _ (Quiet_build_event_description thread_id meta)) in H1
    as (Ht1 & Hs1 & Hc1).
  apply bind_Ok in H as (dl & w2 & H2 & H).
  apply (Quiet_Ok _ _ _ _ (Quiet_get_deadline meta DEFAULT_DEADLINE_DAYS)) in H2
    as (Ht2 & Hs2 & Hc2).
  apply bind_Ok in H as (r & w3 & H3 & H).
  rewrite run_calendar_command_eq in H3. inversion H3; subst r w3; clear H3.
  cbn [fst snd] in H. rewrite Hc2, Hc1 in H.
  exists title, desc, dl. cbn zeta. cbn [app] in *.
  set (args := JStr "create" :: JStr title :: event_args title desc dl meta) in *.
  set (r := subprocess_run env (length (calls w)) args) in *.
  split; [exact Htitle|].
  assert (Hw : forall msg level (x : option json),
    (log env msg level ;; ret x)%py (add_call (args, r) w2) = Ok created w' ->
    calls w' = calls w ++ [(args, r)] /\ threads w' = threads w
    /\ state_file w' = state_file w /\ created = x).
  { intros msg level x Hx. unfold bind in Hx. rewrite log_eq in Hx.
    inversion Hx; subst. cbn. rewrite Hc2, Hc1, Ht2, Ht1, Hs2, Hs1. auto. }
  unfold id_of_output.
  destruct (proc_failed r) eqn:F; cbn [negb] in H.
  { apply Hw in H as (? & ? & ? & ?). auto. }
  destruct (str_find "{"%char (diagnostic r)) as [i|];
    [|apply Hw in H as (? & ? & ? & ?); auto].
  destruct (json_loads (str_drop i (diagnostic r))) as [event_data|];
    [|apply Hw in H as (? & ? & ? & ?); auto].
  apply bind_Ok in H as (event_id & w3 & H3 & H). apply lift_Ok in H3 as [H3 ->].
  rewrite H3.
  destruct (py_truthy event_id);
    [|apply Hw in H as (? & ? & ? & ?); auto].
  apply bind_Ok in H as (shown & w3 & H4 & H). apply lift_Ok in H4 as [_ ->].
  apply Hw in H as (? & ? & ? & ?). auto.
Qed.

(** X12: [create_calendar_event], when it returns, has run one "create"
    command; it answers no id when the command failed, and otherwise
    the sentinel "created_no_id" when the output holds no brace, when
    [json.loads] rejects the text from the first brace on, or when the
    object has no truthy [id], and that [id] when it has one. *)
Theorem create_returns_id_or_sentinel (thread_id : string) (meta : dict)
    (w w' : World) (created : option json) :
  create_calendar_event env thread_id meta w = Ok created w' ->
  exists args r,
    calls w' = calls w ++ [(JStr "create" :: args, r)]
    /\ r = subprocess_run env (length (calls w)) (JStr "create" :: args)
    /\ (proc_failed r = true -> created = None)
    /\ (proc_failed r = false ->
        (str_find "{"%char (diagnostic r) = None ->
         created = Some (JStr SENTINEL))
        /\ (forall i, str_find "{"%char (diagnostic r) = Some i ->
            json_loads (str_drop i (diagnostic r)) = None ->
            created = Some (JStr SENTINEL))
        /\ (forall i (d : dict),
            str_find "{"%char (diagnostic r) = Some i ->
            json_loads (str_drop i (diagnostic r)) = Some (JObj d) ->
            created = Some (if py_truthy (dict_get d "id") then dict_get d "id"
                            else JStr SENTINEL))).
Proof.
  intros H.
  destruct (create_calendar_event_result _ _ _ _ _ H)
    as (title & desc & dl & _ & Hc & _ & _ & Hr).
  cbn [app] in Hc, Hr.
  eexists _, _. split; [exact Hc|]. split; [reflexivity|].
  split; [intros F; rewrite F in Hr; exact Hr|].
  intros F. rewrite F in Hr. subst created.
  unfold id_of_output. repeat split.
  - now intros ->.
  - intros i -> ->. reflexivity.
  - intros i d -> ->. reflexivity.
Qed.

Lemma update_calendar_event_result event_id thread_id meta w ok w' :
  update_calendar_event env event_id thread_id meta w = Ok ok w' ->
  exists title description deadline,
    let args := [JStr "update"; event_id; JStr "--title"; JStr title]
                  ++ event_args title description deadline meta in
    let r := subprocess_run env (length (calls w)) args in
    calls w' = calls w ++ [(args, r)]
    /\ threads w' = threads w /\ state_file w' = state_file w
    /\ ok = negb (proc_failed r).
Proof.
  intros H. unfold update_calendar_event in H.
  apply bind_Ok in H as (title & w0 & H0 & H). apply lift_Ok in H0 as [Htitle ->].
  apply bind_Ok in H as (desc & w1 & H1 & H).
  apply (Quiet_Ok _ _ _ _ (Quiet_build_event_description thread_id meta)) in H1
    as (Ht1 & Hs1 & Hc1).
  apply bind_Ok in H as (dl & w2 & H2 & H).
  apply (Quiet_Ok _ _ _ _ (Quiet_get_deadline meta DEFAULT_DEADLINE_DAYS)) in H2
    as (Ht2 & Hs2 & Hc2).
  apply bind_Ok in H as (r & w3 & H3 & H).
  rewrite run_calendar_command_eq in H3. inversion H3; subst r w3; clear H3.
  cbn [fst snd] in H. rewrite Hc2, Hc1 in H.
  exists title, desc, dl. cbn zeta. cbn [app] in *.
  destruct (negb (proc_failed _)) eqn:F;
    unfold bind in H; rewrite log_eq in H; inversion H; subst; cbn;
    rewrite Hc2, Hc1, Ht2, Ht1, Hs2, Hs1; auto.
Qed.

(** ** The sync step, in detail *)

Lemma sync_create_result thread_id meta h (sd E : dict) w r state' w' :
  sd !! "synced_threads" = Some (JObj E) ->
  sync_create env thread_id meta h (JObj sd) w = Ok (r, state') w' ->
  exists args,
    let pr := subprocess_run env (length (calls w)) (JStr "create" :: args) in
    calls w' = calls w ++ [(JStr "create" :: args, pr)]
    /\ state_file w' = state_file w
    /\ ((proc_failed pr = true /\ r = "error" /\ state' = JObj sd
         /\ threads w' = threads w)
        \/ (proc_failed pr = false /\ r = "created"
            /\ exists synced_at sync stamp,
              meta_sync meta = Val sync
              /\ state' = JObj (<["synced_threads" :=
                   JObj (<[thread_id :=
                           created_entry meta (id_of_output (diagnostic pr))
                             synced_at h]> E)]> sd)
              /\ threads w'
                 = <[thread_id := Some (Json (JObj
                       (annotate_meta meta sync (id_of_output (diagnostic pr))
                          stamp)))]> (threads w))).
Proof.
  intros Hsd H. unfold sync_create in H.
  apply bind_Ok in H as (u & w1 & Hlog & H).
  rewrite log_eq in Hlog. inversion Hlog; subst u w1; clear Hlog.
  apply bind_Ok in H as (created & w2 & Hc & H).
  destruct (create_calendar_event_result _ _ _ _ _ Hc)
    as (title & desc & dl & _ & Hcalls & Ht & Hs & Hr).
  cbn [app threads state_file calls add_line tick] in *.
  exists (JStr title :: event_args title desc dl meta). cbn zeta.
  destruct (proc_failed _) eqn:F; subst created.
  - apply ret_Ok in H as [H ->]. inversion H; subst. auto 10.
  - rewrite id_of_output_truthy in H.
    apply bind_Ok in H as (synced_at & w3 & H1 & H).
    inversion H1; subst synced_at w3; clear H1.
    apply bind_Ok in H as (issue_number & w3 & H1 & H).
    apply lift_Ok in H1 as [H1 ->].
    apply bind_Ok in H as (st1 & w3 & H2 & H).
    apply lift_Ok in H2 as [H2 ->]. rewrite (set_entry_eq _ _ _ _ Hsd) in H2.
    inversion H2; subst st1; clear H2.
    apply bind_Ok in H as (sync & w3 & H2 & H).
    apply lift_Ok in H2 as [H2 ->].
    apply bind_Ok in H as (stamp & w3 & H3 & H).
    inversion H3; subst stamp w3; clear H3.
    apply bind_Ok in H as (u & w3 & H3 & H).
    inversion H3; subst u w3; clear H3.
    apply ret_Ok in H as [H ->]. inversion H; subst r state'; clear H.
    cbn [threads state_file calls set_meta_file tick].
    split; [exact Hcalls|].
    split; [exact Hs|]. right. split; [reflexivity|]. split; [reflexivity|].
    assert (Hi : issue_number
                 = dict_get_or (default ∅ (match meta !! "sync" with
                                           | Some (JObj sync) => Some sync
                                           | _ => None
                                           end)) "github_issue_number" JNull).
    { clear -H1 H2. unfold meta_sync in H2. unfold dict_get_or in H1, H2 |- *.
      destruct (meta !! "sync") as [[| | | | |sy]|]; cbn in H1, H2 |- *;
        try discriminate; inversion H1; reflexivity. }
    rewrite Hi.
    do 3 eexists. split; [exact H2|]. split; [|now rewrite Ht].
    reflexivity.
Qed.

Lemma sync_existing_result thread_id meta h si (sd E : dict) w res w' :
  sd !! "synced_threads" = Some (JObj E) ->
  sync_existing env thread_id meta h si (JObj sd) w = Ok res w' ->
  exists d : dict,
    si = JObj d
    /\ ((is_str h (dict_get d "hash") = true
         /\ res = Some ("skipped", JObj sd) /\ w' = w)
        \/ (is_str h (dict_get d "hash") = false
            /\ py_truthy (dict_get d "event_id")
               && negb (is_str SENTINEL (dict_get d "event_id")) = false
            /\ res = None /\ w' = w)
        \/ (is_str h (dict_get d "hash") = false
            /\ py_truthy (dict_get d "event_id")
               && negb (is_str SENTINEL (dict_get d "event_id")) = true
            /\ exists args,
              let pr := subprocess_run env (length (calls w))
                          (JStr "update" :: dict_get d "event_id" :: args) in
              calls w' = calls w
                           ++ [(JStr "update" :: dict_get d "event_id" :: args, pr)]
              /\ threads w' = threads w /\ state_file w' = state_file w
              /\ ((proc_failed pr = true /\ res = Some ("error", JObj sd))
                  \/ (proc_failed pr = false
                      /\ exists stamp,
                        res = Some ("updated",
                          JObj (<["synced_threads" :=
                            JObj (<[thread_id := updated_entry d h stamp]> E)]>
                              sd)))))).
Proof.
  intros Hsd H. unfold sync_existing in H.
  apply bind_Ok in H as (hv & w1 & H1 & H). apply lift_Ok in H1 as [H1 ->].
  destruct si as [| | | | |d]; try discriminate H1.
  exists d. split; [reflexivity|]. cbn in H1. inversion H1; subst hv; clear H1.
  destruct (is_str h (dict_get d "hash")) eqn:Hh.
  { apply ret_Ok in H as [<- ->]. left. auto. }
  right.
  apply bind_Ok in H as (ev & w1 & H1 & H). apply lift_Ok in H1 as [H1 ->].
  cbn in H1. inversion H1; subst ev; clear H1.
  destruct (py_truthy (dict_get d "event_id")
            && negb (is_str SENTINEL (dict_get d "event_id"))) eqn:Ha.
  2:{ apply ret_Ok in H as [<- ->]. left. auto. }
  right. split; [reflexivity|]. split; [reflexivity|].
  apply bind_Ok in H as (u & w1 & Hlog & H).
  rewrite log_eq in Hlog. inversion Hlog; subst u w1; clear Hlog.
  apply bind_Ok in H as (ok & w2 & Hu & H).
  destruct (update_calendar_event_result _ _ _ _ _ _ Hu)
    as (title & desc & dl & Hcalls & Ht & Hs & Hok).
  cbn [app threads state_file calls add_line tick] in *.
  exists (JStr "--title" :: JStr title :: event_args title desc dl meta).
  cbn zeta.
  destruct (proc_failed _) eqn:F; cbn [negb] in Hok; subst ok.
  - apply ret_Ok in H as [<- ->]. auto 10.
  - apply bind_Ok in H as (i1 & w3 & H1 & H). apply lift_Ok in H1 as [H1 ->].
    cbn in H1. inversion H1; subst i1; clear H1.
    apply bind_Ok in H as (stamp & w3 & H1 & H).
    inversion H1; subst stamp w3; clear H1.
    apply bind_Ok in H as (i2 & w3 & H1 & H). apply lift_Ok in H1 as [H1 ->].
    cbn in H1. inversion H1; subst i2; clear H1.
    apply bind_Ok in H as (st1 & w3 & H1 & H). apply lift_Ok in H1 as [H1 ->].
    rewrite (set_entry_eq _ _ _ _ Hsd) in H1. inversion H1; subst st1; clear H1.
    apply ret_Ok in H as [<- ->]. cbn [threads state_file calls tick].
    split; [exact Hcalls|]. split; [exact Ht|]. split; [exact Hs|].
    right. split; [reflexivity|]. eexists. reflexivity.
Qed.

(** The step on an active task with a record, up to the choice between
    the entry and the creation. *)
Lemma sync_active_eq thread_id (meta sd E : dict) h w :
  threads w !! thread_id = Some (Some (Json (JObj meta))) ->
  is_terminal (dict_get_or meta "status" (JStr "active")) = false ->
  sd !! "synced_threads" = Some (JObj E) ->
  get_thread_hash meta = Val h ->
  sync_thread_to_calendar env thread_id (JObj sd) w
  = bind (if py_truthy (dict_get E thread_id)
          then sync_existing env thread_id meta h (dict_get E thread_id) (JObj sd)
          else ret None)
         (fun handled => match handled with
                         | Some r => ret r
                         | None => sync_create env thread_id meta h (JObj sd)
                         end) w.
Proof.
  intros Hf Hterm Hsd Hh.
  unfold sync_thread_to_calendar, bind at 1, read_meta_file. rewrite Hf.
  cbn [mjoin option_join py_getitem]. rewrite Hsd. cbn [lift].
  rewrite bind_ret. cbn [py_get lift]. rewrite bind_ret, Hterm, Hh.
  cbn [lift]. rewrite bind_ret. reflexivity.
Qed.

Lemma sync_recreate_eq (thread_id : string) (meta sd E : dict)
    (h : string) (w : World) :
  threads w !! thread_id = Some (Some (Json (JObj meta))) ->
  is_terminal (dict_get_or meta "status" (JStr "active")) = false ->
  sd !! "synced_threads" = Some (JObj E) ->
  get_thread_hash meta = Val h ->
  (py_truthy (dict_get E thread_id) = false
   \/ exists d : dict,
        E !! thread_id = Some (JObj d)
        /\ is_str h (dict_get d "hash") = false
        /\ (py_truthy (dict_get d "event_id") = false
            \/ dict_get d "event_id" = JStr SENTINEL)) ->
  sync_thread_to_calendar env thread_id (JObj sd) w
  = sync_create env thread_id meta h (JObj sd) w.
Proof.
  intros Hf Hterm Hsd Hh Hcase.
  rewrite (sync_active_eq _ _ _ _ _ _ Hf Hterm Hsd Hh).
  destruct Hcase as [Hn | (d & Hd & Hm & Hev)].
  - rewrite Hn. reflexivity.
  - rewrite (dict_get_Some _ _ _ Hd).
    destruct (py_truthy (JObj d)); [|reflexivity].
    unfold sync_existing, bind. cbn [py_get lift]. unfold ret at 1. rewrite Hm.
    unfold ret at 1.
    destruct Hev as [-> | ->]; reflexivity.
Qed.

(** X13: An active task that is not tracked, or whose entry carries another
    fingerprint and no addressable event id (none, or the sentinel), is
    handled as a new task: the step is the creation of an event, it
    answers "created" or "error" after one "create" command, and no
    update is tried. *)
Theorem unaddressable_entry_is_recreated (thread_id : string) (meta sd E : dict)
    (h : string) (w : World) :
  threads w !! thread_id = Some (Some (Json (JObj meta))) ->
  is_terminal (dict_get_or meta "status" (JStr "active")) = false ->
  sd !! "synced_threads" = Some (JObj E) ->
  get_thread_hash meta = Val h ->
  (py_truthy (dict_get E thread_id) = false
   \/ exists d : dict,
        E !! thread_id = Some (JObj d)
        /\ is_str h (dict_get d "hash") = false
        /\ (py_truthy (dict_get d "event_id") = false
            \/ dict_get d "event_id" = JStr SENTINEL)) ->
  sync_thread_to_calendar env thread_id (JObj sd) w
  = sync_create env thread_id meta h (JObj sd) w
  /\ forall r state' w',
      sync_thread_to_calendar env thread_id (JObj sd) w = Ok (r, state') w' ->
      (r = "created" \/ r = "error")
      /\ exists args pr, calls w' = calls w ++ [(JStr "create" :: args, pr)].
Proof.
  intros Hf Hterm Hsd Hh Hcase.
  pose proof (sync_recreate_eq _ _ _ _ _ _ Hf Hterm Hsd Hh Hcase) as Heq.
  split; [exact Heq|].
  intros r state' w' H. rewrite Heq in H.
  destruct (sync_create_result _ _ _ _ _ _ _ _ _ Hsd H)
    as (args & Hc & _ & [(_ & -> & _) | (_ & -> & _)]); eauto.
Qed.

Lemma sync_step_cases thread_id (sd E : dict) w r state' w' :
  sd !! "synced_threads" = Some (JObj E) ->
  sync_thread_to_calendar env thread_id (JObj sd) w = Ok (r, state') w' ->
  (r = "skipped" /\ state' = JObj sd /\ w' = w)
  \/ (r = "error" /\ state' = JObj sd /\ threads w' = threads w
      /\ state_file w' = state_file w
      /\ (threads w !! thread_id = Some (Some Garbage) /\ calls w' = calls w
          \/ exists (meta : dict) args pr,
               threads w !! thread_id = Some (Some (Json (JObj meta)))
               /\ is_terminal (dict_get_or meta "status" (JStr "active")) = false
               /\ calls w' = calls w ++ [(args, pr)] /\ proc_failed pr = true))
  \/ (r = "deleted"
      /\ exists meta d : dict,
        threads w !! thread_id = Some (Some (Json (JObj meta)))
        /\ is_terminal (dict_get_or meta "status" (JStr "active")) = true
        /\ E !! thread_id = Some (JObj d)
        /\ py_truthy (dict_get d "event_id") = true
        /\ state' = JObj (<["synced_threads" := JObj (delete thread_id E)]> sd)
        /\ threads w' = threads w /\ state_file w' = state_file w)
  \/ (r = "updated"
      /\ exists (meta d : dict) h stamp args,
        let pr := subprocess_run env (length (calls w))
                    (JStr "update" :: dict_get d "event_id" :: args) in
        threads w !! thread_id = Some (Some (Json (JObj meta)))
        /\ is_terminal (dict_get_or meta "status" (JStr "active")) = false
        /\ get_thread_hash meta = Val h
        /\ E !! thread_id = Some (JObj d)
        /\ is_str h (dict_get d "hash") = false
        /\ py_truthy (dict_get d "event_id") = true
        /\ is_str SENTINEL (dict_get d "event_id") = false
        /\ calls w' = calls w
                        ++ [(JStr "update" :: dict_get d "event_id" :: args, pr)]
        /\ proc_failed pr = false
        /\ state' = JObj (<["synced_threads" :=
                            JObj (<[thread_id := updated_entry d h stamp]> E)]> sd)
        /\ threads w' = threads w /\ state_file w' = state_file w)
  \/ (r = "created"
      /\ exists (meta sync : dict) h synced_at stamp args,
        let pr := subprocess_run env (length (calls w)) (JStr "create" :: args) in
        threads w !! thread_id = Some (Some (Json (JObj meta)))
        /\ is_terminal (dict_get_or meta "status" (JStr "active")) = false
        /\ get_thread_hash meta = Val h
        /\ meta_sync meta = Val sync
        /\ calls w' = calls w ++ [(JStr "create" :: args, pr)]
        /\ proc_failed pr = false
        /\ state' = JObj (<["synced_threads" :=
             JObj (<[thread_id :=
                     created_entry meta (id_of_output (diagnostic pr)) synced_at h]>
                     E)]> sd)
        /\ threads w'
           = <[thread_id := Some (Json (JObj
                 (annotate_meta meta sync (id_of_output (diagnostic pr)) stamp)))]>
               (threads w)
        /\ state_file w' = state_file w).
Proof.
  intros Hsd H.
  destruct (threads w !! thread_id) as [[f|]|] eqn:Hf.
  2,3: unfold sync_thread_to_calendar, bind at 1, read_meta_file in H;
       rewrite Hf in H; cbn [mjoin option_join] in H;
       apply ret_Ok in H as [H ->]; inversion H; subst; auto.
  destruct f as [j| |].
  3:{ unfold sync_thread_to_calendar, bind at 1, read_meta_file in H.
      rewrite Hf in H. discriminate H. }
  2:{ unfold sync_thread_to_calendar, bind at 1, read_meta_file in H.
      rewrite Hf in H. cbn [mjoin option_join] in H.
      apply bind_Ok in H as (u & w1 & Hlog & H).
      rewrite log_eq in Hlog. inversion Hlog; subst u w1; clear Hlog.
      apply ret_Ok in H as [H ->]. inversion H; subst.
      right. left. repeat split; auto. }
  destruct j as [| | | | |meta];
    try (unfold sync_thread_to_calendar, bind at 1, read_meta_file in H;
         rewrite Hf in H; discriminate H).
  destruct (is_terminal (dict_get_or meta "status" (JStr "active"))) eqn:Hterm.
  - unfold sync_thread_to_calendar, bind at 1, read_meta_file in H.
    rewrite Hf in H. cbn [mjoin option_join py_getitem] in H.
    rewrite Hsd in H. cbn [lift] in H. rewrite bind_ret in H.
    cbn [py_get lift] in H. rewrite bind_ret, Hterm in H.
    destruct (py_truthy (dict_get E thread_id)) eqn:Hsi.
    2:{ apply ret_Ok in H as [H ->]. inversion H; subst. auto. }
    apply bind_Ok in H as (ev & w1 & H1 & H). apply lift_Ok in H1 as [H1 ->].
    destruct (dict_get E thread_id) as [| | | | |d] eqn:Hd; try discriminate H1.
    cbn in H1. inversion H1; subst ev; clear H1.
    destruct (py_truthy (dict_get d "event_id")) eqn:Hev.
    2:{ apply ret_Ok in H as [H ->]. inversion H; subst. auto. }
    assert (HE : E !! thread_id = Some (JObj d)).
    { rewrite <- Hd. apply truthy_dict_get_Some. now rewrite Hd. }
    apply bind_Ok in H as (u & w1 & Hdel & H).
    apply bind_Ok in H as (st1 & w2 & H1 & H). apply lift_Ok in H1 as [H1 ->].
    rewrite (del_entry_eq _ _ _ Hsd (ltac:(eauto))) in H1.
    inversion H1; subst st1; clear H1.
    apply ret_Ok in H as [H ->]. inversion H; subst r state'; clear H.
    assert (Hw : threads w1 = threads w /\ state_file w1 = state_file w).
    { destruct (negb (is_str SENTINEL (dict_get d "event_id"))).
      - apply bind_Ok in Hdel as (b & w3 & Hdel & Hr).
        apply ret_Ok in Hr as [_ ->].
        destruct (delete_calendar_event_spec (dict_get d "event_id")
                    (dict_get_or meta "name" (JStr thread_id)) w)
          as (w4 & E4 & ? & ? & ? & _).
        rewrite E4 in Hdel. inversion Hdel; subst. auto.
      - apply ret_Ok in Hdel as [_ ->]. auto. }
    destruct Hw as [Ht Hs].
    right. right. left. split; [reflexivity|]. exists meta, d. auto 10.
  - assert (Hh : exists h, get_thread_hash meta = Val h).
    { unfold sync_thread_to_calendar, bind at 1, read_meta_file in H.
      rewrite Hf in H. cbn [mjoin option_join py_getitem] in H.
      rewrite Hsd in H. cbn [lift] in H. rewrite bind_ret in H.
      cbn [py_get lift] in H. rewrite bind_ret, Hterm in H.
      apply bind_Ok in H as (h & w1 & H1 & _). apply lift_Ok in H1 as [H1 _].
      eauto. }
    destruct Hh as [h Hh].
    rewrite (sync_active_eq _ _ _ _ _ _ Hf Hterm Hsd Hh) in H.
    apply bind_Ok in H as (handled & w1 & H1 & H).
    assert (Hcreate : handled = None -> w1 = w ->
      (r = "error" /\ state' = JObj sd /\ threads w' = threads w
       /\ state_file w' = state_file w
       /\ (threads w !! thread_id = Some (Some Garbage) /\ calls w' = calls w
           \/ exists (meta : dict) args pr,
                threads w !! thread_id = Some (Some (Json (JObj meta)))
                /\ is_terminal (dict_get_or meta "status" (JStr "active")) = false
                /\ calls w' = calls w ++ [(args, pr)] /\ proc_failed pr = true))
      \/ (r = "created"
      /\ exists (meta sync : dict) h synced_at stamp args,
        let pr := subprocess_run env (length (calls w)) (JStr "create" :: args) in
        threads w !! thread_id = Some (Some (Json (JObj meta)))
        /\ is_terminal (dict_get_or meta "status" (JStr "active")) = false
        /\ get_thread_hash meta = Val h
        /\ meta_sync meta = Val sync
        /\ calls w' = calls w ++ [(JStr "create" :: args, pr)]
        /\ proc_failed pr = false
        /\ state' = JObj (<["synced_threads" :=
             JObj (<[thread_id :=
                     created_entry meta (id_of_output (diagnostic pr)) synced_at h]>
                     E)]> sd)
        /\ threads w'
           = <[thread_id := Some (Json (JObj
                 (annotate_meta meta sync (id_of_output (diagnostic pr)) stamp)))]>
               (threads w)
        /\ state_file w' = state_file w)).
    { intros -> ->.
      destruct (sync_create_result _ _ _ _ _ _ _ _ _ Hsd H)
        as (args & Hc & Hs & [(F & -> & -> & Ht)
                             | (F & -> & sa & sync & stamp & Hms & -> & Ht)]).
      - left. repeat split; auto. right. exists meta. eauto 10.
      - right. split; [reflexivity|].
        exists meta, sync, h, sa, stamp, args. cbn zeta. auto 12. }
    destruct (py_truthy (dict_get E thread_id)) eqn:Hsi.
    2:{ apply ret_Ok in H1 as [<- ->].
        destruct Hcreate as [Hx|Hx]; auto; rewrite Hf in Hx; auto 10. }
    destruct (sync_existing_result _ _ _ _ _ _ _ _ _ Hsd H1)
      as (d & Hd & [(Hm & -> & ->) | [(Hm & Ha & -> & ->)
                   | (Hm & Ha & args & Hc & Ht & Hs & Hcase)]]).
    + apply ret_Ok in H as [H ->]. inversion H; subst. auto.
    + destruct Hcreate as [Hx|Hx]; auto; rewrite Hf in Hx; auto 10.
    + assert (HE : E !! thread_id = Some (JObj d)).
      { rewrite <- Hd. apply truthy_dict_get_Some. exact Hsi. }
      apply andb_true_iff in Ha as [Ha1 Ha2]. apply negb_true_iff in Ha2.
      destruct Hcase as [(F & ->) | (F & stamp & ->)];
        apply ret_Ok in H as [H ->]; inversion H; subst r state'; clear H.
      * right. left. repeat split; auto. right. exists meta. eauto 10.
      * right. right. right. left. split; [reflexivity|].
        exists meta, d, h, stamp, args. cbn zeta. auto 15.
Qed.

(** X14: The answer of a sync step on a state with entries is one of the
    five of the docstring; the step never writes the state file; after
    "skipped" the state and the whole world, clock and output included,
    are as before; after "error" the state and the records are as
    before; and only "created" writes a record. *)
Theorem sync_step_answers (thread_id : string) (sd E : dict) (w w' : World)
    (r : string) (state' : json) :
  sd !! "synced_threads" = Some (JObj E) ->
  sync_thread_to_calendar env thread_id (JObj sd) w = Ok (r, state') w' ->
  r ∈ ["created"; "updated"; "deleted"; "skipped"; "error"]
  /\ state_file w' = state_file w
  /\ (r = "skipped" -> state' = JObj sd /\ w' = w)
  /\ (r = "error" -> state' = JObj sd /\ threads w' = threads w)
  /\ (r <> "created" -> threads w' = threads w).
Proof.
  intros Hsd H.
  destruct (sync_step_cases _ _ _ _ _ _ _ Hsd H)
    as [(-> & -> & ->) | [(-> & -> & Ht & Hs & _)
       | [(-> & meta & d & _ & _ & _ & _ & -> & Ht & Hs)
       | [(-> & meta & d & h & stamp & args & _ & _ & _ & _ & _ & _ & _ & _ & _
           & -> & Ht & Hs)
       | (-> & meta & sync & h & sa & stamp & args & _ & _ & _ & _ & _ & _ & ->
          & Ht & Hs)]]]].
  all: split; [in_list|]; split; [auto|]; split; [|split];
    try (intros; discriminate); auto; try (intros Hn; now contradiction Hn).
Qed.

(** X15: A task of terminal status is never created or updated: the step
    answers "skipped" or "deleted", and it writes no record. *)
Theorem terminal_task_never_synced (thread_id : string) (meta sd E : dict)
    (w w' : World) (r : string) (state' : json) :
  threads w !! thread_id = Some (Some (Json (JObj meta))) ->
  is_terminal (dict_get_or meta "status" (JStr "active")) = true ->
  sd !! "synced_threads" = Some (JObj E) ->
  sync_thread_to_calendar env thread_id (JObj sd) w = Ok (r, state') w' ->
  (r = "skipped" \/ r = "deleted") /\ threads w' = threads w.
Proof.
  intros Hf Hterm Hsd H.
  destruct (sync_step_cases _ _ _ _ _ _ _ Hsd H)
    as [(-> & -> & ->) | [(-> & -> & Ht & Hs & Hwhy)
       | [(-> & meta' & d & _ & _ & _ & _ & -> & Ht & Hs)
       | [(-> & meta' & d & h & stamp & args & Hf' & Hterm' & _)
       | (-> & meta' & sync & h & sa & stamp & args & Hf' & Hterm' & _)]]]].
  - auto.
  - exfalso. destruct Hwhy as [[Hg _] | (meta' & args & pr & Hf' & Hterm' & _)].
    + rewrite Hf in Hg. discriminate.
    + rewrite Hf in Hf'. inversion Hf'; subst. congruence.
  - auto.
  - exfalso. rewrite Hf in Hf'. inversion Hf'; subst. congruence.
  - exfalso. rewrite Hf in Hf'. inversion Hf'; subst. congruence.
Qed.

(** X16: After "created", the entry of the thread holds a truthy event id,
    the fingerprint of the record and its rank; the record is written
    back with the event id and the time of the sync under "sync", and
    every other field of the record and of its "sync" object is as it
    was. *)
Theorem created_record_annotated (thread_id : string) (sd E : dict) (w w' : World)
    (state' : json) :
  sd !! "synced_threads" = Some (JObj E) ->
  sync_thread_to_calendar env thread_id (JObj sd) w = Ok ("created", state') w' ->
  exists (meta meta' sync sync' entry : dict) event_id h,
    threads w !! thread_id = Some (Some (Json (JObj meta)))
    /\ threads w' = <[thread_id := Some (Json (JObj meta'))]> (threads w)
    /\ state' = JObj (<["synced_threads" := JObj (<[thread_id := JObj entry]> E)]> sd)
    /\ py_truthy event_id = true
    /\ entry !! "event_id" = Some event_id
    /\ get_thread_hash meta = Val h /\ entry !! "hash" = Some (JStr h)
    /\ entry !! "priority"
       = Some (JStr (normalize_priority (dict_get meta "priority")))
    /\ dict_get_or meta "sync" (JObj ∅) = JObj sync
    /\ meta' !! "sync" = Some (JObj sync')
    /\ sync' !! "calendar_event_id" = Some event_id
    /\ (exists stamp, sync' !! "calendar_synced_at" = Some (JStr stamp))
    /\ (forall k, k <> "calendar_event_id" -> k <> "calendar_synced_at" ->
                  sync' !! k = sync !! k)
    /\ (forall k, k <> "sync" -> meta' !! k = meta !! k).
Proof.
  intros Hsd H.
  destruct (sync_step_cases _ _ _ _ _ _ _ Hsd H)
    as [(Hr & _) | [(Hr & _) | [(Hr & _) | [(Hr & _)
       | (_ & meta & sync & h & sa & stamp & args & Hf & _ & Hh & Hms & _ & _ & ->
          & Ht & _)]]]]; try discriminate Hr.
  eexists meta, _, sync, _, _, _, h.
  split; [exact Hf|]. split; [exact Ht|]. split; [reflexivity|].
  split; [apply id_of_output_truthy|].
  split; [by simplify_map_eq|]. split; [exact Hh|].
  split; [by simplify_map_eq|]. split; [by simplify_map_eq|].
  split.
  { unfold meta_sync in Hms.
    destruct (dict_get_or meta "sync" (JObj ∅)); inversion Hms; reflexivity. }
  split; [unfold annotate_meta; by simplify_map_eq|].
  split; [by simplify_map_eq|].
  split; [eexists; by simplify_map_eq|].
  split; [intros; by simplify_map_eq|].
  intros k Hk. now apply annotate_meta_other.
Qed.

(** X17: After "updated", one update command that addresses the event id of
    the entry has succeeded; the entry holds the fingerprint of the
    record and a new time of update, its other fields (the event id
    among them) are as they were, and no record is written. *)
Theorem updated_entry_refreshed (thread_id : string) (sd E : dict) (w w' : World)
    (state' : json) :
  sd !! "synced_threads" = Some (JObj E) ->
  sync_thread_to_calendar env thread_id (JObj sd) w = Ok ("updated", state') w' ->
  exists (meta d d' : dict) h args pr,
    threads w !! thread_id = Some (Some (Json (JObj meta)))
    /\ E !! thread_id = Some (JObj d)
    /\ state' = JObj (<["synced_threads" := JObj (<[thread_id := JObj d']> E)]> sd)
    /\ get_thread_hash meta = Val h
    /\ d' !! "hash" = Some (JStr h)
    /\ (exists stamp, d' !! "updated_at" = Some (JStr stamp))
    /\ (forall k, k <> "hash" -> k <> "updated_at" -> d' !! k = d !! k)
    /\ calls w' = calls w ++ [(JStr "update" :: dict_get d "event_id" :: args, pr)]
    /\ proc_failed pr = false
    /\ threads w' = threads w.
Proof.
  intros Hsd H.
  destruct (sync_step_cases _ _ _ _ _ _ _ Hsd H)
    as [(Hr & _) | [(Hr & _) | [(Hr & _)
       | [(_ & meta & d & h & stamp & args & Hf & _ & Hh & HE & _ & _ & _ & Hc & F
           & -> & Ht & _)
       | (Hr & _)]]]]; try discriminate Hr.
  eexists meta, d, _, h, args, _.
  split; [exact Hf|]. split; [exact HE|]. split; [reflexivity|].
  split; [exact Hh|]. split; [by simplify_map_eq|].
  split; [eexists; by simplify_map_eq|].
  split; [intros; by simplify_map_eq|].
  split; [exact Hc|]. split; [exact F | exact Ht].
Qed.

(** X18: A failed create leaves no trace in the state: for an active task
    without entry, when the command fails the step answers "error" after
    one "create" command, and the state and the records are as before,
    so that the next run tries the creation again. *)
Theorem failed_create_leaves_no_entry (thread_id : string) (meta sd E : dict)
    (h : string) (w w' : World) (r : string) (state' : json) :
  threads w !! thread_id = Some (Some (Json (JObj meta))) ->
  is_terminal (dict_get_or meta "status" (JStr "active")) = false ->
  sd !! "synced_threads" = Some (JObj E) ->
  get_thread_hash meta = Val h ->
  E !! thread_id = None ->
  (forall args, proc_failed (subprocess_run env (length (calls w)) args) = true) ->
  sync_thread_to_calendar env thread_id (JObj sd) w = Ok (r, state') w' ->
  r = "error" /\ state' = JObj sd /\ threads w' = threads w
  /\ exists args pr, calls w' = calls w ++ [(JStr "create" :: args, pr)].
Proof.
  intros Hf Hterm Hsd Hh HE Hfail H.
  rewrite (sync_recreate_eq _ _ _ _ _ _ Hf Hterm Hsd Hh) in H.
  2:{ left. now rewrite (dict_get_None _ _ HE). }
  destruct (sync_create_result _ _ _ _ _ _ _ _ _ Hsd H)
    as (args & Hc & _ & [(_ & -> & -> & Ht) | (F & _)]).
  - repeat split; auto. eauto.
  - rewrite Hfail in F. discriminate.
Qed.

Lemma wf_created (meta : dict) ev sa h :
  py_truthy ev = true -> wf_entry (created_entry meta ev sa h).
Proof.
  intros Hev. unfold wf_entry, created_entry.
  eexists _, ev, h, (normalize_priority (dict_get meta "priority")).
  split; [reflexivity|]. split; [by simplify_map_eq|]. split; [exact Hev|].
  split; [by simplify_map_eq|]. split; [by simplify_map_eq|].
  destruct (normalize_priority_cases (dict_get meta "priority"))
    as [-> | [-> | [-> | ->]]]; in_list.
Qed.

Lemma wf_updated (d : dict) h stamp :
  wf_entry (JObj d) -> wf_entry (updated_entry d h stamp).
Proof.
  intros (d' & ev & h0 & p & Hd & Hev & Ht & Hh & Hp & Hin).
  inversion Hd; subst d'; clear Hd.
  unfold wf_entry, updated_entry. eexists _, ev, h, p.
  split; [reflexivity|]. split; [by simplify_map_eq|]. split; [exact Ht|].
  split; [by simplify_map_eq|]. split; [by simplify_map_eq | exact Hin].
Qed.

Lemma wf_step thread_id (sd E : dict) w r state' w' :
  sd !! "synced_threads" = Some (JObj E) ->
  (forall t v, E !! t = Some v -> wf_entry v) ->
  sync_thread_to_calendar env thread_id (JObj sd) w = Ok (r, state') w' ->
  exists (sd' E' : dict),
    state' = JObj sd' /\ sd' !! "synced_threads" = Some (JObj E')
    /\ (forall t v, E' !! t = Some v -> wf_entry v).
Proof.
  intros Hsd Hwf H.
  destruct (sync_step_cases _ _ _ _ _ _ _ Hsd H)
    as [(-> & -> & ->) | [(-> & -> & _)
       | [(-> & meta & d & _ & _ & _ & _ & -> & _)
       | [(-> & meta & d & h & stamp & args & _ & _ & _ & HE & _ & _ & _ & _ & _
           & -> & _)
       | (-> & meta & sync & h & sa & stamp & args & _ & _ & _ & _ & _ & _ & ->
          & _)]]]].
  - exists sd, E. auto.
  - exists sd, E. auto.
  - eexists _, _. split; [reflexivity|]. split; [by simplify_map_eq|].
    intros t v Hv. apply lookup_delete_Some in Hv as [_ Hv]. eauto.
  - eexists _, _. split; [reflexivity|]. split; [by simplify_map_eq|].
    intros t v Hv. apply lookup_insert_Some in Hv as [[_ <-] | [_ Hv]]; [|eauto].
    apply wf_updated. eauto.
  - eexists _, _. split; [reflexivity|]. split; [by simplify_map_eq|].
    intros t v Hv. apply lookup_insert_Some in Hv as [[_ <-] | [_ Hv]]; [|eauto].
    apply wf_created, id_of_output_truthy.
Qed.

Lemma wf_sync_all l : forall (sd E : dict) stats w stats' state' w',
  sd !! "synced_threads" = Some (JObj E) ->
  (forall t v, E !! t = Some v -> wf_entry v) ->
  sync_all env l (JObj sd) stats w = Ok (stats', state') w' ->
  exists (sd' E' : dict),
    state' = JObj sd' /\ sd' !! "synced_threads" = Some (JObj E')
    /\ (forall t v, E' !! t = Some v -> wf_entry v).
Proof.
  induction l as [|tid rest IH]; intros sd E stats w stats' state' w' Hsd Hwf H.
  - apply ret_Ok in H as [H _]. inversion H; subst. eauto.
  - cbn [sync_all] in H. apply bind_Ok in H as ([r st1] & w1 & Hstep & H).
    cbn [fst snd] in H.
    destruct (wf_step _ _ _ _ _ _ _ Hsd Hwf Hstep) as (sd1 & E1 & -> & Hsd1 & Hwf1).
    eapply IH; eauto.
Qed.

(** X20: The entries that the reconciler writes are well formed, and a pass
    keeps them so: when every entry of the state is an object with a
    truthy event id, a fingerprint and one of the four ranks as
    priority, every entry of the state after the pass is. *)
Theorem entries_stay_well_formed (state state' : json) (E : dict) (w w' : World)
    (stats : run_stats) :
  entries_of state = Some E ->
  (forall t v, E !! t = Some v -> wf_entry v) ->
  reconcile env state w = Ok (stats, state') w' ->
  exists E' : dict,
    entries_of state' = Some E'
    /\ (forall t v, E' !! t = Some v -> wf_entry v).
Proof.
  intros HE Hwf H. unfold reconcile in H.
  apply bind_Ok in H as ([n st1] & w1 & Hclean & H). cbn [fst snd] in H.
  destruct (cleanup_spec _ _ _ _ _ Hclean)
    as (sd & E0 & sd1 & E1 & cs1 & -> & Hsd & -> & Hsd1 & _ & _ & _ & _ & HE1 & _).
  cbn [entries_of] in HE. rewrite Hsd in HE. inversion HE; subst E0; clear HE.
  apply bind_Ok in H as (ids & w2 & Hl & H).
  apply bind_Ok in H as (u & w3 & _ & H).
  assert (Hwf1 : forall t v, E1 !! t = Some v -> wf_entry v).
  { intros t v Hv. rewrite HE1 in Hv.
    destruct (has_meta w t); [eauto | discriminate]. }
  destruct (wf_sync_all _ _ _ _ _ _ _ _ Hsd1 Hwf1 H) as (sd' & E' & -> & Hsd' & Hwf').
  exists E'. cbn [entries_of]. rewrite Hsd'. auto.
Qed.

Lemma by_priority_wf items p :
  Forall (fun kv : string * json => wf_entry kv.2) items ->
  exists l, by_priority items p = Val l.
Proof.
  induction 1 as [|[tid v] rest Hv _ IH]; [eexists; reflexivity|].
  destruct Hv as (d & ev & h & q & Hd & _ & _ & _ & Hq & Hin).
  cbn [snd] in Hd. subst v. destruct IH as [l IH].
  cbn [by_priority]. unfold dict_get_or. rewrite Hq.
  cbn [default id res_bind].
  assert (Hs : str_in q ["P1"; "P2"; "P3"; "P4"] = true).
  { repeat (apply elem_of_cons in Hin as [-> | Hin]; [reflexivity|]).
    inversion Hin. }
  rewrite Hs. cbn [res_bind]. rewrite IH. cbn [res_bind]. eauto.
Qed.

(** X21: On statistics that hold the five counters of a run and a state
    whose entries are well formed, the summary is printed and does not
    raise, and it changes nothing but the output. *)
Theorem summary_of_well_formed_entries (stats : run_stats) (sd E : dict)
    (w : World) :
  (forall k, k ∈ ["created"; "updated"; "deleted"; "skipped"; "errors"] ->
             is_Some (stats !! k)) ->
  sd !! "synced_threads" = Some (JObj E) ->
  (forall t v, E !! t = Some v -> wf_entry v) ->
  exists w', print_sync_summary stats (JObj sd) w = Ok tt w' /\ quiet w w'.
Proof.
  intros Hkeys Hsd Hwf. apply (print_sync_summary_total _ _ _ _ Hkeys Hsd).
  intros _ p _. apply by_priority_wf.
  apply Forall_forall. intros [t v] Hin. cbn [snd].
  apply elem_of_map_to_list in Hin. eauto.
Qed.

(** ** The state file is written by [save_state] only *)

Lemma Keeps_ret {A} (a : A) : Keeps_state_file (ret a).
Proof. intros w. reflexivity. Qed.

Lemma Keeps_raise {A} e : Keeps_state_file (@raise A e).
Proof. intros w. reflexivity. Qed.

Lemma Keeps_lift {A} (r : res A) : Keeps_state_file (lift r).
Proof. destruct r; [apply Keeps_ret | apply Keeps_raise]. Qed.

Lemma Keeps_bind {A B} (c : M A) (k : A -> M B) :
  Keeps_state_file c -> (forall a, Keeps_state_file (k a)) ->
  Keeps_state_file (bind c k).
Proof.
  intros Hc Hk w. unfold bind. specialize (Hc w).
  destruct (c w) as [a w1|e w1]; [|exact Hc].
  cbn [world_of] in Hc. rewrite <- Hc. apply Hk.
Qed.

Lemma Keeps_Quiet {A} (c : M A) : Quiet c -> Keeps_state_file c.
Proof.
  intros H w. specialize (H w). destruct (c w); cbn [world_of]; apply H.
Qed.

Lemma Keeps_run_calendar_command args :
  Keeps_state_file (run_calendar_command env args).
Proof.
  intros w. unfold run_calendar_command.
  destruct (subprocess_run env (length (calls w)) args); reflexivity.
Qed.

Lemma Keeps_read_meta_file t : Keeps_state_file (read_meta_file t).
Proof. intros w. reflexivity. Qed.

Lemma Keeps_write_meta_file t meta : Keeps_state_file (write_meta_file t meta).
Proof. intros w. reflexivity. Qed.

Ltac keeps_step :=
  first
    [ apply Keeps_ret | apply Keeps_raise | apply Keeps_lift
    | apply Keeps_run_calendar_command
    | apply Keeps_read_meta_file | apply Keeps_write_meta_file
    | apply Keeps_Quiet;
      first [ apply Quiet_log | apply Quiet_utcnow_stamp
            | apply Quiet_get_deadline | apply Quiet_build_event_description ]
    | apply Keeps_bind; [| intros ?]
    | progress cbv zeta
    | match goal with
      | |- Keeps_state_file (match ?x with _ => _ end) => destruct x
      | |- Keeps_state_file (if ?b then _ else _) => destruct b
      end ].

Ltac keeps := repeat keeps_step.

Lemma Keeps_delete_calendar_event event_id name :
  Keeps_state_file (delete_calendar_event env event_id name).
Proof. unfold delete_calendar_event. keeps. Qed.

Lemma Keeps_update_calendar_event event_id thread_id meta :
  Keeps_state_file (update_calendar_event env event_id thread_id meta).
Proof. unfold update_calendar_event. keeps. Qed.

Lemma Keeps_create_calendar_event thread_id meta :
  Keeps_state_file (create_calendar_event env thread_id meta).
Proof. unfold create_calendar_event. keeps. Qed.

Lemma Keeps_sync_thread_to_calendar thread_id state :
  Keeps_state_file (sync_thread_to_calendar env thread_id state).
Proof.
  unfold sync_thread_to_calendar, sync_existing, sync_create.
  repeat first [ apply Keeps_delete_calendar_event
               | apply Keeps_update_calendar_event
               | apply Keeps_create_calendar_event
               | keeps_step ].
Qed.

Lemma Keeps_cleanup_loop l : forall state,
  Keeps_state_file (cleanup_loop env l state).
Proof.
  induction l as [|tid rest IH]; intros state; cbn [cleanup_loop].
  - apply Keeps_ret.
  - repeat first [ apply Keeps_delete_calendar_event | apply IH | keeps_step ].
Qed.

Lemma Keeps_cleanup_orphaned_events state :
  Keeps_state_file (cleanup_orphaned_events env state).
Proof.
  unfold cleanup_orphaned_events.
  apply Keeps_bind; [apply Keeps_lift | intros entries].
  apply Keeps_bind; [apply Keeps_lift | intros keys].
  apply Keeps_bind; [intros w; reflexivity | intros orphaned].
  apply Keeps_bind; [apply Keeps_cleanup_loop | intros; apply Keeps_ret].
Qed.

Lemma Keeps_sync_all l : forall state stats,
  Keeps_state_file (sync_all env l state stats).
Proof.
  induction l as [|tid rest IH]; intros state stats; cbn [sync_all].
  - apply Keeps_ret.
  - apply Keeps_bind; [apply Keeps_sync_thread_to_calendar | intros r; apply IH].
Qed.

(** X22: Neither a sync step nor the orphan cleanup nor the whole pass over
    the records writes the state file, whether they return or raise:
    when a pass raises, the state file is the one that the run loaded,
    so what the pass had created, updated or deleted until then is not
    recorded. *)
Theorem pass_keeps_state_file (state : json) :
  (forall thread_id,
      Keeps_state_file (sync_thread_to_calendar env thread_id state))
  /\ Keeps_state_file (cleanup_orphaned_events env state)
  /\ Keeps_state_file (reconcile env state).
Proof.
  split; [intros; apply Keeps_sync_thread_to_calendar|].
  split; [apply Keeps_cleanup_orphaned_events|].
  unfold reconcile.
  apply Keeps_bind; [apply Keeps_cleanup_orphaned_events | intros c].
  apply Keeps_bind; [intros w; reflexivity | intros ids].
  apply Keeps_bind; [apply Keeps_Quiet, Quiet_log | intros u].
  apply Keeps_sync_all.
Qed.

(** X23: The orphan cleanup keeps exactly the entries of the threads that
    have a record and removes the others, whatever becomes of the delete
    commands; it returns the number of entries removed, writes no
    record, and a second cleanup of its result finds nothing to do. *)
Theorem orphan_cleanup_exact (state state' : json) (E : dict) (w w' : World)
    (n : nat) :
  entries_of state = Some E ->
  cleanup_orphaned_events env state w = Ok (n, state') w' ->
  exists E' : dict,
    entries_of state' = Some E'
    /\ (forall t, E' !! t = if has_meta w t then E !! t else None)
    /\ n = size (dom E ∖ dom E')
    /\ threads w' = threads w
    /\ cleanup_orphaned_events env state' w' = Ok (0%nat, state') w'.
Proof.
  intros HE H.
  destruct (cleanup_spec _ _ _ _ _ H)
    as (sd & E0 & sd' & E' & cs & -> & Hsd & -> & Hsd' & _ & _ & Ht & _ & HE' & Hn).
  cbn [entries_of] in HE. rewrite Hsd in HE. inversion HE; subst E0; clear HE.
  exists E'. cbn [entries_of]. rewrite Hsd'.
  split; [reflexivity|]. split; [exact HE'|]. split; [exact Hn|].
  split; [exact Ht|].
  apply (cleanup_no_orphans _ _ _ Hsd').
  intros t [v Hv]. rewrite HE' in Hv. unfold has_meta in *. rewrite Ht.
  destruct (threads w !! t) as [[f|]|]; [reflexivity | discriminate..].
Qed.

(** X24: A state file that cannot be loaded ends the run before
    anything is done, with [JSONDecodeError] when its text does not
    parse and with [UnicodeDecodeError] when its bytes cannot be decoded
    as text: no command is run, and the records and the state file are
    as before. *)
Theorem unreadable_state_aborts (w : World) :
  (state_file w = Some Garbage ->
   exists w', main env w = Raise JSONDecodeError w' /\ quiet w w')
  /\ (state_file w = Some Undecodable ->
      exists w', main env w = Raise UnicodeDecodeError w' /\ quiet w w').
Proof.
  split; intros Hs; unfold main, run;
    eexists; unfold bind at 1; unfold bind at 1; rewrite log_eq;
    unfold bind at 1; rewrite log_eq;
    unfold bind at 1; unfold load_state;
    cbn [state_file add_line tick]; rewrite Hs;
    (split; [reflexivity | repeat split]).
Qed.

(** X25: A state file that parses but holds no entries aborts the run in
    the orphan cleanup, before anything is done: with [KeyError] when
    it is an object without "synced_threads", with [TypeError] when it
    is not an object. *)
Theorem state_without_entries_aborts (w : World) (state : json) :
  state_file w = Some (Json state) ->
  match state with
  | JObj sd => sd !! "synced_threads" = None
  | _ => True
  end ->
  exists w',
    main env w = Raise (match state with
                        | JObj _ => KeyError
                        | _ => TypeError
                        end) w'
    /\ quiet w w'.
Proof.
  intros Hs Hno. unfold main, run.
  eexists. unfold bind at 1. unfold bind at 1. rewrite log_eq.
  unfold bind at 1. rewrite log_eq.
  unfold bind at 1. unfold load_state.
  cbn [state_file add_line tick]. rewrite Hs.
  unfold bind at 1. unfold reconcile. unfold bind at 1.
  unfold cleanup_orphaned_events. unfold bind at 1.
  destruct state as [| | | | |sd]; cbn [py_getitem lift raise];
    try (split; [reflexivity | repeat split]).
  rewrite Hno. cbn [lift raise]. split; [reflexivity | repeat split].
Qed.

Lemma add_stats_add keys stats : forall (sd ss : dict) (z : string -> Z),
  NoDup keys ->
  sd !! "sync_stats" = Some (JObj ss) ->
  (forall k, k ∈ keys -> dict_get_or ss k (JInt 0) = JInt (z k)) ->
  exists ss' : dict,
    add_stats keys stats (JObj sd) = Val (JObj (<["sync_stats" := JObj ss']> sd))
    /\ (forall k, k ∈ keys -> ss' !! k = Some (JInt (z k + stat stats k)))
    /\ (forall k, k ∉ keys -> ss' !! k = ss !! k).
Proof.
  induction keys as [|key rest IH]; intros sd ss z Hnd Hss Hz.
  - exists ss. cbn [add_stats]. rewrite insert_id by exact Hss.
    split; [reflexivity|]. split; [|auto]. intros k Hin. inversion Hin.
  - apply NoDup_cons in Hnd as [Hnotin Hnd].
    cbn [add_stats py_getitem]. rewrite Hss. cbn [res_bind].
    rewrite (Hz key (list_elem_of_here _ _)).
    cbn [py_add_int res_bind py_setitem].
    destruct (IH (<["sync_stats" := JObj (<[key := JInt (z key + stat stats key)]> ss)]> sd)
                 (<[key := JInt (z key + stat stats key)]> ss) z Hnd)
      as (ss' & Heq & Hin' & Hout'); [by simplify_map_eq| |].
    { intros k Hin. unfold dict_get_or.
      rewrite lookup_insert_ne by (intros ->; contradiction).
      apply (Hz k), list_elem_of_further, Hin. }
    exists ss'. rewrite Heq, insert_insert_eq. split; [reflexivity|]. split.
    + intros k Hin. apply elem_of_cons in Hin as [-> | Hin]; [|auto].
      rewrite (Hout' key Hnotin). by simplify_map_eq.
    + intros k Hout. apply not_elem_of_cons in Hout as [Hne Hout].
      rewrite (Hout' k Hout). by simplify_map_eq.
Qed.

(** X26: The cumulative statistics add up: each of the counters "created",
    "updated", "deleted" and "errors" of the state grows by the
    statistic of the run of the same name, a counter that the state
    lacks counting as 0; the other fields of the statistics and of the
    state are as before. *)
Theorem cumulative_counters_add (stats : run_stats) (sd ss : dict)
    (z : string -> Z) :
  sd !! "sync_stats" = Some (JObj ss) ->
  (forall k, k ∈ STAT_KEYS -> dict_get_or ss k (JInt 0) = JInt (z k)) ->
  exists ss' : dict,
    update_cumulative stats (JObj sd)
    = Val (JObj (<["sync_stats" := JObj ss']> sd))
    /\ (forall k, k ∈ STAT_KEYS -> ss' !! k = Some (JInt (z k + stat stats k)))
    /\ (forall k, k ∉ STAT_KEYS -> ss' !! k = ss !! k).
Proof.
  intros Hss Hz. unfold update_cumulative. rewrite Hss.
  apply add_stats_add; [|exact Hss | exact Hz].
  repeat (apply NoDup_cons; split;
          [intros Hin; repeat (apply elem_of_cons in Hin as [Hin | Hin];
                               [discriminate Hin|]); inversion Hin|]).
  apply NoDup_nil_2.
Qed.

(** X19: A record whose "sync" field is not an object makes the step on an
    active task without entry raise [AttributeError] while it builds
    the title of the event: no command is run, and nothing but the
    clock and the output has changed. *)
Theorem sync_field_not_an_object_raises (thread_id : string) (meta sd E : dict)
    (v : json) (h : string) (w : World) :
  threads w !! thread_id = Some (Some (Json (JObj meta))) ->
  is_terminal (dict_get_or meta "status" (JStr "active")) = false ->
  sd !! "synced_threads" = Some (JObj E) ->
  E !! thread_id = None ->
  get_thread_hash meta = Val h ->
  meta !! "sync" = Some v ->
  (forall d : dict, v <> JObj d) ->
  exists w',
    sync_thread_to_calendar env thread_id (JObj sd) w = Raise AttributeError w'
    /\ quiet w w'.
Proof.
  intros Hf Hterm Hsd HE Hh Hv Hno.
  rewrite (sync_recreate_eq _ _ _ _ _ _ Hf Hterm Hsd Hh).
  2:{ left. now rewrite (dict_get_None _ _ HE). }
  unfold sync_create. unfold bind at 1. rewrite log_eq.
  unfold bind at 1. unfold create_calendar_event. unfold bind at 1.
  unfold build_event_title, dict_get_or. rewrite Hv. cbn [default id].
  assert (Hg : py_get v "github_issue_number" = Exn AttributeError).
  { destruct v as [| | | | |d]; try reflexivity. now contradiction (Hno d). }
  rewrite Hg. cbn [res_bind lift raise].
  eexists. split; [reflexivity | repeat split].
Qed.

(** ** Week labels and relative phrases *)

Lemma week_labels_eq (label : json) (rest : list json) (w : World) :
  (lower (py_str label) = "this-week" ->
   labels_loop env (label :: rest) w
   = bind (lift (add_days (now_at env (clock_reads w))
                   (7 - weekday (now_at env (S (clock_reads w))))))
          (fun d => ret (Some d)) (tick (tick w)))
  /\ (lower (py_str label) = "next-week" ->
      labels_loop env (label :: rest) w
      = bind (lift (add_days (now_at env (clock_reads w))
                      (14 - weekday (now_at env (S (clock_reads w))))))
             (fun d => ret (Some d)) (tick (tick w))).
Proof. split; intros Hl; cbn [labels_loop]; rewrite Hl; reflexivity. Qed.

Lemma weekday_add_days n k d :
  add_days n k = Val d -> weekday d = (weekday n + k) mod 7.
Proof.
  unfold add_days. intros H.
  destruct (Z.abs k <=? MAX_DELTA_DAYS); [|discriminate].
  destruct ((0 <=? n + k * US_PER_DAY) && (n + k * US_PER_DAY <? MAX_ORDINAL * US_PER_DAY));
    inversion H; subst d; clear H.
  unfold weekday, toordinal.
  rewrite Z.div_add by (unfold US_PER_DAY; lia).
  rewrite Zplus_mod_idemp_l. f_equal. lia.
Qed.

(** X10: When the two readings of the clock fall on the same day of the
    week, the label "this-week" resolves to a Monday after the time of
    the resolution, at most seven days later, and "next-week" to the
    Monday a week after that one. *)
Theorem week_label_is_a_monday (label : json) (rest : list json) (w w' : World)
    (d : datetime) :
  lower (py_str label) = "this-week" \/ lower (py_str label) = "next-week" ->
  weekday (now_at env (S (clock_reads w))) = weekday (now_at env (clock_reads w)) ->
  labels_loop env (label :: rest) w = Ok (Some d) w' ->
  weekday d = 0 /\ now_at env (clock_reads w) < d.
Proof.
  intros Hl Hsame H.
  pose proof (weekday_range (now_at env (clock_reads w))) as Hr.
  assert (Hk : exists k, 1 <= k /\ (weekday (now_at env (clock_reads w)) + k) mod 7 = 0
                         /\ add_days (now_at env (clock_reads w)) k = Val d).
  { destruct (week_labels_eq label rest w) as [H1 H2].
    destruct Hl as [Hl | Hl]; [apply H1 in Hl | apply H2 in Hl];
      rewrite Hl in H; clear Hl H1 H2; rewrite Hsame in H; unfold bind in H.
    - exists (7 - weekday (now_at env (clock_reads w))).
      destruct (add_days (now_at env (clock_reads w))
                  (7 - weekday (now_at env (clock_reads w)))) as [d'|e];
        cbn [lift ret raise] in H; inversion H; subst.
      split; [lia|]. split; [|reflexivity].
      replace (_ + _) with (1 * 7) by lia. apply Z.mod_mul. lia.
    - exists (14 - weekday (now_at env (clock_reads w))).
      destruct (add_days (now_at env (clock_reads w))
                  (14 - weekday (now_at env (clock_reads w)))) as [d'|e];
        cbn [lift ret raise] in H; inversion H; subst.
      split; [lia|]. split; [|reflexivity].
      replace (_ + _) with (2 * 7) by lia. apply Z.mod_mul. lia. }
  destruct Hk as (k & Hk1 & Hmod & Ha).
  split; [rewrite (weekday_add_days _ _ _ Ha); exact Hmod|].
  unfold add_days in Ha.
  destruct (Z.abs k <=? MAX_DELTA_DAYS); [|discriminate].
  destruct ((0 <=? _) && _); inversion Ha. unfold US_PER_DAY. lia.
Qed.

(** X11: A text without ISO date and without month and day in which the
    relative pattern finds a number and a unit gives the time of the
    resolution plus that many days for "day", seven times as many for
    "week" and thirty times as many for "month"; a date beyond the
    range of dates raises [OverflowError], which nothing catches. *)
Theorem relative_phrase_deadline (s g1 unit : string) (n : Z) (w : World) :
  s <> EmptyString ->
  search_iso_date (lower s) = None ->
  search_month_day (lower s) = None ->
  search_relative (lower s) = Some (g1, unit) ->
  py_int g1 = Some n ->
  (unit = "day" -> extract_deadline_from_text env (JStr s) w = after_days env n w)
  /\ (unit = "week" ->
      extract_deadline_from_text env (JStr s) w = after_days env (7 * n) w)
  /\ (unit = "month" ->
      extract_deadline_from_text env (JStr s) w = after_days env (n * 30) w)
  /\ (forall k, MAX_DELTA_DAYS < k -> after_days env k w = Raise OverflowError (tick w)).
Proof.
  intros Hs Hiso Hmd Hrel Hn.
  assert (Heq : extract_deadline_from_text env (JStr s) w
                = text_relative env (lower s) w).
  { unfold extract_deadline_from_text.
    destruct s as [|c s']; [contradiction|]. cbn [py_truthy negb].
    unfold text_iso_date. rewrite Hiso.
    unfold text_month_day. rewrite Hmd. reflexivity. }
  rewrite Heq. unfold text_relative. rewrite Hrel, Hn.
  repeat split.
  - intros ->. cbn [String.eqb Ascii.eqb Bool.eqb]. unfold after_days, bind, now.
    destruct (add_days _ _); reflexivity.
  - intros ->. cbn [String.eqb Ascii.eqb Bool.eqb]. unfold after_days, bind, now.
    destruct (add_days _ _); reflexivity.
  - intros ->. cbn [String.eqb Ascii.eqb Bool.eqb]. unfold after_days, bind, now.
    destruct (add_days _ _); reflexivity.
  - intros k Hk. unfold after_days, add_days.
    assert (Hb : (Z.abs k <=? MAX_DELTA_DAYS) = false).
    { apply Z.leb_gt. unfold MAX_DELTA_DAYS in *. lia. }
    rewrite Hb. reflexivity.
Qed.

End Proofs.

(** * The properties on the fixtures *)

#[local] Existing Instance fixture_lib.

Lemma gateway_failure_witness :
  (exists w', delete_calendar_event ENV_DOWN (JStr "ev1") (JStr "t1") WORLD_STALE
              = Ok false w')
  /\ match update_calendar_event ENV_DOWN (JStr "ev1") "t1" SHIP_V2 WORLD_STALE with
     | Ok b _ => b = false
     | Raise _ _ => False
     end
  /\ match create_calendar_event ENV_DOWN "t1" SHIP_V2 WORLD_NEW with
     | Ok created _ => created = None
     | Raise _ _ => False
     end.
Proof.
  split; [|split].
  - destruct (gateway_failure_is_a_result ENV_DOWN WORLD_STALE) as (_ & Hd & _).
    destruct (Hd (JStr "ev1") (JStr "t1") eq_refl) as (w' & E & _).
    exists w'. exact E.
  - destruct (gateway_failure_is_a_result ENV_DOWN WORLD_STALE) as (_ & _ & Hu & _).
    specialize (Hu (JStr "ev1") "t1" SHIP_V2 (fun _ => eq_refl)).
    assert (Hok : is_ok (update_calendar_event ENV_DOWN (JStr "ev1") "t1" SHIP_V2
                           WORLD_STALE) = true) by (vm_compute; reflexivity).
    destruct (update_calendar_event ENV_DOWN (JStr "ev1") "t1" SHIP_V2 WORLD_STALE)
      as [b w'|e w']; [exact (proj1 Hu) | discriminate Hok].
  - destruct (gateway_failure_is_a_result ENV_DOWN WORLD_NEW) as (_ & _ & _ & Hc & _).
    specialize (Hc "t1" SHIP_V2 (fun _ => eq_refl)).
    assert (Hok : is_ok (create_calendar_event ENV_DOWN "t1" SHIP_V2 WORLD_NEW)
                  = true) by (vm_compute; reflexivity).
    destruct (create_calendar_event ENV_DOWN "t1" SHIP_V2 WORLD_NEW)
      as [c w'|e w']; [exact (proj1 Hc) | discriminate Hok].
Defined.

Lemma fingerprint_witness :
  get_thread_hash SHIP_V2
  = get_thread_hash
      (<["due_date" := JStr "2026-04-01"]>
         (<["sync" := JObj {[ "calendar_event_id" := JStr "evt_123" ]}]> SHIP_V2))
  /\ get_thread_hash (<["deadline" := JStr "2026-05-20"]> SHIP_V2)
     <> get_thread_hash (<["deadline" := JStr "2026-05-21"]> SHIP_V2).
Proof.
  split.
  - apply (proj1 (fingerprint_of_key_fields SHIP_V2 _)); vm_compute; reflexivity.
  - destruct (fingerprint_of_key_fields
                (<["deadline" := JStr "2026-05-20"]> SHIP_V2)
                (<["deadline" := JStr "2026-05-21"]> SHIP_V2)) as (_ & _ & H).
    destruct (H [JStr "due-2026-03-01"] [JStr "due-2026-03-01"])
      as (_ & _ & Hs); [vm_compute; reflexivity | vm_compute; reflexivity |].
    apply Hs.
    + intros E. vm_compute in E. discriminate E.
    + left. vm_compute. discriminate.
Defined.

Lemma fallback_deadline_witness :
  get_deadline ENV_DOWN CLOSED_TASK DEFAULT_DEADLINE_DAYS WORLD_NEW
  = Ok (FIXTURE_NOW + 30 * US_PER_DAY) (tick WORLD_NEW).
Proof.
  rewrite (fallback_deadline_by_rank ENV_DOWN CLOSED_TASK DEFAULT_DEADLINE_DAYS
             WORLD_NEW WORLD_NEW); vm_compute; reflexivity.
Defined.

(** C2 as the specification words it fails: for a task of rank 4 the
    fallback is 30 days after the time of the resolution, not the
    default of 7 days. *)
Lemma fallback_rank4_counterexample :
  deadline_from_sources ENV_DOWN CLOSED_TASK WORLD_NEW = Ok None WORLD_NEW
  /\ normalize_priority (dict_get CLOSED_TASK "priority") = "P4"
  /\ get_deadline ENV_DOWN CLOSED_TASK DEFAULT_DEADLINE_DAYS WORLD_NEW
     = Ok (FIXTURE_NOW + 30 * US_PER_DAY) (tick WORLD_NEW)
  /\ get_deadline ENV_DOWN CLOSED_TASK DEFAULT_DEADLINE_DAYS WORLD_NEW
     <> lift (add_days (now_at ENV_DOWN (clock_reads WORLD_NEW))
                      (spec_rank_offset DEFAULT_DEADLINE_DAYS
                         (normalize_priority (dict_get CLOSED_TASK "priority"))))
             (tick WORLD_NEW).
Proof.
  repeat split; try (vm_compute; reflexivity).
  vm_compute. discriminate.
Qed.

Lemma save_state_witness :
  match save_state_interrupted ENV_OK 2 fresh_state WORLD_STALE with
  | Ok state' w' => load_state w' = Ok state' w'
  | Raise _ _ => False
  end.
Proof.
  pose proof (save_state_in_place ENV_OK fresh_state WORLD_STALE 2) as H.
  assert (Hok : is_ok (save_state_interrupted ENV_OK 2 fresh_state WORLD_STALE)
                = true) by (vm_compute; reflexivity).
  destruct (save_state_interrupted ENV_OK 2 fresh_state WORLD_STALE)
    as [state' w'|e w']; [|discriminate Hok].
  destruct H as (_ & _ & _ & _ & H2). destruct (H2 (le_n 2)) as (_ & _ & H3).
  exact H3.
Defined.

(** C3 as the specification words it fails: a process that dies
    between the two operations of the write leaves a state file that is
    neither the previous one nor the new one, and that a later load
    rejects. *)
Lemma save_state_crash_counterexample :
  match save_state_interrupted ENV_OK 1 fresh_state WORLD_STALE with
  | Ok state' w' =>
      state_file w' <> state_file WORLD_STALE
      /\ state_file w' <> Some (Json state')
      /\ load_state WORLD_STALE
         = Ok (state_with {[ "t1" := entry_of "ev1" "old" ]}) WORLD_STALE
      /\ load_state w' = Raise JSONDecodeError w'
  | Raise _ _ => False
  end.
Proof.
  unfold save_state_interrupted, bind, utcnow_stamp, fresh_state.
  cbn [py_setitem lift ret write_text_state_file take run_steps fold_left].
  cbn [state_file set_state_file tick WORLD_STALE fixture_world load_state].
  repeat split; discriminate.
Qed.


Lemma unreadable_record_witness :
  (exists w',
      sync_thread_to_calendar ENV_OK "t3" fresh_state WORLD_MIXED
      = Ok ("error", fresh_state) w')
  /\ sync_thread_to_calendar ENV_OK "a" fresh_state WORLD_BINARY
     = Raise UnicodeDecodeError WORLD_BINARY
  /\ sync_all ENV_OK ["a"; "b"] fresh_state initial_stats WORLD_BINARY
     = Raise UnicodeDecodeError WORLD_BINARY.
Proof.
  split.
  - destruct (proj1 (unreadable_record_is_isolated ENV_OK "t3" [] fresh_state
                       initial_stats WORLD_MIXED)) as (w' & E & _);
      [vm_compute; reflexivity|].
    exists w'. exact E.
  - apply (proj2 (unreadable_record_is_isolated ENV_OK "a" ["b"] fresh_state
                    initial_stats WORLD_BINARY)).
    vm_compute. reflexivity.
Defined.

(** C4 as the specification words it fails: a record that is a JSON
    array makes the sync step raise [AttributeError], a due date that is
    a number makes it raise [TypeError], and the run on these records
    raises before it handles the sound record: no command is run and no
    state is saved. *)
Lemma odd_record_counterexample :
  match sync_thread_to_calendar ENV_OK "a" fresh_state WORLD_ODD with
  | Raise e _ => e = AttributeError
  | Ok _ _ => False
  end
  /\ match sync_thread_to_calendar ENV_OK "c" fresh_state WORLD_ODD with
     | Raise e _ => e = TypeError
     | Ok _ _ => False
     end
  /\ match main ENV_OK WORLD_ODD with
     | Raise e w' => e = AttributeError /\ calls w' = [] /\ state_file w' = None
     | Ok _ _ => False
     end.
Proof. vm_compute. repeat split. Qed.

Lemma second_run_witness :
  exists stats1 state1 w1 stats2 state2 w2,
    run ENV_OK WORLD_MIXED = Ok (stats1, state1) w1
    /\ stat stats1 "created" = 1 /\ stat stats1 "deleted" = 3
    /\ run ENV_OK w1 = Ok (stats2, state2) w2
    /\ calls w2 = calls w1
    /\ stat stats2 "created" = 0 /\ stat stats2 "updated" = 0
    /\ stat stats2 "deleted" = 0.
Proof.
  assert (Hfacts :
    match run ENV_OK WORLD_MIXED with
    | Ok r w1 =>
        forallb call_ok (drop (length (calls WORLD_MIXED)) (calls w1))
        && (stat r.1 "created" =? 1) && (stat r.1 "deleted" =? 3)
    | Raise _ _ => false
    end = true) by (vm_compute; reflexivity).
  destruct (run ENV_OK WORLD_MIXED) as [[stats1 state1] w1|e w1] eqn:E;
    [|discriminate Hfacts].
  cbn [fst] in Hfacts.
  apply andb_true_iff in Hfacts as [Hfacts Hd].
  apply andb_true_iff in Hfacts as [Hall Hc].
  apply Z.eqb_eq in Hc, Hd.
  destruct (proj1 (second_run_is_idle ENV_OK WORLD_MIXED w1 stats1 state1) E Hall)
    as (stats2 & state2 & w2 & E2 & Hcalls & _ & _ & Z1 & Z2 & Z3).
  exists stats1, state1, w1, stats2, state2, w2. repeat split; assumption.
Defined.

Lemma deleted_count_witness :
  exists stats state' w' state0 (E E' : dict),
    run ENV_DOWN WORLD_MIXED = Ok (stats, state') w'
    /\ load_state WORLD_MIXED = Ok state0 WORLD_MIXED
    /\ entries_of state0 = Some E
    /\ entries_of state' = Some E'
    /\ stat stats "deleted" = Z.of_nat (size (dom E ∖ dom E'))
    /\ stat stats "deleted" = 3
    /\ forallb call_ok (calls w') = false.
Proof.
  assert (Hfacts :
    match run ENV_DOWN WORLD_MIXED with
    | Ok r w' => (stat r.1 "deleted" =? 3) && negb (forallb call_ok (calls w'))
    | Raise _ _ => false
    end = true) by (vm_compute; reflexivity).
  destruct (run ENV_DOWN WORLD_MIXED) as [[stats state'] w'|e w'] eqn:R;
    [|discriminate Hfacts].
  cbn [fst] in Hfacts. apply andb_true_iff in Hfacts as [Hd Hc].
  apply Z.eqb_eq in Hd. apply negb_true_iff in Hc.
  destruct (deleted_counts_removed_entries ENV_DOWN WORLD_MIXED w' stats state' R)
    as (state0 & E & E' & L & E0 & E1 & _ & D).
  exists stats, state', w', state0, E, E'. repeat split; assumption.
Defined.

(** C7 on a command that succeeds and prints an event whose id is a
    number: [create_calendar_event] raises [TypeError] after the command
    has run, where the specification has it return the id or the
    sentinel; the run ends there, and the state record of the created
    event is never written. *)
Theorem numeric_event_id_raises :
  json_loads OUTPUT_NUMERIC_ID = Some (JObj {[ "id" := JInt 12345 ]})
  /\ match create_calendar_event ENV_NUMERIC "t1" SHIP_V2 WORLD_NEW with
     | Raise e w' =>
         e = TypeError
         /\ exists args, calls w' = [(args, Completed 0 OUTPUT_NUMERIC_ID EmptyString)]
     | Ok _ _ => False
     end
  /\ match create_calendar_event ENV_OK "t1" SHIP_V2 WORLD_NEW with
     | Ok created _ => created = Some (JStr "evt_123")
     | Raise _ _ => False
     end
  /\ match main ENV_NUMERIC WORLD_NEW with
     | Raise e w' => e = TypeError /\ state_file w' = None
     | Ok _ _ => False
     end.
Proof.
  vm_compute. repeat split. eexists. reflexivity.
Qed.

(** C9 on a tracked task whose fingerprint changed, with a command that
    times out: the entry keeps its stale fingerprint and the one command
    of the run is the failed update, as the specification says; but the
    answer "error" is counted under the key "error", the "errors"
    statistic of the run is 0 and the exit code is 0. *)
Theorem failed_update_not_counted :
  match run ENV_DOWN WORLD_STALE with
  | Ok (stats, state') w' =>
      entries_of state' = Some {[ "t1" := entry_of "ev1" "old" ]}
      /\ length (calls w') = 1%nat
      /\ forallb call_ok (calls w') = false
      /\ stat stats "error" = 1
      /\ stat stats "errors" = 0
  | Raise _ _ => False
  end
  /\ match main ENV_DOWN WORLD_STALE with
     | Ok code _ => code = 0
     | Raise _ _ => False
     end.
Proof. vm_compute. repeat split. Qed.


(** ** Priorities and deadlines *)

Lemma explicit_deadline_witness :
  exists d,
    datetime_ymd 2026 5 20 = Some d
    /\ get_deadline ENV_DOWN (<["deadline" := JStr "2026-05-20"]> SHIP_V2)
         DEFAULT_DEADLINE_DAYS WORLD_NEW
       = Ok d WORLD_NEW.
Proof.
  eexists. split; [vm_compute; reflexivity|].
  apply (explicit_deadline_wins ENV_DOWN _ "2026-05-20"); vm_compute; reflexivity.
Defined.

Lemma due_date_witness :
  exists d,
    datetime_ymd 2026 4 1 = Some d
    /\ get_deadline ENV_DOWN (<["due_date" := JStr "2026-04-01"]> SHIP_V2)
         DEFAULT_DEADLINE_DAYS WORLD_NEW
       = Ok d WORLD_NEW.
Proof.
  eexists. split; [vm_compute; reflexivity|].
  apply (due_date_before_labels ENV_DOWN _ "2026-04-01"); vm_compute; reflexivity.
Defined.

Lemma due_date_number_witness :
  get_deadline ENV_DOWN (<["due_date" := JInt 20260401]> SHIP_V2)
    DEFAULT_DEADLINE_DAYS WORLD_NEW
  = Raise TypeError WORLD_NEW.
Proof.
  apply (due_date_not_a_string_raises ENV_DOWN _ (JInt 20260401));
    [vm_compute; reflexivity | vm_compute; reflexivity | discriminate].
Defined.

Lemma fallback_without_sources_witness :
  get_deadline ENV_DOWN
    {[ "name" := JStr "Urgent"; "priority" := JStr "priority-1";
       "labels" := JArr []; "description" := JStr EmptyString ]}
    DEFAULT_DEADLINE_DAYS WORLD_NEW
  = Ok (FIXTURE_NOW + 3 * US_PER_DAY) (tick WORLD_NEW).
Proof.
  rewrite fallback_without_sources;
    try (vm_compute; reflexivity);
    intros v Hv; vm_compute in Hv; inversion Hv; reflexivity.
Defined.

Lemma description_list_witness :
  get_deadline ENV_DOWN LIST_DESCRIPTION DEFAULT_DEADLINE_DAYS WORLD_NEW
  = Raise AttributeError WORLD_NEW.
Proof.
  apply (description_not_a_string_raises ENV_DOWN LIST_DESCRIPTION
           (JArr [JStr "due: 2026-03-01"]) DEFAULT_DEADLINE_DAYS
           WORLD_NEW WORLD_NEW WORLD_NEW WORLD_NEW);
    try (vm_compute; reflexivity).
  discriminate.
Defined.

Lemma week_labels_witness :
  labels_loop ENV_DOWN [JStr "This-Week"; JStr "due-2026-03-01"] WORLD_NEW
  = Ok (Some (FIXTURE_NOW + 6 * US_PER_DAY)) (tick (tick WORLD_NEW)).
Proof.
  destruct (week_labels ENV_DOWN (JStr "This-Week") [JStr "due-2026-03-01"]
              WORLD_NEW) as [H _].
  destruct (H ltac:(vm_compute; reflexivity)) as [_ E].
  rewrite E. vm_compute. reflexivity.
Defined.

Lemma labels_in_order_witness :
  labels_loop ENV_DOWN
    ([JStr "bug"; JStr "due-soon"; JInt 7] ++ [JStr "due-2026-03-01"; JStr "this-week"])
    WORLD_NEW
  = labels_loop ENV_DOWN [JStr "due-2026-03-01"; JStr "this-week"] WORLD_NEW.
Proof.
  apply labels_in_order.
  repeat (apply Forall_cons; split; [repeat split; vm_compute; reflexivity|]).
  apply Forall_nil_2.
Defined.

(** ** The gateway and the sync step *)

Lemma create_result_witness :
  match create_calendar_event ENV_OK "t1" SHIP_V2 WORLD_NEW with
  | Ok created w' =>
      created = Some (JStr "evt_123")
      /\ exists args r, calls w' = calls WORLD_NEW ++ [(JStr "create" :: args, r)]
  | Raise _ _ => False
  end.
Proof.
  assert (Hok : is_ok (create_calendar_event ENV_OK "t1" SHIP_V2 WORLD_NEW) = true)
    by (vm_compute; reflexivity).
  destruct (create_calendar_event ENV_OK "t1" SHIP_V2 WORLD_NEW)
    as [created w'|e w'] eqn:E; [|discriminate Hok].
  destruct (create_returns_id_or_sentinel ENV_OK "t1" SHIP_V2 WORLD_NEW w' created E)
    as (args & r & Hc & Hr & _ & Hs).
  subst r. destruct (Hs eq_refl) as (_ & _ & H3).
  split; [|eauto].
  rewrite (H3 0%nat {[ "id" := JStr "evt_123" ]} eq_refl eq_refl). reflexivity.
Defined.


Lemma recreate_witness :
  match sync_thread_to_calendar ENV_OK "t1"
          (state_with {[ "t1" := entry_of SENTINEL "old" ]}) WORLD_NEW with
  | Ok (r, _) w' =>
      (r = "created" \/ r = "error")
      /\ exists args pr, calls w' = calls WORLD_NEW ++ [(JStr "create" :: args, pr)]
  | Raise _ _ => False
  end.
Proof.
  assert (Hok : is_ok (sync_thread_to_calendar ENV_OK "t1"
                         (state_with {[ "t1" := entry_of SENTINEL "old" ]})
                         WORLD_NEW) = true) by (vm_compute; reflexivity).
  destruct (sync_thread_to_calendar ENV_OK "t1"
              (state_with {[ "t1" := entry_of SENTINEL "old" ]}) WORLD_NEW)
    as [[r st] w'|e w'] eqn:E; [|discriminate Hok].
  set (h := match get_thread_hash SHIP_V2 with Val h => h | Exn _ => EmptyString end).
  destruct (unaddressable_entry_is_recreated ENV_OK "t1" SHIP_V2
              (entries_state {[ "t1" := entry_of SENTINEL "old" ]})
              {[ "t1" := entry_of SENTINEL "old" ]} h WORLD_NEW) as [_ H];
    try (vm_compute; reflexivity).
  - right. exists {[ "event_id" := JStr SENTINEL; "hash" := JStr "old";
                     "priority" := JStr "P2" ]}.
    repeat split; try (vm_compute; reflexivity). right. vm_compute. reflexivity.
  - exact (H r st w' E).
Defined.

Lemma sync_step_answers_witness :
  match sync_thread_to_calendar ENV_DOWN "t1"
          (state_with {[ "t1" := entry_of "ev1" "old" ]}) WORLD_STALE with
  | Ok (r, state') w' =>
      r = "error"
      /\ state' = state_with {[ "t1" := entry_of "ev1" "old" ]}
      /\ threads w' = threads WORLD_STALE
      /\ state_file w' = state_file WORLD_STALE
  | Raise _ _ => False
  end.
Proof.
  assert (Hok : match sync_thread_to_calendar ENV_DOWN "t1"
                        (state_with {[ "t1" := entry_of "ev1" "old" ]})
                        WORLD_STALE with
                | Ok r _ => String.eqb r.1 "error"
                | Raise _ _ => false
                end = true) by (vm_compute; reflexivity).
  destruct (sync_thread_to_calendar ENV_DOWN "t1"
              (state_with {[ "t1" := entry_of "ev1" "old" ]}) WORLD_STALE)
    as [[r st] w'|e w'] eqn:E; [|discriminate Hok].
  apply String.eqb_eq in Hok. cbn [fst] in Hok. subst r.
  destruct (sync_step_answers ENV_DOWN "t1"
              (entries_state {[ "t1" := entry_of "ev1" "old" ]})
              {[ "t1" := entry_of "ev1" "old" ]} WORLD_STALE w' "error" st
              ltac:(vm_compute; reflexivity) E)
    as (_ & Hs & _ & Herr & _).
  destruct (Herr eq_refl) as [-> Ht].
  repeat split; assumption.
Defined.

Lemma terminal_task_never_synced_witness :
  match sync_thread_to_calendar ENV_DOWN "t2"
          (state_with {[ "t2" := entry_of "ev2" "h2" ]}) WORLD_MIXED with
  | Ok (r, _) w' =>
      (r = "skipped" \/ r = "deleted") /\ threads w' = threads WORLD_MIXED
  | Raise _ _ => False
  end.
Proof.
  assert (Hok : is_ok (sync_thread_to_calendar ENV_DOWN "t2"
                         (state_with {[ "t2" := entry_of "ev2" "h2" ]})
                         WORLD_MIXED) = true) by (vm_compute; reflexivity).
  destruct (sync_thread_to_calendar ENV_DOWN "t2"
              (state_with {[ "t2" := entry_of "ev2" "h2" ]}) WORLD_MIXED)
    as [[r st] w'|e w'] eqn:E; [|discriminate Hok].
  apply (terminal_task_never_synced ENV_DOWN "t2" CLOSED_TASK
           (entries_state {[ "t2" := entry_of "ev2" "h2" ]})
           {[ "t2" := entry_of "ev2" "h2" ]} WORLD_MIXED w' r st);
    try (vm_compute; reflexivity).
  exact E.
Defined.

Lemma created_record_witness :
  match sync_thread_to_calendar ENV_OK "t1" fresh_state WORLD_NEW with
  | Ok (r, state') w' =>
      r = "created"
      /\ exists (meta' sync' entry : dict) event_id,
        threads w' = <["t1" := Some (Json (JObj meta'))]> (threads WORLD_NEW)
        /\ state' = JObj (<["synced_threads" := JObj (<["t1" := JObj entry]> ∅)]>
                            (entries_state ∅))
        /\ py_truthy event_id = true
        /\ entry !! "event_id" = Some event_id
        /\ meta' !! "sync" = Some (JObj sync')
        /\ sync' !! "calendar_event_id" = Some event_id
        /\ meta' !! "name" = SHIP_V2 !! "name"
  | Raise _ _ => False
  end.
Proof.
  assert (Hok : match sync_thread_to_calendar ENV_OK "t1" fresh_state WORLD_NEW with
                | Ok r _ => String.eqb r.1 "created"
                | Raise _ _ => false
                end = true) by (vm_compute; reflexivity).
  destruct (sync_thread_to_calendar ENV_OK "t1" fresh_state WORLD_NEW)
    as [[r st] w'|e w'] eqn:E; [|discriminate Hok].
  apply String.eqb_eq in Hok. cbn [fst] in Hok. subst r.
  split; [reflexivity|].
  destruct (created_record_annotated ENV_OK "t1" (entries_state ∅) ∅ WORLD_NEW w' st
              ltac:(vm_compute; reflexivity) E)
    as (meta & meta' & sync & sync' & entry & event_id & h & Hf & Ht & Hst & Hev
        & He & _ & _ & _ & _ & Hs & Hc & _ & _ & Hother).
  exists meta', sync', entry, event_id.
  split; [exact Ht|]. split; [exact Hst|]. split; [exact Hev|].
  split; [exact He|]. split; [exact Hs|]. split; [exact Hc|].
  rewrite (Hother "name") by discriminate.
  assert (Hm : meta = SHIP_V2).
  { assert (Hw : threads WORLD_NEW !! "t1" = Some (Some (Json (JObj SHIP_V2))))
      by (vm_compute; reflexivity).
    rewrite Hw in Hf. now inversion Hf. }
  now rewrite Hm.
Defined.

Lemma updated_entry_witness :
  match sync_thread_to_calendar ENV_OK "t1"
          (state_with {[ "t1" := entry_of "ev1" "old" ]}) WORLD_STALE with
  | Ok (r, state') w' =>
      r = "updated"
      /\ exists (d' : dict) h args pr,
        state' = JObj (<["synced_threads" :=
                         JObj (<["t1" := JObj d']> {[ "t1" := entry_of "ev1" "old" ]})]>
                         (entries_state {[ "t1" := entry_of "ev1" "old" ]}))
        /\ get_thread_hash SHIP_V2 = Val h
        /\ d' !! "hash" = Some (JStr h)
        /\ d' !! "event_id" = Some (JStr "ev1")
        /\ calls w' = calls WORLD_STALE ++ [(JStr "update" :: JStr "ev1" :: args, pr)]
        /\ threads w' = threads WORLD_STALE
  | Raise _ _ => False
  end.
Proof.
  assert (Hok : match sync_thread_to_calendar ENV_OK "t1"
                        (state_with {[ "t1" := entry_of "ev1" "old" ]})
                        WORLD_STALE with
                | Ok r _ => String.eqb r.1 "updated"
                | Raise _ _ => false
                end = true) by (vm_compute; reflexivity).
  destruct (sync_thread_to_calendar ENV_OK "t1"
              (state_with {[ "t1" := entry_of "ev1" "old" ]}) WORLD_STALE)
    as [[r st] w'|e w'] eqn:E; [|discriminate Hok].
  apply String.eqb_eq in Hok. cbn [fst] in Hok. subst r.
  split; [reflexivity|].
  destruct (updated_entry_refreshed ENV_OK "t1"
              (entries_state {[ "t1" := entry_of "ev1" "old" ]})
              {[ "t1" := entry_of "ev1" "old" ]} WORLD_STALE w' st
              ltac:(vm_compute; reflexivity) E)
    as (meta & d & d' & h & args & pr & Hf & Hd & Hst & Hh & Hhash & _ & Hother
        & Hc & _ & Ht).
  assert (Hm : meta = SHIP_V2).
  { assert (Hw : threads WORLD_STALE !! "t1" = Some (Some (Json (JObj SHIP_V2))))
      by (vm_compute; reflexivity).
    rewrite Hw in Hf. now inversion Hf. }
  assert (Hd' : d = {[ "event_id" := JStr "ev1"; "hash" := JStr "old";
                       "priority" := JStr "P2" ]}).
  { assert (Hw : ({[ "t1" := entry_of "ev1" "old" ]} : dict) !! "t1"
                 = Some (entry_of "ev1" "old")) by (vm_compute; reflexivity).
    rewrite Hw in Hd. now inversion Hd. }
  subst meta d.
  exists d', h, args, pr.
  split; [exact Hst|]. split; [exact Hh|]. split; [exact Hhash|].
  split; [rewrite (Hother "event_id") by discriminate; vm_compute; reflexivity|].
  split; [exact Hc | exact Ht].
Defined.

Lemma failed_create_witness :
  match sync_thread_to_calendar ENV_DOWN "t1" fresh_state WORLD_NEW with
  | Ok (r, state') w' =>
      r = "error" /\ state' = fresh_state /\ threads w' = threads WORLD_NEW
      /\ exists args pr, calls w' = calls WORLD_NEW ++ [(JStr "create" :: args, pr)]
  | Raise _ _ => False
  end.
Proof.
  assert (Hok : is_ok (sync_thread_to_calendar ENV_DOWN "t1" fresh_state WORLD_NEW)
                = true) by (vm_compute; reflexivity).
  destruct (sync_thread_to_calendar ENV_DOWN "t1" fresh_state WORLD_NEW)
    as [[r st] w'|e w'] eqn:E; [|discriminate Hok].
  set (h := match get_thread_hash SHIP_V2 with Val h => h | Exn _ => EmptyString end).
  apply (failed_create_leaves_no_entry ENV_DOWN "t1" SHIP_V2 (entries_state ∅) ∅ h
           WORLD_NEW w' r st);
    try (vm_compute; reflexivity).
  exact E.
Defined.

Lemma sync_field_witness :
  exists w',
    sync_thread_to_calendar ENV_OK "t1" fresh_state
      (fixture_world {[ "t1" := Some (Json (JObj BAD_SYNC)) ]} None)
    = Raise AttributeError w'
    /\ calls w' = [].
Proof.
  set (h := match get_thread_hash BAD_SYNC with Val h => h | Exn _ => EmptyString end).
  destruct (sync_field_not_an_object_raises ENV_OK "t1" BAD_SYNC (entries_state ∅) ∅
              (JStr "evt_123") h
              (fixture_world {[ "t1" := Some (Json (JObj BAD_SYNC)) ]} None))
    as (w' & E & _ & _ & Hc); try (vm_compute; reflexivity).
  - intros d. discriminate.
  - exists w'. split; [exact E | exact Hc].
Defined.


(** ** The pass, the state and the summary *)

Lemma well_formed_entries_witness :
  match reconcile ENV_OK
          (state_with {[ "t2" := entry_of "ev2" "h2";
                         "t4" := entry_of SENTINEL "h4";
                         "gone" := entry_of "ev0" "h0" ]}) WORLD_MIXED with
  | Ok (_, state') _ =>
      exists E' : dict,
        entries_of state' = Some E'
        /\ forall t v, E' !! t = Some v -> wf_entry v
  | Raise _ _ => False
  end.
Proof.
  assert (Hok : is_ok (reconcile ENV_OK
                         (state_with {[ "t2" := entry_of "ev2" "h2";
                                        "t4" := entry_of SENTINEL "h4";
                                        "gone" := entry_of "ev0" "h0" ]})
                         WORLD_MIXED) = true) by (vm_compute; reflexivity).
  destruct (reconcile ENV_OK
              (state_with {[ "t2" := entry_of "ev2" "h2";
                             "t4" := entry_of SENTINEL "h4";
                             "gone" := entry_of "ev0" "h0" ]}) WORLD_MIXED)
    as [[stats st] w'|e w'] eqn:E; [|discriminate Hok].
  apply (entries_stay_well_formed ENV_OK
              (state_with {[ "t2" := entry_of "ev2" "h2";
                             "t4" := entry_of SENTINEL "h4";
                             "gone" := entry_of "ev0" "h0" ]}) st
           {[ "t2" := entry_of "ev2" "h2"; "t4" := entry_of SENTINEL "h4";
              "gone" := entry_of "ev0" "h0" ]} WORLD_MIXED w' stats);
    [vm_compute; reflexivity | | exact E].
  intros t v Hv.
  apply lookup_insert_Some in Hv as [[_ <-] | [_ Hv]];
    [|apply lookup_insert_Some in Hv as [[_ <-] | [_ Hv]];
      [|apply lookup_singleton_Some in Hv as [_ <-]]].
  all: eexists _, _, _, "P2";
    split; [reflexivity|]; repeat split; try (vm_compute; reflexivity);
    repeat constructor.
Defined.

Lemma summary_witness :
  exists w',
    print_sync_summary initial_stats
      (state_with {[ "t1" := entry_of "ev1" "old" ]}) WORLD_STALE
    = Ok tt w'.
Proof.
  destruct (summary_of_well_formed_entries initial_stats
              (entries_state {[ "t1" := entry_of "ev1" "old" ]})
              {[ "t1" := entry_of "ev1" "old" ]} WORLD_STALE) as (w' & E & _).
  - intros k Hk.
    repeat (apply elem_of_cons in Hk as [-> | Hk]; [vm_compute; eauto|]).
    inversion Hk.
  - vm_compute. reflexivity.
  - intros t v Hv. apply lookup_singleton_Some in Hv as [_ <-].
    eexists _, _, _, "P2".
    split; [reflexivity|]; repeat split; try (vm_compute; reflexivity).
    repeat constructor.
  - exists w'. exact E.
Defined.

Lemma orphan_cleanup_witness :
  match cleanup_orphaned_events ENV_DOWN
          (state_with {[ "t2" := entry_of "ev2" "h2";
                         "t4" := entry_of SENTINEL "h4";
                         "gone" := entry_of "ev0" "h0" ]}) WORLD_MIXED with
  | Ok (n, state') w' =>
      n = 2%nat
      /\ exists E' : dict,
        entries_of state' = Some E'
        /\ E' !! "t2" = Some (entry_of "ev2" "h2")
        /\ E' !! "t4" = None /\ E' !! "gone" = None
        /\ cleanup_orphaned_events ENV_DOWN state' w' = Ok (0%nat, state') w'
  | Raise _ _ => False
  end.
Proof.
  assert (Hok : match cleanup_orphaned_events ENV_DOWN
                        (state_with {[ "t2" := entry_of "ev2" "h2";
                                       "t4" := entry_of SENTINEL "h4";
                                       "gone" := entry_of "ev0" "h0" ]})
                        WORLD_MIXED with
                | Ok r _ => Nat.eqb r.1 2
                | Raise _ _ => false
                end = true) by (vm_compute; reflexivity).
  destruct (cleanup_orphaned_events ENV_DOWN
              (state_with {[ "t2" := entry_of "ev2" "h2";
                             "t4" := entry_of SENTINEL "h4";
                             "gone" := entry_of "ev0" "h0" ]}) WORLD_MIXED)
    as [[n st] w'|e w'] eqn:E; [|discriminate Hok].
  cbn [fst] in Hok. apply Nat.eqb_eq in Hok. split; [exact Hok|].
  destruct (orphan_cleanup_exact ENV_DOWN
              (state_with {[ "t2" := entry_of "ev2" "h2";
                             "t4" := entry_of SENTINEL "h4";
                             "gone" := entry_of "ev0" "h0" ]}) st
              {[ "t2" := entry_of "ev2" "h2"; "t4" := entry_of SENTINEL "h4";
                 "gone" := entry_of "ev0" "h0" ]} WORLD_MIXED w' n
              ltac:(vm_compute; reflexivity) E)
    as (E' & HE' & Hp & _ & _ & Hidem).
  exists E'. split; [exact HE'|].
  rewrite !Hp. repeat split; try (vm_compute; reflexivity). exact Hidem.
Defined.

Lemma unreadable_state_witness :
  (exists w',
      main ENV_OK (fixture_world {[ "t1" := Some (Json (JObj SHIP_V2)) ]}
                     (Some Garbage))
      = Raise JSONDecodeError w'
      /\ calls w' = [] /\ state_file w' = Some Garbage)
  /\ (exists w',
         main ENV_OK (fixture_world {[ "t1" := Some (Json (JObj SHIP_V2)) ]}
                        (Some Undecodable))
         = Raise UnicodeDecodeError w'
         /\ calls w' = [] /\ state_file w' = Some Undecodable).
Proof.
  split.
  - destruct (proj1 (unreadable_state_aborts ENV_OK
                (fixture_world {[ "t1" := Some (Json (JObj SHIP_V2)) ]}
                   (Some Garbage))) eq_refl)
      as (w' & E & _ & Hs & Hc).
    exists w'. split; [exact E|]. split; [exact Hc | exact Hs].
  - destruct (proj2 (unreadable_state_aborts ENV_OK
                (fixture_world {[ "t1" := Some (Json (JObj SHIP_V2)) ]}
                   (Some Undecodable))) eq_refl)
      as (w' & E & _ & Hs & Hc).
    exists w'. split; [exact E|]. split; [exact Hc | exact Hs].
Defined.

Lemma state_without_entries_witness :
  (exists w',
      main ENV_OK (fixture_world {[ "t1" := Some (Json (JObj SHIP_V2)) ]}
                     (Some (Json (JObj {[ "last_sync" := JNull ]}))))
      = Raise KeyError w'
      /\ calls w' = [])
  /\ (exists w',
         main ENV_OK (fixture_world {[ "t1" := Some (Json (JObj SHIP_V2)) ]}
                        (Some (Json (JArr []))))
         = Raise TypeError w'
         /\ calls w' = []).
Proof.
  split.
  - destruct (state_without_entries_aborts ENV_OK
                (fixture_world {[ "t1" := Some (Json (JObj SHIP_V2)) ]}
                   (Some (Json (JObj {[ "last_sync" := JNull ]}))))
                (JObj {[ "last_sync" := JNull ]}))
      as (w' & E & _ & _ & Hc); [reflexivity | vm_compute; reflexivity |].
    exists w'. split; [exact E | exact Hc].
  - destruct (state_without_entries_aborts ENV_OK
                (fixture_world {[ "t1" := Some (Json (JObj SHIP_V2)) ]}
                   (Some (Json (JArr []))))
                (JArr []) eq_refl I)
      as (w' & E & _ & _ & Hc).
    exists w'. split; [exact E | exact Hc].
Defined.

Lemma cumulative_counters_witness :
  exists ss' : dict,
    update_cumulative {[ "created" := 2; "error" := 1 ]}
      (JObj {[ "sync_stats" := JObj {[ "created" := JInt 5; "note" := JStr "kept" ]} ]})
    = Val (JObj (<["sync_stats" := JObj ss']>
                   {[ "sync_stats" := JObj {[ "created" := JInt 5;
                                              "note" := JStr "kept" ]} ]}))
    /\ ss' !! "created" = Some (JInt 7)
    /\ ss' !! "errors" = Some (JInt 0)
    /\ ss' !! "note" = Some (JStr "kept").
Proof.
  destruct (cumulative_counters_add {[ "created" := 2; "error" := 1 ]}
              {[ "sync_stats" := JObj {[ "created" := JInt 5; "note" := JStr "kept" ]} ]}
              {[ "created" := JInt 5; "note" := JStr "kept" ]}
              (fun k => if String.eqb k "created" then 5 else 0))
    as (ss' & E & Hin & Hout).
  - vm_compute. reflexivity.
  - intros k Hk.
    repeat (apply elem_of_cons in Hk as [-> | Hk]; [vm_compute; reflexivity|]).
    inversion Hk.
  - exists ss'. split; [exact E|].
    split; [rewrite (Hin "created") by repeat constructor; vm_compute; reflexivity|].
    split; [rewrite (Hin "errors") by repeat constructor; vm_compute; reflexivity|].
    rewrite (Hout "note"); [vm_compute; reflexivity|].
    intros Hk.
    repeat (apply elem_of_cons in Hk as [Hk | Hk]; [discriminate Hk|]).
    inversion Hk.
Defined.

Lemma main_exit_code_witness :
  match main ENV_DOWN WORLD_STALE with
  | Ok code w' => code = 0 /\ forallb call_ok (calls w') = false
  | Raise _ _ => False
  end.
Proof.
  assert (Hok : match main ENV_DOWN WORLD_STALE with
                | Ok _ w' => negb (forallb call_ok (calls w'))
                | Raise _ _ => false
                end = true) by (vm_compute; reflexivity).
  destruct (main ENV_DOWN WORLD_STALE) as [code w'|e w'] eqn:E;
    [|discriminate Hok].
  split; [exact (main_exit_code_zero ENV_DOWN WORLD_STALE code w' E)|].
  now apply negb_true_iff.
Defined.


(** ** Week labels and relative phrases *)

Lemma week_label_monday_witness :
  match labels_loop ENV_DOWN [JStr "next-week"; JStr "due-2026-03-01"] WORLD_NEW with
  | Ok (Some d) _ => weekday d = 0 /\ FIXTURE_NOW < d
  | _ => False
  end.
Proof.
  assert (Hok : match labels_loop ENV_DOWN [JStr "next-week"; JStr "due-2026-03-01"]
                        WORLD_NEW with
                | Ok (Some _) _ => true
                | _ => false
                end = true) by (vm_compute; reflexivity).
  destruct (labels_loop ENV_DOWN [JStr "next-week"; JStr "due-2026-03-01"] WORLD_NEW)
    as [[d|] w'|e w'] eqn:E; try discriminate Hok.
  apply (week_label_is_a_monday ENV_DOWN (JStr "next-week") [JStr "due-2026-03-01"]
           WORLD_NEW w' d);
    [right; vm_compute; reflexivity | vm_compute; reflexivity | exact E].
Defined.

Lemma relative_phrase_witness :
  @extract_deadline_from_text TEXT_LIB ENV_DOWN (JStr "Ship in 3 Weeks") WORLD_NEW
  = Ok (Some (FIXTURE_NOW + 21 * US_PER_DAY)) (tick WORLD_NEW).
Proof.
  destruct (@relative_phrase_deadline TEXT_LIB ENV_DOWN "Ship in 3 Weeks" "3" "week" 3
              WORLD_NEW) as (_ & Hweek & _);
    [discriminate | vm_compute; reflexivity .. |].
  rewrite (Hweek eq_refl). vm_compute. reflexivity.
Defined.
